(** * Hospital accreditation survey reports: the query engine and the
      version-guarded update pipeline

    A shallow embedding of the report repository, the report service, the
    status-based edit authorisation middleware and the controllers of the
    survey backend, together with the properties of its specification.

    Conventions of the embedding.
    - TypeScript string enums ([SurveyStatus], [UserRole], ...) are the
      strings they are at run time; a [switch] or [===] on them is a string
      comparison, so that an unrecognised value reaches the [default] branch.
    - A [Date] is the integer [getTime()] returns (milliseconds since the
      epoch); integral JavaScript numbers (versions, scores, counts) are
      [Z]. The [page] and [limit] of a query, which need not be integers,
      are numbers of [Num]: a rational, an infinity or [NaN].
    - The global array [sampleReports] is threaded explicitly: an operation
      takes the store and returns its outcome and the store it leaves.
    - What the code reads from its environment ([uuid()], [new Date()]) is an
      argument of the operation that reads it; [getFullYear], [localeCompare]
      and zod's UUID test, which depend on the time zone, the locale and the
      library, are section variables.
    - Arithmetic is exact; where the code makes a double of digits it read
      ([parseInt]), the rounding is written out.
    - A string the code copies or compares is a [string]; a string whose
      characters it inspects is the list of its UTF-16 code units. *)

From Stdlib Require Import ZArith String Ascii List Bool Lia Sorted Permutation.
From Stdlib Require Import DecimalString QArith Qround.
From stdpp Require Import base option list gmap strings.

Import ListNotations.
Local Open Scope string_scope.
Local Open Scope Z_scope.

(** ** JavaScript values that reach the code dynamically *)

(** The request body's [version] and the [If-Match] header are not validated:
    whatever JSON value the client sent flows into [updateReportById]. *)
Inductive JsVal : Type :=
| JUndefined
| JNull
| JBool (b : bool)
| JNum (n : Z)
| JNaN
| JInfinity (negative : bool)
| JStr (s : string)
| JObj.

Definition truthy (v : JsVal) : bool :=
  match v with
  | JUndefined | JNull | JNaN => false
  | JBool b => b
  | JNum n => negb (n =? 0)
  | JInfinity _ => true
  | JStr s => negb (String.eqb s "")
  | JObj => true
  end.

(** [a || b] *)
Definition js_or (a b : JsVal) : JsVal := if truthy a then a else b.

(** [n !== v] for a stored number [n]. *)
Definition num_strict_neq (n : Z) (v : JsVal) : bool :=
  match v with
  | JNum m => negb (n =? m)
  | _ => true
  end.

(** ** models/report.ts and models/user.ts *)

Definition Date := Z.

Module SurveyType.
Definition COMPREHENSIVE : string := "comprehensive".
Definition MEDICATION_MANAGEMENT : string := "medication_management".
Definition INFECTION_CONTROL : string := "infection_control".
Definition PATIENT_SAFETY : string := "patient_safety".
End SurveyType.

Module SurveyStatus.
Definition COMPLIANT : string := "compliant".
Definition DEFICIENT : string := "deficient".
Definition IMMEDIATE_JEOPARDY : string := "immediate_jeopardy".
End SurveyStatus.

Module AccreditationBody.
Definition JOINT_COMMISSION : string := "Joint Commission".
Definition ACHC : string := "ACHC".
Definition DNV : string := "DNV".
End AccreditationBody.

Module DeficiencySeverity.
Definition MINOR : string := "minor".
Definition MAJOR : string := "major".
Definition IMMEDIATE_JEOPARDY : string := "immediate_jeopardy".
End DeficiencySeverity.

Module UserRole.
Definition READER : string := "reader".
Definition EDITOR : string := "editor".
Definition ADMIN : string := "admin".
End UserRole.

Module Deficiency.
Record t : Type := mk {
  id : string;
  standardCode : string;
  description : string;
  severity : string;
  dueDate : option Date
}.
End Deficiency.

Module Report.
Record t : Type := mk {
  id : string;
  facilityId : string;
  surveyType : string;
  surveyDate : Date;
  leadSurveyor : string;
  surveyScope : list string;
  complianceScore : Z;
  status : string;
  accreditationBody : string;
  deficiencies : list Deficiency.t;
  correctiveActionDue : Date;
  followUpRequired : bool;
  surveyorNotes : list string;
  createdAt : Date;
  updatedAt : Date;
  version : Z
}.
End Report.

(** [Partial<Report>]: every key optional. *)
Module PartialReport.
Record t : Type := mk {
  id : option string;
  facilityId : option string;
  surveyType : option string;
  surveyDate : option Date;
  leadSurveyor : option string;
  surveyScope : option (list string);
  complianceScore : option Z;
  status : option string;
  accreditationBody : option string;
  deficiencies : option (list Deficiency.t);
  correctiveActionDue : option Date;
  followUpRequired : option bool;
  surveyorNotes : option (list string);
  createdAt : option Date;
  updatedAt : option Date;
  version : option Z
}.

Definition empty : t :=
  mk None None None None None None None None None None None None None None None None.
End PartialReport.

(** [{ ...existingReport, ...updateData }] *)
Definition spread (r : Report.t) (p : PartialReport.t) : Report.t :=
  Report.mk
    (default (Report.id r) (PartialReport.id p))
    (default (Report.facilityId r) (PartialReport.facilityId p))
    (default (Report.surveyType r) (PartialReport.surveyType p))
    (default (Report.surveyDate r) (PartialReport.surveyDate p))
    (default (Report.leadSurveyor r) (PartialReport.leadSurveyor p))
    (default (Report.surveyScope r) (PartialReport.surveyScope p))
    (default (Report.complianceScore r) (PartialReport.complianceScore p))
    (default (Report.status r) (PartialReport.status p))
    (default (Report.accreditationBody r) (PartialReport.accreditationBody p))
    (default (Report.deficiencies r) (PartialReport.deficiencies p))
    (default (Report.correctiveActionDue r) (PartialReport.correctiveActionDue p))
    (default (Report.followUpRequired r) (PartialReport.followUpRequired p))
    (default (Report.surveyorNotes r) (PartialReport.surveyorNotes p))
    (default (Report.createdAt r) (PartialReport.createdAt p))
    (default (Report.updatedAt r) (PartialReport.updatedAt p))
    (default (Report.version r) (PartialReport.version p)).

(** ** services/reportRepository.ts *)

(** The module-level array [sampleReports]. *)
Abbreviation Store := (list Report.t).

Definition findReportById (id : string) (sampleReports : Store) : option Report.t :=
  List.find (fun report => String.eqb (Report.id report) id) sampleReports.

Definition findAllReports (sampleReports : Store) : list Report.t := sampleReports.

Definition findReportsByFacility (facilityId : string) (sampleReports : Store)
  : list Report.t :=
  List.filter (fun report => String.eqb (Report.facilityId report) facilityId)
    sampleReports.

(** [sampleReports.push(report); return report] *)
Definition createReport (report : Report.t) (sampleReports : Store)
  : Report.t * Store :=
  (report, (sampleReports ++ [report])%list).

(** [findIndex]: the first index whose report has the id, [None] for -1. *)
Fixpoint findIndex (id : string) (l : Store) : option nat :=
  match l with
  | [] => None
  | report :: rest =>
      if String.eqb (Report.id report) id then Some O
      else option_map S (findIndex id rest)
  end.

(** [updateReport(id, updateData)]; [now] is its [new Date()]. *)
Definition updateReport (id : string) (updateData : PartialReport.t) (now : Date)
    (sampleReports : Store) : option Report.t * Store :=
  match findIndex id sampleReports with
  | None => (None, sampleReports)
  | Some index =>
      match sampleReports !! index with
      | None => (None, sampleReports)
      | Some existingReport =>
          let s := spread existingReport updateData in
          let updated :=
            Report.mk (Report.id s) (Report.facilityId s) (Report.surveyType s)
              (Report.surveyDate s) (Report.leadSurveyor s) (Report.surveyScope s)
              (Report.complianceScore s) (Report.status s)
              (Report.accreditationBody s) (Report.deficiencies s)
              (Report.correctiveActionDue s) (Report.followUpRequired s)
              (Report.surveyorNotes s) (Report.createdAt s)
              now
              (Report.version existingReport + 1) in
          let sampleReports' := <[index := updated]> sampleReports in
          (sampleReports' !! index, sampleReports')
      end
  end.

(** ** utils/errors.ts *)

(** The [details] object of a [ConflictError], by the two places that build
    one. The interpolated [message] text is not modelled. *)
Inductive ConflictDetails : Type :=
| VersionDetails (expectedVersion : JsVal) (currentVersion : Z) (reportId : string)
| DuplicateDetails (facilityId surveyType existingReportId : string).

Inductive AppError : Type :=
| NotFoundError (resource : string) (id : string)
| ConflictError (details : ConflictDetails)
| ZodError.

Definition statusCode (e : AppError) : Z :=
  match e with
  | NotFoundError _ _ => 404
  | ConflictError _ => 409
  | ZodError => 400
  end.

Definition code (e : AppError) : string :=
  match e with
  | NotFoundError _ _ => "NOT_FOUND"
  | ConflictError _ => "CONFLICT"
  | ZodError => "VALIDATION_ERROR"
  end.

(** A computation that returns or throws. *)
Inductive result (A : Type) : Type :=
| Return (a : A)
| Throw (e : AppError).
Arguments Return {A} a.
Arguments Throw {A} e.

(** ** utils/validators.ts: the parsed inputs *)

(** [z.infer<typeof updateReportSchema>]. zod strips every other key of the
    body (in particular [version] and [id]). [correctiveActionDue] is the
    instant its validated ISO string denotes: [datetime()] accepts no empty
    string, so the string is truthy whenever it is defined, and
    [new Date(s)] is that instant. *)
Module UpdateReportInput.
Record t : Type := mk {
  surveyType : option string;
  leadSurveyor : option string;
  surveyScope : option (list string);
  complianceScore : option Z;
  status : option string;
  correctiveActionDue : option Date;
  followUpRequired : option bool
}.
End UpdateReportInput.

(** [z.infer<typeof createReportSchema>], dates as the instants they denote. *)
Module CreateReportInput.
Record t : Type := mk {
  facilityId : string;
  surveyType : string;
  surveyDate : Date;
  leadSurveyor : string;
  surveyScope : list string;
  accreditationBody : string;
  correctiveActionDue : option Date;
  followUpRequired : bool
}.
End CreateReportInput.

(** ** services/reportService.ts: the mutation pipeline *)

(** What [createNewReport] reads from its environment, in program order:
    [uuid()], [Date.now()] for the default due date, and the two [new Date()]
    of [createdAt] and [updatedAt]. *)
Record CreateEnv : Type := mkCreateEnv {
  env_uuid : string;
  env_now_due : Date;
  env_now_created : Date;
  env_now_updated : Date
}.

(** [updateReportById(id, updateData, version, updatedBy)]. [now_service] is
    the [new Date()] of the payload, [now_repo] the one of the repository,
    which overrides it. *)
Definition updateReportById (id : string) (updateData : UpdateReportInput.t)
    (version : JsVal) (updatedBy : string) (now_service now_repo : Date)
    (sampleReports : Store) : result Report.t * Store :=
  match findReportById id sampleReports with
  | None => (Throw (NotFoundError "Report" id), sampleReports)
  | Some existingReport =>
      if num_strict_neq (Report.version existingReport) version then
        (Throw (ConflictError
                  (VersionDetails version (Report.version existingReport) id)),
         sampleReports)
      else
        (* statusPermissionMap is built and never read; the [if] on
           [updateData.status] has an empty body. *)
        let updatePayload :=
          PartialReport.mk None None
            (UpdateReportInput.surveyType updateData)
            None
            (UpdateReportInput.leadSurveyor updateData)
            (UpdateReportInput.surveyScope updateData)
            (UpdateReportInput.complianceScore updateData)
            (UpdateReportInput.status updateData)
            None None
            (UpdateReportInput.correctiveActionDue updateData)
            (UpdateReportInput.followUpRequired updateData)
            None None
            (Some now_service)
            None in
        match updateReport id updatePayload now_repo sampleReports with
        | (None, sampleReports') =>
            (Throw (NotFoundError "Report" id), sampleReports')
        | (Some updatedReport, sampleReports') =>
            (Return updatedReport, sampleReports')
        end
  end.

Section Service.

(** [Date.prototype.getFullYear]: the calendar year of an instant in the
    time zone of the process. *)
Variable getFullYear : Date -> Z.

(** [createNewReport(reportData, createdBy)]. The notification it triggers
    is detached and its failure is only logged; it touches neither the
    result nor the store. *)
Definition createNewReport (reportData : CreateReportInput.t)
    (createdBy : string) (env : CreateEnv) (sampleReports : Store)
  : result Report.t * Store :=
  let existingReports :=
    findReportsByFacility (CreateReportInput.facilityId reportData) sampleReports in
  let surveyYear := getFullYear (CreateReportInput.surveyDate reportData) in
  let duplicateReport :=
    List.find
      (fun report =>
         String.eqb (Report.surveyType report)
                    (CreateReportInput.surveyType reportData)
         && (getFullYear (Report.surveyDate report) =? surveyYear))
      existingReports in
  match duplicateReport with
  | Some duplicate =>
      (Throw (ConflictError
                (DuplicateDetails (CreateReportInput.facilityId reportData)
                                  (CreateReportInput.surveyType reportData)
                                  (Report.id duplicate))),
       sampleReports)
  | None =>
      let newReport :=
        Report.mk
          (env_uuid env)
          (CreateReportInput.facilityId reportData)
          (CreateReportInput.surveyType reportData)
          (CreateReportInput.surveyDate reportData)
          (CreateReportInput.leadSurveyor reportData)
          (CreateReportInput.surveyScope reportData)
          0
          SurveyStatus.COMPLIANT
          (CreateReportInput.accreditationBody reportData)
          []
          (match CreateReportInput.correctiveActionDue reportData with
           | Some due => due
           | None => env_now_due env + 30 * 24 * 60 * 60 * 1000
           end)
          (CreateReportInput.followUpRequired reportData || false)
          []
          (env_now_created env)
          (env_now_updated env)
          1 in
      let (savedReport, sampleReports') := createReport newReport sampleReports in
      (Return savedReport, sampleReports')
  end.

(** *** Runs of the pipeline *)

Inductive Op : Type :=
| OpCreate (reportData : CreateReportInput.t) (createdBy : string) (env : CreateEnv)
| OpUpdate (id : string) (updateData : UpdateReportInput.t) (version : JsVal)
           (updatedBy : string) (now_service now_repo : Date).

Definition is_Return {A} (r : result A) : bool :=
  match r with Return _ => true | Throw _ => false end.

(** One request: whether it succeeded, and the store it leaves. *)
Definition step (op : Op) (s : Store) : bool * Store :=
  match op with
  | OpCreate reportData createdBy env =>
      let (r, s') := createNewReport reportData createdBy env s in (is_Return r, s')
  | OpUpdate id updateData version updatedBy n1 n2 =>
      let (r, s') := updateReportById id updateData version updatedBy n1 n2 s in
      (is_Return r, s')
  end.

Fixpoint run (ops : list Op) (s : Store) : Store :=
  match ops with
  | [] => s
  | op :: rest => run rest (snd (step op s))
  end.

Definition targets (id : string) (op : Op) : bool :=
  match op with
  | OpUpdate id' _ _ _ _ _ => String.eqb id' id
  | OpCreate _ _ _ => false
  end.

(** The number of updates of report [id] that succeed along the run. *)
Fixpoint successfulUpdates (id : string) (ops : list Op) (s : Store) : nat :=
  match ops with
  | [] => O
  | op :: rest =>
      let (ok, s') := step op s in
      ((if ok && targets id op then 1 else 0)
       + successfulUpdates id rest s')%nat
  end.

End Service.

(** ** middleware/auth.ts: status-based edit authorisation *)

Module AuthUser.
Record t : Type := mk {
  id : string;
  email : string;
  name : string;
  role : string
}.
End AuthUser.

(** Helper function to check if user role can edit report with given status. *)
Definition checkStatusEditPermission (userRole reportStatus : string) : bool :=
  if String.eqb reportStatus SurveyStatus.IMMEDIATE_JEOPARDY then
    String.eqb userRole UserRole.ADMIN
  else if String.eqb reportStatus SurveyStatus.DEFICIENT then
    String.eqb userRole UserRole.EDITOR || String.eqb userRole UserRole.ADMIN
  else if String.eqb reportStatus SurveyStatus.COMPLIANT then
    String.eqb userRole UserRole.READER || String.eqb userRole UserRole.EDITOR
    || String.eqb userRole UserRole.ADMIN
  else false.

(** Helper function to get required role for status. *)
Definition getRequiredRoleForStatus (status : string) : string :=
  if String.eqb status SurveyStatus.IMMEDIATE_JEOPARDY then "admin"
  else if String.eqb status SurveyStatus.DEFICIENT then "editor or admin"
  else if String.eqb status SurveyStatus.COMPLIANT then "reader, editor, or admin"
  else "unknown".

Record ForbiddenDetails : Type := mkForbiddenDetails {
  userRole : string;
  reportStatus : string;
  requiredRole : string
}.

(** What a handler of the PUT route sends. [Res403] and [Res404] are the
    bodies the middleware writes itself ([success] is false in both);
    [ResUpdated] is the controller's 200 with its [ETag]. *)
Inductive Response : Type :=
| Res401
| Res403 (error : string) (details : option ForbiddenDetails)
| Res404 (error : string)
| ResUpdated (data : Report.t) (etag : string) (message : string).

(** The part of an Express request the PUT route reads. [user] is what
    [authenticate] attached ([None] when it answered 401), [body] is the
    outcome of [updateReportSchema.parse(req.body)] ([None] when it throws),
    [body_version] is the unvalidated [req.body.version], [if_match] the
    header ([None] when absent). *)
Module Request.
Record t : Type := mk {
  user : option AuthUser.t;
  params_id : string;
  body : option UpdateReportInput.t;
  body_version : JsVal;
  if_match : option string
}.
End Request.

(** [authorizeReportEdit()]: [Some] response when the middleware answers
    itself, [None] when it calls [next()]. It only reads the store. *)
Definition authorizeReportEdit (req : Request.t) (sampleReports : Store)
  : option Response :=
  match Request.user req with
  | None => Some (Res403 "Forbidden - Missing user or report ID" None)
  | Some user =>
      let reportId := Request.params_id req in
      if String.eqb reportId "" then
        Some (Res403 "Forbidden - Missing user or report ID" None)
      else
        match findReportById reportId sampleReports with
        | None => Some (Res404 "Report not found")
        | Some existingReport =>
            let canEdit :=
              checkStatusEditPermission (AuthUser.role user)
                                        (Report.status existingReport) in
            if negb canEdit then
              Some (Res403
                      ("Insufficient permissions to edit "
                         ++ Report.status existingReport
                         ++ " reports. Required role: "
                         ++ getRequiredRoleForStatus (Report.status existingReport))
                      (Some (mkForbiddenDetails
                               (AuthUser.role user)
                               (Report.status existingReport)
                               (getRequiredRoleForStatus
                                  (Report.status existingReport)))))
            else None
        end
  end.

(** ** controllers/reportController.ts: the update handler *)

(** A JavaScript string is a sequence of UTF-16 code units. A string the
    code only copies or compares is a [string] here. One whose characters
    the code inspects ([trim], [split], [parseInt]) is the list of its code
    units; [codeUnits] gives them for a [string] whose characters are the
    code units below 256, which is how the value of an HTTP header is
    decoded. *)
Definition codeUnits (s : string) : list Z :=
  List.map (fun c => Z.of_nat (nat_of_ascii c)) (list_ascii_of_string s).

(** WhiteSpace and LineTerminator of the language, which [trim] removes and
    [parseInt] skips: tab to carriage return, space, no-break space, the
    space separators of Unicode, the line and paragraph separators and the
    byte order mark. *)
Definition isWhiteSpace (c : Z) : bool :=
  ((9 <=? c) && (c <=? 13)) || (c =? 32) || (c =? 160) || (c =? 5760)
  || ((8192 <=? c) && (c <=? 8202)) || (c =? 8232) || (c =? 8233)
  || (c =? 8239) || (c =? 8287) || (c =? 12288) || (c =? 65279).

Fixpoint trimStart (s : list Z) : list Z :=
  match s with
  | [] => []
  | c :: rest => if isWhiteSpace c then trimStart rest else s
  end.

(** The value of the code unit [c] as a digit in the radix, if it is one. *)
Definition digitValue (radix : Z) (c : Z) : option Z :=
  let v :=
    if (48 <=? c) && (c <=? 57) then Some (c - 48)
    else if (97 <=? c) && (c <=? 122) then Some (c - 87)
    else if (65 <=? c) && (c <=? 90) then Some (c - 55)
    else None in
  match v with
  | Some d => if d <? radix then Some d else None
  | None => None
  end.

(** The longest prefix of digits, read in the radix; [acc] is [None] until a
    digit has been read. *)
Fixpoint parseDigits (radix : Z) (s : list Z) (acc : option Z) : option Z :=
  match s with
  | [] => acc
  | c :: rest =>
      match digitValue radix c with
      | Some d => parseDigits radix rest (Some (default 0 acc * radix + d))
      | None => acc
      end
  end.

(** The double nearest to a natural number [n]: [n] itself when it has at
    most 53 significant bits, otherwise its 53 leading bits rounded to
    nearest, ties to even. *)
Definition roundToDouble (n : Z) : Z :=
  let bits := Z.log2 n + 1 in
  if bits <=? 53 then n
  else
    let shift := bits - 53 in
    let q := Z.shiftr n shift in
    let r := n - Z.shiftl q shift in
    let half := Z.shiftl 1 (shift - 1) in
    let q' := if r <? half then q
              else if half <? r then q + 1
              else if Z.even q then q else q + 1 in
    Z.shiftl q' shift.

(** The Number value of an integer: the nearest double, or an infinity
    beyond the largest one. *)
Definition toNumber (n : Z) : JsVal :=
  let m := roundToDouble (Z.abs n) in
  if 2 ^ 1024 <=? m then JInfinity (n <? 0)
  else JNum (Z.sgn n * m).

(** [parseInt(x)] without a radix; [None] is [undefined], which is read as
    the string "undefined". *)
Definition parseInt (input : option string) : JsVal :=
  let inputString := codeUnits (default "undefined" input) in
  let S := trimStart inputString in
  let '(sign, S1) :=
    match S with
    | 45 :: rest => (-1, rest)
    | 43 :: rest => (1, rest)
    | _ => (1, S)
    end in
  let '(R, S2) :=
    match S1 with
    | 48 :: 120 :: rest => (16, rest)
    | 48 :: 88 :: rest => (16, rest)
    | _ => (10, S1)
    end in
  match parseDigits R S2 None with
  | None => JNaN
  | Some n => toNumber (sign * n)
  end.

(** [req.body.version || parseInt(req.headers['if-match']) || 1] *)
Definition requestVersion (body_version : JsVal) (if_match : option string) : JsVal :=
  js_or body_version (js_or (parseInt if_match) (JNum 1)).

(** [(req as any).user?.id || 'unknown'] *)
Definition actorId (req : Request.t) : string :=
  match Request.user req with
  | Some u => if String.eqb (AuthUser.id u) "" then "unknown" else AuthUser.id u
  | None => "unknown"
  end.

(** The character [U+0022]. *)
Definition doubleQuote : ascii := ascii_of_nat 34.

(** The string a template literal makes of an integer below [10^21]: its
    decimal digits, after a minus sign when it is negative. *)
Definition numberToString (n : Z) : string := NilZero.string_of_int (Z.to_int n).

(** What the controller does with the outcome of the service: a 200 with the
    report and, as [ETag], its version between double quotes, or the error
    rethrown to the error middleware. *)
Definition respondUpdated (outcome : result Report.t * Store)
  : result Response * Store :=
  match outcome with
  | (Return updatedReport, sampleReports') =>
      (Return (ResUpdated updatedReport
                 (String doubleQuote
                    (numberToString (Report.version updatedReport)
                       ++ String doubleQuote ""))
                 "Survey report updated successfully"),
       sampleReports')
  | (Throw e, sampleReports') => (Throw e, sampleReports')
  end.

Section Http.

(** [uuidSchema.parse] succeeds on exactly the strings zod takes for
    UUIDs. *)
Variable uuidSchema : string -> bool.

(** The controller's [updateReport]: it responds, or rethrows what the
    validation or the service threw. *)
Definition controller_updateReport (req : Request.t) (now_service now_repo : Date)
    (sampleReports : Store) : result Response * Store :=
  if negb (uuidSchema (Request.params_id req)) then (Throw ZodError, sampleReports)
  else
    let reportId := Request.params_id req in
    match Request.body req with
    | None => (Throw ZodError, sampleReports)
    | Some updateData =>
        let version :=
          requestVersion (Request.body_version req) (Request.if_match req) in
        let updatedBy := actorId req in
        respondUpdated
          (updateReportById reportId updateData version updatedBy
             now_service now_repo sampleReports)
    end.

(** [router.put('/:id', authenticate, authorizeReportEdit(), updateReport)] *)
Definition put_report (req : Request.t) (now_service now_repo : Date)
    (sampleReports : Store) : result Response * Store :=
  match Request.user req with
  | None => (Return Res401, sampleReports)
  | Some _ =>
      match authorizeReportEdit req sampleReports with
      | Some response => (Return response, sampleReports)
      | None => controller_updateReport req now_service now_repo sampleReports
      end
  end.

End Http.

(** ** services/reportService.ts: the query and formatting engine *)

(** The numbers a sort comparator of the engine can produce: differences of
    integers and of [Infinity], and [NaN] ([Infinity - Infinity], or
    arithmetic on [undefined]). *)
Inductive JsNumber : Type :=
| Finite (z : Z)
| PosInf
| NegInf
| NaN.

Definition js_sub (a b : JsNumber) : JsNumber :=
  match a, b with
  | NaN, _ => NaN
  | _, NaN => NaN
  | Finite x, Finite y => Finite (x - y)
  | Finite _, PosInf => NegInf
  | Finite _, NegInf => PosInf
  | PosInf, PosInf => NaN
  | PosInf, _ => PosInf
  | NegInf, NegInf => NaN
  | NegInf, _ => NegInf
  end.

Definition js_neg (a : JsNumber) : JsNumber :=
  match a with
  | Finite z => Finite (- z)
  | PosInf => NegInf
  | NegInf => PosInf
  | NaN => NaN
  end.

(** [v > 0]; [Array.prototype.sort] reads a [NaN] result as [+0]. *)
Definition js_positive (v : JsNumber) : bool :=
  match v with
  | Finite z => 0 <? z
  | PosInf => true
  | NegInf | NaN => false
  end.

Definition js_negative (v : JsNumber) : bool :=
  match v with
  | Finite z => z <? 0
  | NegInf => true
  | PosInf | NaN => false
  end.

(** [Array.prototype.sort(comparefn)]. The language requires the sort to be
    stable; for a comparator that is a consistent ordering the stable sorted
    arrangement is unique, and this insertion sort computes it. *)
Section Sort.
Context {A : Type} (comparefn : A -> A -> JsNumber).

Fixpoint sort_insert (x : A) (l : list A) : list A :=
  match l with
  | [] => [x]
  | y :: rest =>
      if js_positive (comparefn x y) then y :: sort_insert x rest
      else x :: l
  end.

Definition js_sort (l : list A) : list A := foldr sort_insert [] l.
End Sort.

(** [Array.prototype.slice(start, end)] for integers [start] and [end]. *)
Definition js_slice {A : Type} (start end_ : Z) (l : list A) : list A :=
  let len := Z.of_nat (length l) in
  let k := if start <? 0 then Z.max (len + start) 0 else Z.min start len in
  let final := if end_ <? 0 then Z.max (len + end_) 0 else Z.min end_ len in
  take (Z.to_nat (final - k)) (drop (Z.to_nat k) l).

(** [Math.ceil(a / b)] for integers [a] and [b], [b] not zero. *)
Definition ceil_div (a b : Z) : Z := - ((- a) / b).

(** [String.prototype.split(',')] *)
Fixpoint split_comma (s : list Z) : list (list Z) :=
  match s with
  | [] => [[]]
  | c :: rest =>
      let parts := split_comma rest in
      if c =? 44 then [] :: parts
      else match parts with
           | piece :: others => (c :: piece) :: others
           | [] => [[c]]
           end
  end.

Fixpoint trimEnd (s : list Z) : list Z :=
  match s with
  | [] => []
  | c :: rest =>
      match trimEnd rest with
      | [] => if isWhiteSpace c then [] else [c]
      | t => c :: t
      end
  end.

(** [String.prototype.trim] *)
Definition trim (s : list Z) : list Z := trimEnd (trimStart s).

(** The numbers of the query. [page] and [limit] are doubles and need not
    be integers: the schema of the query asks for a number. A finite one is
    the rational it denotes, and the arithmetic is exact: it is the
    arithmetic of the code wherever the doubles do not round, which
    includes the integers below [2^53]. Zero carries no sign (it is read as
    [+0] where a sign would matter, which is in a division by zero only). *)
Module Num.

Inductive t : Type :=
| Finite (q : Q)
| PosInf
| NegInf
| NaN.

Definition of_Z (z : Z) : t := Finite (inject_Z z).

(** Zero and [NaN] are falsy. *)
Definition truthy (a : t) : bool :=
  match a with
  | Finite q => negb (Qeq_bool q 0)
  | PosInf | NegInf => true
  | NaN => false
  end.

(** The sign of a number, 0 for zero and for [NaN]. *)
Definition sgn (a : t) : Z :=
  match a with
  | Finite q => Z.sgn (Qnum q)
  | PosInf => 1
  | NegInf => -1
  | NaN => 0
  end.

(** The infinity of the given sign; [NaN] for the sign 0. *)
Definition infinity (s : Z) : t :=
  if 0 <? s then PosInf else if s <? 0 then NegInf else NaN.

Definition neg (a : t) : t :=
  match a with
  | Finite q => Finite (- q)
  | PosInf => NegInf
  | NegInf => PosInf
  | NaN => NaN
  end.

Definition add (a b : t) : t :=
  match a, b with
  | NaN, _ | _, NaN => NaN
  | Finite x, Finite y => Finite (x + y)
  | PosInf, NegInf | NegInf, PosInf => NaN
  | PosInf, _ | _, PosInf => PosInf
  | NegInf, _ | _, NegInf => NegInf
  end.

Definition sub (a b : t) : t := add a (neg b).

Definition mul (a b : t) : t :=
  match a, b with
  | NaN, _ | _, NaN => NaN
  | Finite x, Finite y => Finite (x * y)
  | _, _ => infinity (sgn a * sgn b)
  end.

Definition div (a b : t) : t :=
  match a, b with
  | NaN, _ | _, NaN => NaN
  | Finite x, Finite y =>
      if Qeq_bool y 0 then infinity (sgn a) else Finite (x / y)
  | Finite _, _ => Finite 0
  | _, Finite y => infinity (sgn a * (if Qeq_bool y 0 then 1 else sgn b))
  | _, _ => NaN
  end.

(** [Math.ceil] *)
Definition ceil (a : t) : t :=
  match a with
  | Finite q => Finite (inject_Z (Qceiling q))
  | _ => a
  end.

(** [a < b] *)
Definition ltb (a b : t) : bool :=
  match a, b with
  | NaN, _ | _, NaN => false
  | Finite x, Finite y => negb (Qle_bool y x)
  | NegInf, NegInf | PosInf, _ | _, NegInf => false
  | NegInf, _ | _, PosInf => true
  end.

End Num.

(** The integer part of a rational, towards zero. *)
Definition truncate (q : Q) : Z :=
  if Qle_bool 0 q then Qfloor q else Qceiling q.

(** The index [Array.prototype.slice] makes of a bound, for an array of
    length [len]: [ToIntegerOrInfinity] of the bound ([NaN] is 0), counted
    from the end when negative, and clamped to the array. *)
Definition sliceIndex (len : Z) (bound : Num.t) : Z :=
  match bound with
  | Num.NaN => 0
  | Num.NegInf => 0
  | Num.PosInf => len
  | Num.Finite q =>
      let relative := truncate q in
      if relative <? 0 then Z.max (len + relative) 0 else Z.min relative len
  end.

(** [Array.prototype.slice(start, end)] for bounds that are any numbers:
    each bound is made an index on its own. *)
Definition slice {A : Type} (start end_ : Num.t) (l : list A) : list A :=
  let len := Z.of_nat (length l) in
  let k := sliceIndex len start in
  let final := sliceIndex len end_ in
  take (Z.to_nat (final - k)) (drop (Z.to_nat k) l).

(** [ReportQueryOptions], the keys the engine reads. An absent key is
    [None]; [include], which the engine splits and trims, is given by its
    code units. *)
Module ReportQueryOptions.
Record t : Type := mk {
  view : option string;
  include : option (list Z);
  page : option Num.t;
  limit : option Num.t;
  deficiencies_severity : option string;
  deficiencies_sortBy : option string;
  deficiencies_order : option string
}.
End ReportQueryOptions.

(** Truthiness of an optional string (as a [string] or as code units) or
    number, and [o || d]. *)
Definition str_truthy (o : option string) : bool :=
  match o with
  | Some s => negb (String.eqb s "")
  | None => false
  end.

Definition units_truthy (o : option (list Z)) : bool :=
  match o with
  | Some (_ :: _) => true
  | _ => false
  end.

Definition num_truthy (o : option Num.t) : bool :=
  match o with
  | Some n => Num.truthy n
  | None => false
  end.

Definition str_or (o : option string) (d : string) : string :=
  if str_truthy o then default d o else d.

Definition num_or (o : option Num.t) (d : Num.t) : Num.t :=
  if num_truthy o then default d o else d.

Record Pagination : Type := mkPagination {
  currentPage : Num.t;
  totalPages : Num.t;
  totalItems : Z;
  itemsPerPage : Num.t;
  hasNext : bool;
  hasPrev : bool
}.

(** What [formatDeficiencies] returns: the bare array, or the envelope
    [{ items, pagination }]. *)
Inductive DeficienciesResult : Type :=
| Bare (items : list Deficiency.t)
| Envelope (items : list Deficiency.t) (pagination : Pagination).

(** [const severityOrder = { 'immediate_jeopardy': 3, 'major': 2, 'minor': 1 }] *)
Definition severityOrder : gmap string Z :=
  <["immediate_jeopardy" := 3]> (<["major" := 2]> (<["minor" := 1]> ∅)).

(** [severityOrder[s]] as an operand of [-]: [undefined] becomes [NaN]. *)
Definition severityRank (s : string) : JsNumber :=
  match severityOrder !! s with
  | Some n => Finite n
  | None => NaN
  end.

Definition dueTime (d : Deficiency.t) : JsNumber :=
  match Deficiency.dueDate d with
  | Some t => Finite t
  | None => PosInf
  end.

Section QueryEngine.

(** [String.prototype.localeCompare], which depends on the locale of the
    process. *)
Variable localeCompare : string -> string -> Z.

(** The [switch (sortBy)] of the comparator. *)
Definition comparison (sortBy : string) (a b : Deficiency.t) : JsNumber :=
  if String.eqb sortBy "dueDate" then js_sub (dueTime a) (dueTime b)
  else if String.eqb sortBy "severity" then
    js_sub (severityRank (Deficiency.severity b))
           (severityRank (Deficiency.severity a))
  else if String.eqb sortBy "standardCode" then
    Finite (localeCompare (Deficiency.standardCode a) (Deficiency.standardCode b))
  else Finite 0.

(** The function passed to [filtered.sort]. *)
Definition comparefn (sortBy sortOrder : string) (a b : Deficiency.t) : JsNumber :=
  if String.eqb sortOrder "asc" then comparison sortBy a b
  else js_neg (comparison sortBy a b).

(** The deficiencies after the filter and the sort. *)
Definition filterAndSort (deficiencies : list Deficiency.t)
    (options : ReportQueryOptions.t) : list Deficiency.t :=
  let filtered :=
    if str_truthy (ReportQueryOptions.deficiencies_severity options) then
      List.filter
        (fun d =>
           String.eqb (Deficiency.severity d)
             (default "" (ReportQueryOptions.deficiencies_severity options)))
        deficiencies
    else deficiencies in
  let sortBy := str_or (ReportQueryOptions.deficiencies_sortBy options) "severity" in
  let sortOrder := str_or (ReportQueryOptions.deficiencies_order options) "desc" in
  js_sort (comparefn sortBy sortOrder) filtered.

(** Format deficiencies with filtering, sorting, and pagination. *)
Definition formatDeficiencies (deficiencies : list Deficiency.t)
    (options : ReportQueryOptions.t) : DeficienciesResult :=
  let filtered := filterAndSort deficiencies options in
  let page := num_or (ReportQueryOptions.page options) (Num.of_Z 1) in
  let limit := num_or (ReportQueryOptions.limit options) (Num.of_Z 20) in
  let startIndex := Num.mul (Num.sub page (Num.of_Z 1)) limit in
  let endIndex := Num.add startIndex limit in
  let paginatedDeficiencies := slice startIndex endIndex filtered in
  if num_truthy (ReportQueryOptions.page options)
     || num_truthy (ReportQueryOptions.limit options) then
    Envelope paginatedDeficiencies
      (mkPagination
         page
         (Num.ceil (Num.div (Num.of_Z (Z.of_nat (length filtered))) limit))
         (Z.of_nat (length filtered))
         limit
         (Num.ltb endIndex (Num.of_Z (Z.of_nat (length filtered))))
         (Num.ltb (Num.of_Z 1) page))
  else Bare paginatedDeficiencies.

(** What a property of the Include Shape holds. *)
Inductive Value : Type :=
| VString (s : string)
| VNumber (n : Z)
| VBoolean (b : bool)
| VDate (d : Date)
| VStrings (l : list string)
| VDeficiencies (l : list Deficiency.t)
| VFormatted (r : DeficienciesResult).

(** [report[key]] for a key of [Report]. *)
Definition reportProperty (key : string) (report : Report.t) : option Value :=
  if String.eqb key "id" then Some (VString (Report.id report))
  else if String.eqb key "facilityId" then Some (VString (Report.facilityId report))
  else if String.eqb key "surveyType" then Some (VString (Report.surveyType report))
  else if String.eqb key "surveyDate" then Some (VDate (Report.surveyDate report))
  else if String.eqb key "leadSurveyor" then Some (VString (Report.leadSurveyor report))
  else if String.eqb key "surveyScope" then Some (VStrings (Report.surveyScope report))
  else if String.eqb key "complianceScore" then
    Some (VNumber (Report.complianceScore report))
  else if String.eqb key "status" then Some (VString (Report.status report))
  else if String.eqb key "accreditationBody" then
    Some (VString (Report.accreditationBody report))
  else if String.eqb key "deficiencies" then
    Some (VDeficiencies (Report.deficiencies report))
  else if String.eqb key "correctiveActionDue" then
    Some (VDate (Report.correctiveActionDue report))
  else if String.eqb key "followUpRequired" then
    Some (VBoolean (Report.followUpRequired report))
  else if String.eqb key "surveyorNotes" then
    Some (VStrings (Report.surveyorNotes report))
  else if String.eqb key "createdAt" then Some (VDate (Report.createdAt report))
  else if String.eqb key "updatedAt" then Some (VDate (Report.updatedAt report))
  else if String.eqb key "version" then Some (VNumber (Report.version report))
  else None.

(** Map include fields to report properties. The table is read by its own
    keys: a name inherited from [Object.prototype] (such as "constructor")
    makes the code store [undefined] under that name, and the JSON
    response drops such a property, so the serialised object is the same
    as if the name had been skipped. *)
Definition fieldMap : gmap string string :=
  list_to_map
    [ ("deficiencies", "deficiencies");
      ("notes", "surveyorNotes");
      ("surveyorNotes", "surveyorNotes");
      ("complianceScore", "complianceScore");
      ("status", "status");
      ("surveyType", "surveyType");
      ("facilityId", "facilityId");
      ("leadSurveyor", "leadSurveyor");
      ("surveyDate", "surveyDate");
      ("accreditationBody", "accreditationBody") ].

(** The [string] that has the given code units, when all are below 256. *)
Fixpoint fromCodeUnits (l : list Z) : option string :=
  match l with
  | [] => Some EmptyString
  | c :: rest =>
      if (0 <=? c) && (c <? 256) then
        option_map (String (ascii_of_nat (Z.to_nat c))) (fromCodeUnits rest)
      else None
  end.

(** The body of the callback of [fields.forEach] for a requested name that
    has no code unit above 255, applied to the object built so far. *)
Definition includeName (report : Report.t) (options : ReportQueryOptions.t)
    (result : gmap string Value) (field : string) : gmap string Value :=
  if String.eqb field "basic" then
    <["surveyDate" := VDate (Report.surveyDate report)]>
      (<["status" := VString (Report.status report)]>
         (<["complianceScore" := VNumber (Report.complianceScore report)]>
            (<["surveyType" := VString (Report.surveyType report)]>
               (<["facilityId" := VString (Report.facilityId report)]> result))))
  else
    match fieldMap !! field with
    | Some key =>
        if String.eqb field "deficiencies" then
          <["deficiencies" :=
              VFormatted (formatDeficiencies (Report.deficiencies report) options)]>
            result
        else
          match reportProperty key report with
          | Some v => <[field := v]> result
          | None => result
          end
    | None => result
    end.

(** The callback of [fields.forEach]. A name with a code unit above 255 is
    neither "basic" nor a key of [fieldMap]: it leaves the object. *)
Definition includeField (report : Report.t) (options : ReportQueryOptions.t)
    (result : gmap string Value) (field : list Z) : gmap string Value :=
  match fromCodeUnits field with
  | Some name => includeName report options result name
  | None => result
  end.

(** Handle selective field inclusion. *)
Definition formatWithInclude (report : Report.t) (include : list Z)
    (options : ReportQueryOptions.t) : gmap string Value :=
  let fields := List.map trim (split_comma include) in
  fold_left (includeField report options) fields
    (<["id" := VString (Report.id report)]> ∅).

(** The executive summary. [executiveSummary] holds the values its sentence
    interpolates: the urgent sentence (immediate-jeopardy count, total,
    score) or the neutral one (total, major count, score, follow-up). *)
Inductive ExecutiveSummary : Type :=
| Urgent (immediateJeopardyCount total score : Z)
| Neutral (total majorDeficiencies score : Z) (followUpRequired : bool).

Record KeyMetrics : Type := mkKeyMetrics {
  totalDeficiencies : Z;
  immediateJeopardyCount : Z;
  majorDeficiencies : Z;
  minorDeficiencies : Z;
  overdueTasks : Z;
  complianceRate : Z
}.

Record ActionRequired : Type := mkActionRequired {
  ar_correctiveActionDue : Date;
  ar_followUpRequired : bool;
  estimatedResolutionDays : option Z
}.

Record SummaryView : Type := mkSummaryView {
  sv_id : string;
  sv_facilityId : string;
  sv_surveyType : string;
  sv_surveyDate : Date;
  sv_status : string;
  sv_complianceScore : Z;
  riskLevel : string;
  keyMetrics : KeyMetrics;
  criticalIssues : list string;
  actionRequired : ActionRequired;
  executiveSummary : ExecutiveSummary
}.

Definition count (f : Deficiency.t -> bool) (l : list Deficiency.t) : Z :=
  Z.of_nat (length (List.filter f l)).

(** Generate executive summary view; [now] is what [new Date()] reads. *)
Definition formatSummaryView (now : Date) (report : Report.t) : SummaryView :=
  let ds := Report.deficiencies report in
  let immediateJeopardyCount :=
    count (fun d => String.eqb (Deficiency.severity d)
                      DeficiencySeverity.IMMEDIATE_JEOPARDY) ds in
  let majorDeficiencies :=
    count (fun d => String.eqb (Deficiency.severity d) DeficiencySeverity.MAJOR) ds in
  let overdueTasks :=
    count (fun d => match Deficiency.dueDate d with
                    | Some t => t <? now
                    | None => false
                    end) ds in
  let criticalIssues :=
    js_slice 0 3
      (List.map Deficiency.description
         (List.filter
            (fun d =>
               String.eqb (Deficiency.severity d)
                 DeficiencySeverity.IMMEDIATE_JEOPARDY
               || String.eqb (Deficiency.severity d) DeficiencySeverity.MAJOR)
            ds)) in
  let total := Z.of_nat (length ds) in
  let executiveSummary :=
    if 0 <? immediateJeopardyCount then
      Urgent immediateJeopardyCount total (Report.complianceScore report)
    else
      Neutral total majorDeficiencies (Report.complianceScore report)
        (Report.followUpRequired report) in
  mkSummaryView
    (Report.id report) (Report.facilityId report) (Report.surveyType report)
    (Report.surveyDate report) (Report.status report)
    (Report.complianceScore report)
    (if 0 <? immediateJeopardyCount then "high"
     else if 2 <? majorDeficiencies then "medium" else "low")
    (mkKeyMetrics total immediateJeopardyCount majorDeficiencies
       (total - immediateJeopardyCount - majorDeficiencies)
       overdueTasks (Report.complianceScore report))
    criticalIssues
    (mkActionRequired
       (Report.correctiveActionDue report)
       (Report.followUpRequired report)
       (if Report.followUpRequired report then
          Some (ceil_div (Report.correctiveActionDue report - now)
                         (1000 * 3600 * 24))
        else None))
    executiveSummary.

Inductive ReportResponse : Type :=
| FullReport (report : Report.t)
| SummaryShape (summary : SummaryView)
| IncludeShape (fields : gmap string Value).

(** Format report response based on query parameters. *)
Definition formatReportResponse (now : Date) (report : Report.t)
    (options : ReportQueryOptions.t) : ReportResponse :=
  let view := default "default" (ReportQueryOptions.view options) in
  if String.eqb view "summary" then SummaryShape (formatSummaryView now report)
  else if units_truthy (ReportQueryOptions.include options) then
    IncludeShape
      (formatWithInclude report
         (default [] (ReportQueryOptions.include options)) options)
  else FullReport report.

Definition getReportById (now : Date) (id : string)
    (options : ReportQueryOptions.t) (sampleReports : Store)
  : result ReportResponse :=
  match findReportById id sampleReports with
  | None => Throw (NotFoundError "Report" id)
  | Some report => Return (formatReportResponse now report options)
  end.

End QueryEngine.

(** ** controllers/reportController.ts: [getReport], and the GET route *)

(** The keys of [req.query] the controller reads. A value is absent or a
    string, as in a query string that repeats no key and nests none;
    [include] is given by its code units. *)
Module Query.
Record t : Type := mk {
  view : option string;
  include : option (list Z);
  page : option string;
  limit : option string;
  sortBy : option string;
  sortOrder : option string;
  status : option string;
  surveyType : option string;
  deficiencies_severity : option string;
  deficiencies_sortBy : option string;
  deficiencies_order : option string
}.
End Query.

(** What the GET route sends: the 401 of [authenticate], or the 200 with
    the formatted report. *)
Inductive GetResponse : Type :=
| Get401
| Get200 (data : ReportResponse).

(** [z.enum(allowed).optional()] on a value of the query: the value when it
    is absent or allowed, [None] when zod throws. *)
Definition parseEnum (allowed : list string) (raw : option string)
  : option (option string) :=
  match raw with
  | None => Some None
  | Some v => if existsb (String.eqb v) allowed then Some (Some v) else None
  end.

Section GetRoute.

Variable uuidSchema : string -> bool.
Variable localeCompare : string -> string -> Z.

(** [Number(s)], which [z.coerce.number()] applies to a string of the
    query; and whether zod's [number()] refuses the infinities, which
    depends on its version. It always refuses [NaN]. *)
Variable Number : string -> Num.t.
Variable finiteOnly : bool.

(** [z.coerce.number().min(1).optional().default(dflt)], with [.max(max)]
    when [max] is given; [None] when zod throws. *)
Definition parseNumber (dflt : Z) (max : option Z) (raw : option string)
  : option Num.t :=
  match raw with
  | None => Some (Num.of_Z dflt)
  | Some input =>
      match Number input with
      | Num.NaN => None
      | n =>
          if finiteOnly && negb (match n with Num.Finite _ => true | _ => false end)
          then None
          else if Num.ltb n (Num.of_Z 1) then None
          else
            match max with
            | Some m => if Num.ltb (Num.of_Z m) n then None else Some n
            | None => Some n
            end
      end
  end.

(** [reportQuerySchema.parse], for the keys the engine reads; [None] when
    it throws. [sortBy], [sortOrder], [status] and [surveyType] are
    validated too, and a value the schema does not list makes it throw. *)
Definition reportQuerySchema (query : Query.t) : option ReportQueryOptions.t :=
  match parseEnum ["default"; "summary"] (Query.view query),
        parseNumber 1 None (Query.page query),
        parseNumber 20 (Some 100) (Query.limit query),
        parseEnum ["createdAt"; "updatedAt"; "complianceScore"; "status"]
          (Query.sortBy query),
        parseEnum ["asc"; "desc"] (Query.sortOrder query),
        parseEnum [SurveyStatus.COMPLIANT; SurveyStatus.DEFICIENT;
                   SurveyStatus.IMMEDIATE_JEOPARDY] (Query.status query),
        parseEnum [SurveyType.COMPREHENSIVE; SurveyType.MEDICATION_MANAGEMENT;
                   SurveyType.INFECTION_CONTROL; SurveyType.PATIENT_SAFETY]
          (Query.surveyType query) with
  | Some view, Some page, Some limit, Some _, Some _, Some _, Some _ =>
      Some (ReportQueryOptions.mk
              (Some (default "default" view))
              (Query.include query)
              (Some page)
              (Some limit)
              None None None)
  | _, _, _, _, _, _, _ => None
  end.

(** The controller's [getReport]. *)
Definition controller_getReport (params_id : string) (query : Query.t)
    (now : Date) (sampleReports : Store) : result GetResponse :=
  if negb (uuidSchema params_id) then Throw ZodError
  else
    let reportId := params_id in
    match reportQuerySchema query with
    | None => Throw ZodError
    | Some queryOptions =>
        let extendedOptions :=
          ReportQueryOptions.mk
            (ReportQueryOptions.view queryOptions)
            (ReportQueryOptions.include queryOptions)
            (ReportQueryOptions.page queryOptions)
            (ReportQueryOptions.limit queryOptions)
            (Query.deficiencies_severity query)
            (Query.deficiencies_sortBy query)
            (Query.deficiencies_order query) in
        match getReportById localeCompare now reportId extendedOptions
                sampleReports with
        | Return report => Return (Get200 report)
        | Throw e => Throw e
        end
    end.

(** [router.get('/:id', authenticate, getReport)] *)
Definition get_report (user : option AuthUser.t) (params_id : string)
    (query : Query.t) (now : Date) (sampleReports : Store) : result GetResponse :=
  match user with
  | None => Return Get401
  | Some _ => controller_getReport params_id query now sampleReports
  end.

End GetRoute.

(** ** Concrete data: the seed store and a UTC calendar *)

(** [getUTCFullYear]: the civil year of an instant, which is [getFullYear]
    in a process whose time zone is UTC. *)
Definition getUTCFullYear (t : Date) : Z :=
  let days := t / 86400000 in
  let z := days + 719468 in
  let era := z / 146097 in
  let doe := z - era * 146097 in
  let yoe := (doe - doe / 1460 + doe / 36524 - doe / 146096) / 365 in
  let y := yoe + era * 400 in
  let doy := doe - (365 * yoe + yoe / 4 - yoe / 100) in
  let mp := (5 * doy + 2) / 153 in
  let m := if mp <? 10 then mp + 3 else mp - 9 in
  if m <=? 2 then y + 1 else y.

(** Three of the reports [sampleReports] is initialised with (the ids of
    their deficiencies are generated when the module loads; they are named
    here). Dates are UTC midnights. *)
Definition mercyGeneral : Report.t :=
  Report.mk "550e8400-e29b-41d4-a716-446655440100" "mercy-general-hospital"
    SurveyType.INFECTION_CONTROL 1721001600000 "Dr. Sarah Johnson"
    ["ICU"; "Emergency Department"; "Surgical Services"; "Medical Floors"]
    78 SurveyStatus.DEFICIENT AccreditationBody.JOINT_COMMISSION
    [ Deficiency.mk "mercy-1" "IC.01.01" "Hand hygiene compliance below threshold"
        DeficiencySeverity.MAJOR (Some 1726358400000);
      Deficiency.mk "mercy-2" "IC.02.01" "Isolation precaution signage missing"
        DeficiencySeverity.MINOR (Some 1724976000000);
      Deficiency.mk "mercy-3" "IC.01.03" "Contaminated surgical instruments"
        DeficiencySeverity.IMMEDIATE_JEOPARDY (Some 1721433600000) ]
    1726358400000 true
    ["Overall infection control program is well-structured"]
    1721001600000 1721260800000 2.

Definition stMarys : Report.t :=
  Report.mk "550e8400-e29b-41d4-a716-446655440101" "st-marys-medical-center"
    SurveyType.MEDICATION_MANAGEMENT 1718841600000 "PharmD Lisa Chen"
    ["Pharmacy"; "ICU"; "Emergency Department"; "Medical/Surgical Units"]
    92 SurveyStatus.COMPLIANT AccreditationBody.JOINT_COMMISSION
    [ Deficiency.mk "marys-1" "MM.01.01" "High-alert medications without labeling"
        DeficiencySeverity.MINOR (Some 1724112000000) ]
    1724112000000 false
    ["Excellent medication reconciliation processes"]
    1718841600000 1718841600000 1.

Definition metroGeneral : Report.t :=
  Report.mk "550e8400-e29b-41d4-a716-446655440103" "metro-general-hospital"
    SurveyType.PATIENT_SAFETY 1722470400000 "Dr. Amanda Foster"
    ["Surgery"; "Emergency Department"; "Radiology"; "Laboratory"]
    65 SurveyStatus.IMMEDIATE_JEOPARDY AccreditationBody.DNV
    [ Deficiency.mk "metro-1" "PS.01.01" "Patient identification protocol failures"
        DeficiencySeverity.IMMEDIATE_JEOPARDY (Some 1722816000000);
      Deficiency.mk "metro-2" "PS.02.01" "Fall prevention protocols not followed"
        DeficiencySeverity.MAJOR (Some 1725148800000);
      Deficiency.mk "metro-3" "PS.03.01" "Medication administration timing discrepancies"
        DeficiencySeverity.MAJOR (Some 1724544000000);
      Deficiency.mk "metro-4" "PS.01.02" "Patient wristbands illegible or missing"
        DeficiencySeverity.MINOR (Some 1723680000000) ]
    1722816000000 true
    ["URGENT: Immediate action required"]
    1722470400000 1722643200000 3.

Definition seedStore : Store := [mercyGeneral; stMarys; metroGeneral].

Definition noUpdate : UpdateReportInput.t :=
  UpdateReportInput.mk None None None None None None None.

Definition noOptions : ReportQueryOptions.t :=
  ReportQueryOptions.mk None None None None None None None.

(** Byte-wise comparison, standing for [localeCompare] where a concrete one
    is needed. *)
Definition byteCompare (a b : string) : Z :=
  match String.compare a b with
  | Lt => -1
  | Eq => 0
  | Gt => 1
  end.

(** A new survey is created in the seed store; it is then updated with
    version 1 (accepted), again with the stale version 1 (rejected), and
    with version 2 (accepted): two successful updates, version 3. *)
Definition sampleCreate : CreateReportInput.t :=
  CreateReportInput.mk "test-hospital-automated" SurveyType.INFECTION_CONTROL
    1733047200000 "Dr. Automated Test" ["ICU"; "Emergency Department"]
    AccreditationBody.JOINT_COMMISSION (Some 1735689599000) false.

Definition sampleEnv : CreateEnv := mkCreateEnv "new-report" 5 6 7.

Definition sampleOps : list Op :=
  [ OpUpdate "new-report"
      (UpdateReportInput.mk None None None None None None (Some true))
      (JNum 1) "reader-1" 10 11;
    OpUpdate "new-report"
      (UpdateReportInput.mk None None None (Some 90) None None None)
      (JNum 1) "editor-1" 20 21;
    OpUpdate (Report.id stMarys) noUpdate (JNum 1) "admin-1" 25 26;
    OpUpdate "new-report"
      (UpdateReportInput.mk None None None (Some 90) None None None)
      (JNum 2) "editor-1" 30 31 ].

(** The report [createNewReport] builds from [sampleCreate] in [sampleEnv]. *)
Definition sampleCreated : Report.t :=
  Report.mk "new-report" "test-hospital-automated" SurveyType.INFECTION_CONTROL
    1733047200000 "Dr. Automated Test" ["ICU"; "Emergency Department"]
    0 SurveyStatus.COMPLIANT AccreditationBody.JOINT_COMMISSION []
    1735689599000 false [] 6 7 1.

(** How one updatable field relates to the payload after an update: a
    defined payload value is what the field holds, an omitted one leaves the
    field as it was. *)
Definition partialField {A : Type} (payload : option A) (before after : A) : Prop :=
  match payload with
  | Some v => after = v
  | None => after = before
  end.

(** An update that carries only [followUpRequired]. *)
Definition followUpOnly : UpdateReportInput.t :=
  UpdateReportInput.mk None None None None None None (Some true).

(** A second infection-control survey of Mercy General, dated [surveyDate]. *)
Definition mercyAgain (surveyDate : Date) : CreateReportInput.t :=
  CreateReportInput.mk "mercy-general-hospital" SurveyType.INFECTION_CONTROL
    surveyDate "Dr. Sarah Johnson" ["ICU"] AccreditationBody.JOINT_COMMISSION
    None false.

(** Every string passes for a UUID: a stand-in for [uuidSchema] where a
    concrete one is needed. *)
Definition anyUuid (id : string) : bool := true.

Definition editorUser : AuthUser.t :=
  AuthUser.mk "editor-1" "editor@medlaunch.com" "Editor" UserRole.EDITOR.

(** An editor's update of the immediate-jeopardy report, with its current
    version. *)
Definition editorOnJeopardy : Request.t :=
  Request.mk (Some editorUser) (Report.id metroGeneral)
    (Some (UpdateReportInput.mk None None None (Some 80) None None None))
    (JNum 3) None.

(** An update of [stMarys] that carries no version, in the body or in a
    header. *)
Definition versionless : Request.t :=
  Request.mk (Some editorUser) (Report.id stMarys)
    (Some (UpdateReportInput.mk None None None (Some 90) None None None))
    JUndefined None.

(** The rank of a severity as an integer, 0 for one the table lacks. *)
Definition rankOf (d : Deficiency.t) : Z :=
  default 0 (severityOrder !! Deficiency.severity d).

(** The severity is a key of [severityOrder], as [DeficiencySeverity]
    promises. *)
Definition knownSeverity (d : Deficiency.t) : Prop :=
  is_Some (severityOrder !! Deficiency.severity d).

(** Query options that only name the sort key and the order. *)
Definition sortedBy (sortBy order : option string) : ReportQueryOptions.t :=
  ReportQueryOptions.mk None None None None None sortBy order.

(** Query options that only carry [page] and [limit], for integers. *)
Definition paged (page limit : option Z) : ReportQueryOptions.t :=
  ReportQueryOptions.mk None None (option_map Num.of_Z page)
    (option_map Num.of_Z limit) None None None.

(** The fixed subset that [basic] stands for. *)
Definition basicSubset : list string :=
  ["facilityId"; "surveyType"; "complianceScore"; "status"; "surveyDate"].

(** The names the Include Shape copies an attribute for. *)
Definition recognisedNames : list string :=
  ["deficiencies"; "notes"; "surveyorNotes"; "complianceScore"; "status";
   "surveyType"; "facilityId"; "leadSurveyor"; "surveyDate"; "accreditationBody"].

(** The value the Include Shape gives to the property [k], whenever it has
    that property, name by name: the formatted deficiencies, the surveyor
    notes for "notes", and otherwise the attribute of that name. *)
Definition propertyOf (localeCompare : string -> string -> Z) (report : Report.t)
    (options : ReportQueryOptions.t) (k : string) : option Value :=
  if String.eqb k "deficiencies" then
    Some (VFormatted
            (formatDeficiencies localeCompare (Report.deficiencies report) options))
  else if String.eqb k "notes" then Some (VStrings (Report.surveyorNotes report))
  else if String.eqb k "surveyorNotes" then
    Some (VStrings (Report.surveyorNotes report))
  else if String.eqb k "complianceScore" then
    Some (VNumber (Report.complianceScore report))
  else if String.eqb k "status" then Some (VString (Report.status report))
  else if String.eqb k "surveyType" then Some (VString (Report.surveyType report))
  else if String.eqb k "facilityId" then Some (VString (Report.facilityId report))
  else if String.eqb k "leadSurveyor" then
    Some (VString (Report.leadSurveyor report))
  else if String.eqb k "surveyDate" then Some (VDate (Report.surveyDate report))
  else if String.eqb k "accreditationBody" then
    Some (VString (Report.accreditationBody report))
  else None.

(** Query options that only carry [include]. *)
Definition including (include : string) : ReportQueryOptions.t :=
  ReportQueryOptions.mk None (Some (codeUnits include)) None None None None None.

(** ** services/reportRepository.ts: the remaining functions *)

Definition findReportsBySurveyType (surveyType : string) (sampleReports : Store)
  : list Report.t :=
  List.filter (fun report => String.eqb (Report.surveyType report) surveyType)
    sampleReports.

Definition findReportsByStatus (status : string) (sampleReports : Store)
  : list Report.t :=
  List.filter (fun report => String.eqb (Report.status report) status)
    sampleReports.

(** [deleteReport(id)]: [splice(index, 1)] at the first index whose report
    has the id; [false] when there is none. *)
Definition deleteReport (id : string) (sampleReports : Store) : bool * Store :=
  match findIndex id sampleReports with
  | None => (false, sampleReports)
  | Some index => (true, delete index sampleReports)
  end.

(** The survey-uniqueness condition on a store: two stored reports with the
    same facility, survey type and calendar year of survey are the same
    entry. *)
Definition uniqueSurveys (getFullYear : Date -> Z) (s : Store) : Prop :=
  forall (i j : nat) (r1 r2 : Report.t),
    s !! i = Some r1 -> s !! j = Some r2 ->
    Report.facilityId r1 = Report.facilityId r2 ->
    Report.surveyType r1 = Report.surveyType r2 ->
    getFullYear (Report.surveyDate r1) = getFullYear (Report.surveyDate r2) ->
    i = j.

(** The attributes of a report that no request of the pipeline writes. *)
Definition sameIdentity (r r' : Report.t) : Prop :=
  Report.id r' = Report.id r /\
  Report.facilityId r' = Report.facilityId r /\
  Report.surveyDate r' = Report.surveyDate r /\
  Report.accreditationBody r' = Report.accreditationBody r /\
  Report.deficiencies r' = Report.deficiencies r /\
  Report.surveyorNotes r' = Report.surveyorNotes r /\
  Report.createdAt r' = Report.createdAt r.

(** Query options that select the full report: a view other than the
    summary and no include list. *)
Definition selectsFullReport (options : ReportQueryOptions.t) : Prop :=
  ReportQueryOptions.view options <> Some "summary" /\
  units_truthy (ReportQueryOptions.include options) = false.

(** An update that sets the compliance score. *)
Definition scoreOnly (score : Z) : UpdateReportInput.t :=
  UpdateReportInput.mk None None None (Some score) None None None.

(** ** Statement vocabulary for the query engine *)

(** The deficiencies a result carries, bare or in its envelope. *)
Definition resultItems (r : DeficienciesResult) : list Deficiency.t :=
  match r with
  | Bare items => items
  | Envelope items _ => items
  end.

(** The options with [page] replaced by an integer. *)
Definition withPage (options : ReportQueryOptions.t) (page : Z)
  : ReportQueryOptions.t :=
  ReportQueryOptions.mk
    (ReportQueryOptions.view options)
    (ReportQueryOptions.include options)
    (Some (Num.of_Z page))
    (ReportQueryOptions.limit options)
    (ReportQueryOptions.deficiencies_severity options)
    (ReportQueryOptions.deficiencies_sortBy options)
    (ReportQueryOptions.deficiencies_order options).

(** The deficiencies the severity filter keeps, in stored order. *)
Definition keptBySeverity (deficiencies : list Deficiency.t)
    (options : ReportQueryOptions.t) : list Deficiency.t :=
  if str_truthy (ReportQueryOptions.deficiencies_severity options) then
    List.filter
      (fun d =>
         String.eqb (Deficiency.severity d)
           (default "" (ReportQueryOptions.deficiencies_severity options)))
      deficiencies
  else deficiencies.

(** [a] is due no later than [b], a missing due date being later than every
    date. *)
Definition dueNoLater (a b : Deficiency.t) : bool :=
  match Deficiency.dueDate a, Deficiency.dueDate b with
  | Some ta, Some tb => ta <=? tb
  | _, None => true
  | None, Some _ => false
  end.

(** Options that sort by due date. *)
Definition byDueDate (order : option string) : ReportQueryOptions.t :=
  sortedBy (Some "dueDate") order.

(** [a] and [b] request the same set of names, once split and trimmed. *)
Definition sameNames (a b : list Z) : Prop :=
  forall f,
    In f (List.map trim (split_comma a)) <-> In f (List.map trim (split_comma b)).

(** The number of deficiencies that satisfy [f], as a natural number. *)
Definition countNat (f : Deficiency.t -> bool) (l : list Deficiency.t) : nat :=
  length (List.filter f l).

Definition isImmediateJeopardy (d : Deficiency.t) : bool :=
  String.eqb (Deficiency.severity d) DeficiencySeverity.IMMEDIATE_JEOPARDY.

Definition isMajor (d : Deficiency.t) : bool :=
  String.eqb (Deficiency.severity d) DeficiencySeverity.MAJOR.

(** ** models/user.ts and services/userRepository.ts *)

Module User.
Record t : Type := mk {
  id : string;
  email : string;
  name : string;
  role : string;
  passwordHash : string;
  createdAt : Date;
  updatedAt : Date;
  isActive : bool
}.
End User.

(** The module-level array [sampleUsers]. *)
Abbreviation Users := (list User.t).

(** [Array.prototype.findIndex], [None] for -1. *)
Fixpoint findIndexBy {A : Type} (f : A -> bool) (l : list A) : option nat :=
  match l with
  | [] => None
  | x :: rest => if f x then Some O else option_map S (findIndexBy f rest)
  end.

Definition findUserByEmail (email : string) (sampleUsers : Users) : option User.t :=
  List.find (fun user => String.eqb (User.email user) email) sampleUsers.

Definition findUserById (id : string) (sampleUsers : Users) : option User.t :=
  List.find (fun user => String.eqb (User.id user) id) sampleUsers.

Definition createUser (user : User.t) (sampleUsers : Users) : Users :=
  (sampleUsers ++ [user])%list.

(** [updateUser(user)]. The parameter of the callback of [findIndex] is
    named [user] too and hides the argument: the test compares the id of
    each stored user with itself. *)
Definition updateUser (user : User.t) (sampleUsers : Users) : Users :=
  match findIndexBy (fun user' => String.eqb (User.id user') (User.id user'))
          sampleUsers with
  | Some index => <[index := user]> sampleUsers
  | None => sampleUsers
  end.

Definition deleteUser (id : string) (sampleUsers : Users) : Users :=
  match findIndexBy (fun user => String.eqb (User.id user) id) sampleUsers with
  | Some index => delete index sampleUsers
  | None => sampleUsers
  end.

(** ** services/authService.ts and controllers/authController.ts *)

(** The payload [generateToken] signs and [verifyToken] returns. *)
Record JwtPayload : Type := mkJwtPayload {
  jwt_id : string;
  jwt_role : string
}.

Inductive LoginError : Type :=
| InvalidUser
| InvalidPassword.

Record LoginResponse : Type := mkLoginResponse {
  login_token : string;
  login_user : AuthUser.t;
  login_expiresIn : string
}.

(** What [loginController] sends: 200 with the data, or the one 401 body. *)
Inductive LoginReply : Type :=
| LoginOk (data : LoginResponse)
| LoginFailed (message : string).

Section Auth.

(** [bcrypt.compare(password, hash)], [jwt.sign(payload, secret, 24h)] and
    [jwt.verify(token, secret)] ([None] when it throws). *)
Variable comparePassword : string -> string -> bool.
Variable sign : JwtPayload -> string.
Variable verify : string -> option JwtPayload.

Definition generateToken (user : User.t) : string :=
  sign (mkJwtPayload (User.id user) (User.role user)).

(** [login(email, password)] *)
Definition login (email password : string) (sampleUsers : Users)
  : LoginError + LoginResponse :=
  match findUserByEmail email sampleUsers with
  | None => inl InvalidUser
  | Some user =>
      if negb (User.isActive user) then inl InvalidUser
      else if negb (comparePassword password (User.passwordHash user)) then
        inl InvalidPassword
      else
        inr (mkLoginResponse
               (generateToken user)
               (AuthUser.mk (User.id user) (User.email user) (User.name user)
                  (User.role user))
               "24h")
  end.

Definition loginController (email password : string) (sampleUsers : Users)
  : LoginReply :=
  match login email password sampleUsers with
  | inr response => LoginOk response
  | inl _ => LoginFailed "Login Failed"
  end.

(** The prefix [pat] removed from [s], if [s] starts with it. *)
Fixpoint stripPrefix (pat s : string) : option string :=
  match pat, s with
  | EmptyString, _ => Some s
  | String a pat', String b s' => if Ascii.eqb a b then stripPrefix pat' s' else None
  | String _ _, EmptyString => None
  end.

(** [s.replace(pat, '')] for a string pattern: the first occurrence goes. *)
Fixpoint removeFirst (pat s : string) : string :=
  match stripPrefix pat s with
  | Some rest => rest
  | None =>
      match s with
      | EmptyString => EmptyString
      | String c s' => String c (removeFirst pat s')
      end
  end.

(** [authenticate]: the user it attaches to the request, [None] when it
    answers 401. [authorization] is the header, [None] when absent. *)
Definition authenticate (authorization : option string) (sampleUsers : Users)
  : option AuthUser.t :=
  match authorization with
  | None => None
  | Some header =>
      let token := removeFirst "Bearer " header in
      if String.eqb token "" then None
      else
        match verify token with
        | None => None
        | Some decoded =>
            match findUserById (jwt_id decoded) sampleUsers with
            | None => None
            | Some user =>
                Some (AuthUser.mk (User.id user) (User.email user)
                        (User.name user) (User.role user))
            end
        end
  end.

End Auth.

(** ** middleware/auth.ts: [authorize], and the POST route *)

(** [authorize(roles)]: [true] when it calls [next()], [false] when it
    answers 403 [{ error: 'Forbidden' }]. *)
Definition authorize (roles : list string) (user : option AuthUser.t) : bool :=
  match user with
  | None => false
  | Some u => existsb (String.eqb (AuthUser.role u)) roles
  end.

(** What the POST route sends: the 401 of [authenticate], the 403 of
    [authorize], or the controller's 201 with its [Location]. *)
Inductive PostResponse : Type :=
| Post401
| Post403
| Post201 (data : Report.t) (location : string) (message : string).

(** The part of a request the POST route reads: the user [authenticate]
    attached and the outcome of [createReportSchema.parse(req.body)]. *)
Module CreateRequest.
Record t : Type := mk {
  user : option AuthUser.t;
  body : option CreateReportInput.t
}.
End CreateRequest.

Section PostRoute.

Variable getFullYear : Date -> Z.

(** The controller's [createReport]. *)
Definition controller_createReport (req : CreateRequest.t) (env : CreateEnv)
    (sampleReports : Store) : result PostResponse * Store :=
  match CreateRequest.body req with
  | None => (Throw ZodError, sampleReports)
  | Some reportData =>
      let createdBy :=
        match CreateRequest.user req with
        | Some u => if String.eqb (AuthUser.id u) "" then "unknown" else AuthUser.id u
        | None => "unknown"
        end in
      match createNewReport getFullYear reportData createdBy env sampleReports with
      | (Return newReport, sampleReports') =>
          (Return (Post201 newReport ("/api/reports/" ++ Report.id newReport)
                     "Survey report created successfully"),
           sampleReports')
      | (Throw e, sampleReports') => (Throw e, sampleReports')
      end
  end.

(** [router.post('/', authenticate, authorize([EDITOR, ADMIN]), createReport)] *)
Definition post_report (req : CreateRequest.t) (env : CreateEnv)
    (sampleReports : Store) : result PostResponse * Store :=
  match CreateRequest.user req with
  | None => (Return Post401, sampleReports)
  | Some _ =>
      if authorize [UserRole.EDITOR; UserRole.ADMIN] (CreateRequest.user req) then
        controller_createReport req env sampleReports
      else (Return Post403, sampleReports)
  end.

End PostRoute.

(** ** controllers/reportController.ts: [uploadAttachment] *)

(** The file multer attached to the request. *)
Module UploadedFile.
Record t : Type := mk {
  originalname : string;
  filename : string;
  size : Z;
  mimetype : string
}.
End UploadedFile.

(** The data of the 201 response. *)
Record UploadData : Type := mkUploadData {
  up_fileId : string;
  up_originalName : string;
  up_size : Z;
  up_mimetype : string;
  up_downloadUrl : string;
  up_uploadedAt : Date
}.

(** How [uploadAttachment] ends: the 201, a [BadRequestError] (400,
    BAD_REQUEST) with its message, or an error of the id validation or of
    the report lookup. *)
Inductive UploadOutcome : Type :=
| UploadCreated (data : UploadData)
| UploadBadRequest (message : string)
| UploadThrows (e : AppError).

Section Upload.

Variable uuidSchema : string -> bool.
Variable localeCompare : string -> string -> Z.

(** [uploadAttachment]; [fileId] is the [uuid()] it draws and [now] its
    [new Date()]. *)
Definition uploadAttachment (params_id : string) (file : option UploadedFile.t)
    (fileId : string) (now : Date) (sampleReports : Store) : UploadOutcome :=
  if negb (uuidSchema params_id) then UploadThrows ZodError
  else
    let reportId := params_id in
    match file with
    | None => UploadBadRequest "No file provided"
    | Some f =>
        match getReportById localeCompare now reportId noOptions sampleReports with
        | Throw e => UploadThrows e
        | Return existingReport =>
            (* an object is never falsy: the check [!existingReport] fails *)
            UploadCreated
              (mkUploadData fileId (UploadedFile.originalname f)
                 (UploadedFile.size f) (UploadedFile.mimetype f)
                 ("/api/reports/" ++ reportId ++ "/attachments/"
                    ++ UploadedFile.filename f)
                 now)
        end
    end.

End Upload.

(** ** Sample users and requests *)

Definition readerUser : AuthUser.t :=
  AuthUser.mk "reader-1" "reader@medlaunch.com" "Reader" UserRole.READER.

Definition janeReader : User.t :=
  User.mk "550e8400-e29b-41d4-a716-446655440001" "reader@medlaunch.com"
    "Jane Reader" UserRole.READER "hash-reader" 1754784000000 1754784000000 true.

Definition johnEditor : User.t :=
  User.mk "550e8400-e29b-41d4-a716-446655440002" "editor@medlaunch.com"
    "John Editor" UserRole.EDITOR "hash-editor" 1754784000000 1754784000000 true.

Definition aliceAdmin : User.t :=
  User.mk "550e8400-e29b-41d4-a716-446655440003" "admin@medlaunch.com"
    "Alice Admin" UserRole.ADMIN "hash-admin" 1754784000000 1754784000000 true.

Definition seedUsers : Users := [janeReader; johnEditor; aliceAdmin].

(** Stand-ins for bcrypt and JWT: the hash of [p] is "hash-" followed by
    [p], and a token is the id it was signed for. *)
Definition plainCompare (password hash : string) : bool :=
  String.eqb ("hash-" ++ password) hash.

Definition plainSign (payload : JwtPayload) : string := jwt_id payload.

Definition plainVerify (token : string) : option JwtPayload :=
  Some (mkJwtPayload token "admin").

(** An update that sets the status. *)
Definition statusOnly (status : string) : UpdateReportInput.t :=
  UpdateReportInput.mk None None None None (Some status) None None.

(** A reader's update of the deficient report, with its current version. *)
Definition readerOnDeficient : Request.t :=
  Request.mk (Some readerUser) (Report.id mercyGeneral)
    (Some (UpdateReportInput.mk None None None None None None (Some true)))
    (JNum 2) None.

(** A stand-in for [Number] on the strings of decimal digits. *)
Definition readDecimal (s : string) : Num.t :=
  match parseDigits 10 (codeUnits s) None with
  | Some n => Num.of_Z n
  | None => Num.NaN
  end.

(** The query [?include=deficiencies&deficiencies.severity=...]. *)
Definition severityQuery (severity : string) : Query.t :=
  Query.mk None (Some (codeUnits "deficiencies")) None None None None None None
    (Some severity) None None.

(** The query [?include=deficiencies&page=...&limit=...]. *)
Definition pagedQuery (page limit : string) : Query.t :=
  Query.mk None (Some (codeUnits "deficiencies")) (Some page) (Some limit)
    None None None None None None None.

(** * Properties of the repository *)

Lemma findReportById_id (id : string) (s : Store) (r : Report.t) :
  findReportById id s = Some r -> Report.id r = id.
Proof.
  unfold findReportById. intros H.
  apply List.find_some in H. destruct H as [_ H].
  now apply String.eqb_eq.
Qed.

Lemma findReportById_findIndex (id : string) (s : Store) (r : Report.t) :
  findReportById id s = Some r ->
  exists i : nat, findIndex id s = Some i /\ s !! i = Some r.
Proof.
  unfold findReportById.
  induction s as [|x s IH]; simpl; intros H; [discriminate|].
  destruct (String.eqb (Report.id x) id).
  - exists O. split; [reflexivity|]. now inversion H.
  - destruct (IH H) as (i & Hi & Hl). exists (S i).
    rewrite Hi. split; [reflexivity | exact Hl].
Qed.

Lemma findIndex_None (id : string) (s : Store) :
  findIndex id s = None <-> findReportById id s = None.
Proof.
  unfold findReportById.
  induction s as [|x s IH]; simpl; [tauto|].
  destruct (String.eqb (Report.id x) id); [split; discriminate|].
  destruct (findIndex id s); simpl.
  - split; [discriminate|]. intros H. apply IH in H. discriminate.
  - split; [|reflexivity]. intros _. now apply IH.
Qed.

(** Replacing the first report that has [id] by another report with the same
    id: a lookup of [id] finds the replacement. *)
Lemma findReportById_insert_eq (id : string) (s : Store) (i : nat) (r' : Report.t) :
  findIndex id s = Some i -> Report.id r' = id ->
  findReportById id (<[i := r']> s) = Some r'.
Proof.
  unfold findReportById. revert i.
  induction s as [|x s IH]; simpl; intros i Hi Hid; [discriminate|].
  destruct (String.eqb (Report.id x) id) eqn:E.
  - inversion Hi; subst i. simpl.
    rewrite (proj2 (String.eqb_eq _ _) Hid). reflexivity.
  - destruct (findIndex id s) as [j|]; simpl in Hi; [|discriminate].
    inversion Hi; subst i. simpl. rewrite E. now apply IH.
Qed.

(** ... and a lookup of any other id is not affected. *)
Lemma findReportById_insert_ne (id id' : string) (s : Store) (i : nat) (r' : Report.t) :
  findIndex id s = Some i -> Report.id r' = id -> id' <> id ->
  findReportById id' (<[i := r']> s) = findReportById id' s.
Proof.
  unfold findReportById. revert i.
  induction s as [|x s IH]; simpl; intros i Hi Hid Hne; [discriminate|].
  destruct (String.eqb (Report.id x) id) eqn:E.
  - inversion Hi; subst i. simpl.
    apply String.eqb_eq in E.
    assert (Hx : String.eqb (Report.id x) id' = false).
    { apply String.eqb_neq. congruence. }
    assert (Hr : String.eqb (Report.id r') id' = false).
    { apply String.eqb_neq. congruence. }
    now rewrite Hx, Hr.
  - destruct (findIndex id s) as [j|]; simpl in Hi; [|discriminate].
    inversion Hi; subst i. simpl.
    destruct (String.eqb (Report.id x) id'); [reflexivity|].
    now apply IH.
Qed.

(** [push] does not hide a report that a lookup already finds. *)
Lemma findReportById_push (id : string) (s : Store) (r x : Report.t) :
  findReportById id s = Some r -> findReportById id (s ++ [x])%list = Some r.
Proof.
  unfold findReportById.
  induction s as [|y s IH]; simpl; intros H; [discriminate|].
  destruct (String.eqb (Report.id y) id); [exact H | now apply IH].
Qed.

Lemma findReportById_push_fresh (s : Store) (x : Report.t) :
  findReportById (Report.id x) s = None ->
  findReportById (Report.id x) (s ++ [x])%list = Some x.
Proof.
  unfold findReportById.
  induction s as [|y s IH]; simpl; intros H.
  - now rewrite String.eqb_refl.
  - destruct (String.eqb (Report.id y) (Report.id x)); [discriminate | now apply IH].
Qed.

(** * Properties of the update pipeline *)

(** What an accepted update computes: the stored report is replaced, in
    place, by the report that has the defined fields of the payload, the
    repository's timestamp and the next version. *)
Lemma updateReportById_accepted (id : string) (updateData : UpdateReportInput.t)
    (version : JsVal) (updatedBy : string) (now_service now_repo : Date)
    (s : Store) (existing : Report.t) :
  findReportById id s = Some existing ->
  num_strict_neq (Report.version existing) version = false ->
  exists i : nat,
    findIndex id s = Some i /\
    updateReportById id updateData version updatedBy now_service now_repo s =
      (let updated :=
         Report.mk
           (Report.id existing)
           (Report.facilityId existing)
           (default (Report.surveyType existing) (UpdateReportInput.surveyType updateData))
           (Report.surveyDate existing)
           (default (Report.leadSurveyor existing)
                    (UpdateReportInput.leadSurveyor updateData))
           (default (Report.surveyScope existing)
                    (UpdateReportInput.surveyScope updateData))
           (default (Report.complianceScore existing)
                    (UpdateReportInput.complianceScore updateData))
           (default (Report.status existing) (UpdateReportInput.status updateData))
           (Report.accreditationBody existing)
           (Report.deficiencies existing)
           (default (Report.correctiveActionDue existing)
                    (UpdateReportInput.correctiveActionDue updateData))
           (default (Report.followUpRequired existing)
                    (UpdateReportInput.followUpRequired updateData))
           (Report.surveyorNotes existing)
           (Report.createdAt existing)
           now_repo
           (Report.version existing + 1) in
       (Return updated, <[i := updated]> s)).
Proof.
  intros Hfind Hver.
  destruct (findReportById_findIndex _ _ _ Hfind) as (i & Hi & Hl).
  exists i. split; [exact Hi|].
  unfold updateReportById. rewrite Hfind, Hver.
  unfold updateReport. rewrite Hi, Hl. cbv zeta.
  rewrite list_lookup_insert_eq by (eapply lookup_lt_Some; exact Hl).
  reflexivity.
Qed.

(** Every outcome of [updateReportById], by cases. *)
Lemma updateReportById_cases (id : string) (updateData : UpdateReportInput.t)
    (version : JsVal) (updatedBy : string) (now_service now_repo : Date) (s : Store) :
  (findReportById id s = None /\
   updateReportById id updateData version updatedBy now_service now_repo s =
     (Throw (NotFoundError "Report" id), s))
  \/ (exists existing,
        findReportById id s = Some existing /\
        num_strict_neq (Report.version existing) version = true /\
        updateReportById id updateData version updatedBy now_service now_repo s =
          (Throw (ConflictError
                    (VersionDetails version (Report.version existing) id)), s))
  \/ (exists existing,
        findReportById id s = Some existing /\
        num_strict_neq (Report.version existing) version = false /\
        is_Return
          (fst (updateReportById id updateData version updatedBy
                  now_service now_repo s)) = true).
Proof.
  destruct (findReportById id s) as [existing|] eqn:Hfind.
  - right.
    destruct (num_strict_neq (Report.version existing) version) eqn:Hver.
    + left. exists existing. repeat split; try assumption.
      unfold updateReportById. now rewrite Hfind, Hver.
    + right. exists existing. repeat split; try assumption.
      destruct (updateReportById_accepted id updateData version updatedBy
                  now_service now_repo s existing Hfind Hver) as (i & _ & ->).
      reflexivity.
  - left. split; [reflexivity|].
    unfold updateReportById. now rewrite Hfind.
Qed.

(** C1. An update of an existing report whose client-supplied version is
    not the stored version throws a Conflict whose details hold the client's
    version as [expectedVersion], the stored version as [currentVersion] and
    the report id; the whole store, hence the stored report, is what it was. *)
Theorem update_version_mismatch_conflict (id : string)
    (updateData : UpdateReportInput.t) (version : JsVal) (updatedBy : string)
    (now_service now_repo : Date) (s : Store) (existing : Report.t) :
  findReportById id s = Some existing ->
  num_strict_neq (Report.version existing) version = true ->
  exists e s',
    updateReportById id updateData version updatedBy now_service now_repo s
      = (Throw e, s') /\
    e = ConflictError (VersionDetails version (Report.version existing) id) /\
    code e = "CONFLICT" /\ statusCode e = 409 /\
    s' = s /\ findReportById id s' = Some existing.
Proof.
  intros Hfind Hver.
  exists (ConflictError (VersionDetails version (Report.version existing) id)), s.
  unfold updateReportById. rewrite Hfind, Hver.
  repeat split; reflexivity.
Qed.

(** The scenario of the specification: [stMarys] is at version 1, a first
    update with version 1 succeeds, the same version is then stale. *)
Lemma update_version_mismatch_conflict_witness :
  let s1 := snd (updateReportById (Report.id stMarys)
                   (UpdateReportInput.mk None None None None None None (Some true))
                   (JNum 1) "reader-1" 10 11 seedStore) in
  exists e s',
    updateReportById (Report.id stMarys)
      (UpdateReportInput.mk None None None (Some 90) None None None)
      (JNum 1) "editor-1" 20 21 s1 = (Throw e, s') /\
    e = ConflictError (VersionDetails (JNum 1) 2 (Report.id stMarys)) /\
    code e = "CONFLICT" /\ statusCode e = 409 /\
    s' = s1 /\
    option_map Report.version (findReportById (Report.id stMarys) s') = Some 2.
Proof.
  intros s1.
  destruct (update_version_mismatch_conflict (Report.id stMarys)
              (UpdateReportInput.mk None None None (Some 90) None None None)
              (JNum 1) "editor-1" 20 21 s1
              (Report.mk (Report.id stMarys) (Report.facilityId stMarys)
                 (Report.surveyType stMarys) (Report.surveyDate stMarys)
                 (Report.leadSurveyor stMarys) (Report.surveyScope stMarys)
                 (Report.complianceScore stMarys) (Report.status stMarys)
                 (Report.accreditationBody stMarys) (Report.deficiencies stMarys)
                 (Report.correctiveActionDue stMarys) true
                 (Report.surveyorNotes stMarys) (Report.createdAt stMarys) 11 2)
              eq_refl eq_refl)
    as (e & s' & H1 & H2 & H3 & H4 & H5 & H6).
  exists e, s'. repeat split; try assumption.
  rewrite H6. reflexivity.
Defined.

Lemma updateReportById_Return_inv (id : string) (updateData : UpdateReportInput.t)
    (version : JsVal) (updatedBy : string) (now_service now_repo : Date)
    (s s' : Store) (r' : Report.t) :
  updateReportById id updateData version updatedBy now_service now_repo s
    = (Return r', s') ->
  exists existing,
    findReportById id s = Some existing /\
    num_strict_neq (Report.version existing) version = false.
Proof.
  intros H.
  destruct (updateReportById_cases id updateData version updatedBy
              now_service now_repo s)
    as [[_ E] | [(existing & _ & _ & E) | (existing & Hf & Hv & _)]].
  - rewrite E in H. discriminate.
  - rewrite E in H. discriminate.
  - now exists existing.
Qed.

(** A failed update leaves the store as it was. *)
Lemma updateReportById_Throw_store (id : string) (updateData : UpdateReportInput.t)
    (version : JsVal) (updatedBy : string) (now_service now_repo : Date)
    (s s' : Store) (e : AppError) :
  updateReportById id updateData version updatedBy now_service now_repo s
    = (Throw e, s') ->
  s' = s.
Proof.
  intros H.
  destruct (updateReportById_cases id updateData version updatedBy
              now_service now_repo s)
    as [[_ E] | [(existing & _ & _ & E) | (existing & Hf & Hv & _)]].
  - rewrite E in H. now inversion H.
  - rewrite E in H. now inversion H.
  - destruct (updateReportById_accepted id updateData version updatedBy
                now_service now_repo s existing Hf Hv) as (i & _ & E).
    rewrite E in H. discriminate.
Qed.

(** One successful update: the version it returns and stores is the stored
    version plus one. *)
Lemma updateReportById_increments (id : string) (updateData : UpdateReportInput.t)
    (version : JsVal) (updatedBy : string) (now_service now_repo : Date)
    (s s' : Store) (r' : Report.t) :
  updateReportById id updateData version updatedBy now_service now_repo s
    = (Return r', s') ->
  exists existing,
    findReportById id s = Some existing /\
    Report.version r' = Report.version existing + 1 /\
    findReportById id s' = Some r'.
Proof.
  intros H.
  destruct (updateReportById_Return_inv _ _ _ _ _ _ _ _ _ H) as (existing & Hf & Hv).
  destruct (updateReportById_accepted id updateData version updatedBy
              now_service now_repo s existing Hf Hv) as (i & Hi & E).
  rewrite E in H. cbv zeta in H. inversion H; subst r'. clear H.
  exists existing. split; [exact Hf|]. split; [reflexivity|].
  apply findReportById_insert_eq; [exact Hi|].
  simpl. now apply findReportById_id with (s := s).
Qed.

(** An update of report [id] does not touch what a lookup of another id
    finds. *)
Lemma updateReportById_other (id id' : string) (updateData : UpdateReportInput.t)
    (version : JsVal) (updatedBy : string) (now_service now_repo : Date) (s : Store) :
  id' <> id ->
  findReportById id'
    (snd (updateReportById id updateData version updatedBy now_service now_repo s))
  = findReportById id' s.
Proof.
  intros Hne.
  destruct (updateReportById_cases id updateData version updatedBy
              now_service now_repo s)
    as [[_ E] | [(existing & _ & _ & E) | (existing & Hf & Hv & _)]].
  - now rewrite E.
  - now rewrite E.
  - destruct (updateReportById_accepted id updateData version updatedBy
                now_service now_repo s existing Hf Hv) as (i & Hi & E).
    rewrite E. cbv zeta. simpl.
    apply findReportById_insert_ne with (id := id); [exact Hi | | exact Hne].
    simpl. now apply findReportById_id with (s := s).
Qed.

Section ServiceFacts.

Variable getFullYear : Date -> Z.

(** Every outcome of [createNewReport]: a Conflict that leaves the store, or
    the new report pushed at the end. *)
Lemma createNewReport_cases (reportData : CreateReportInput.t) (createdBy : string)
    (env : CreateEnv) (s : Store) :
  (exists e, createNewReport getFullYear reportData createdBy env s = (Throw e, s))
  \/ (exists r,
        createNewReport getFullYear reportData createdBy env s
          = (Return r, (s ++ [r])%list) /\
        Report.id r = env_uuid env /\ Report.version r = 1).
Proof.
  unfold createNewReport.
  destruct (List.find _ _) as [dup|].
  - left. eexists. reflexivity.
  - right. eexists. simpl. repeat split.
Qed.

(** A request keeps every report findable, and changes the version a lookup
    of [id] finds by one exactly when it is a successful update of [id]. *)
Lemma step_version (id : string) (op : Op) (s : Store) (r : Report.t) :
  findReportById id s = Some r ->
  exists r',
    findReportById id (snd (step getFullYear op s)) = Some r' /\
    Report.version r' =
      Report.version r
      + (if fst (step getFullYear op s) && targets id op then 1 else 0).
Proof.
  intros Hfind. destruct op as [reportData createdBy env | id' upd v by' n1 n2].
  - unfold step.
    destruct (createNewReport_cases reportData createdBy env s)
      as [[e E] | (x & E & _ & _)]; rewrite E; simpl.
    + exists r. split; [exact Hfind | lia].
    + exists r. split; [now apply findReportById_push | lia].
  - unfold step.
    destruct (updateReportById id' upd v by' n1 n2 s) as [res s'] eqn:E.
    simpl. destruct (String.eqb id' id) eqn:Heq.
    + apply String.eqb_eq in Heq. subst id'.
      destruct res as [r2 | e]; simpl.
      * destruct (updateReportById_increments _ _ _ _ _ _ _ _ _ E)
          as (existing & Hf & Hv & Hs).
        rewrite Hfind in Hf. inversion Hf; subst existing.
        exists r2. split; [exact Hs | exact Hv].
      * apply updateReportById_Throw_store in E. subst s'.
        exists r. split; [exact Hfind | lia].
    + apply String.eqb_neq in Heq.
      exists r. rewrite andb_false_r. split; [|lia].
      assert (Hs : s' = snd (updateReportById id' upd v by' n1 n2 s))
        by now rewrite E.
      rewrite Hs, updateReportById_other; [exact Hfind | congruence].
Qed.

(** Along any run, the version a lookup of [id] finds is the initial one
    plus the number of successful updates of [id]. *)
Lemma run_version (id : string) (ops : list Op) :
  forall (s : Store) (r : Report.t),
    findReportById id s = Some r ->
    exists r',
      findReportById id (run getFullYear ops s) = Some r' /\
      Report.version r' =
        Report.version r + Z.of_nat (successfulUpdates getFullYear id ops s).
Proof.
  induction ops as [|op ops IH]; intros s r Hfind; simpl.
  - exists r. split; [exact Hfind | lia].
  - destruct (step_version id op s r Hfind) as (r1 & Hf1 & Hv1).
    destruct (IH _ _ Hf1) as (r' & Hf' & Hv').
    exists r'. split; [exact Hf'|].
    destruct (step getFullYear op s) as [ok s1] eqn:E. simpl in *.
    rewrite Hv', Hv1.
    destruct (ok && targets id op); lia.
Qed.

(** C2. A freshly created report has version 1 and is the report a lookup
    of its id finds; after any run of requests, the version found under that
    id is 1 plus the number of successful updates of it; and each successful
    update returns and stores the version it found plus exactly one. *)
Theorem version_counts_successful_updates (reportData : CreateReportInput.t)
    (createdBy : string) (env : CreateEnv) (s0 s1 : Store) (r : Report.t)
    (ops : list Op) :
  createNewReport getFullYear reportData createdBy env s0 = (Return r, s1) ->
  findReportById (env_uuid env) s0 = None ->
  Report.version r = 1 /\
  findReportById (Report.id r) s1 = Some r /\
  (exists r',
     findReportById (Report.id r) (run getFullYear ops s1) = Some r' /\
     Report.version r' =
       1 + Z.of_nat (successfulUpdates getFullYear (Report.id r) ops s1)) /\
  (forall id updateData version updatedBy now_service now_repo s s' r2,
     updateReportById id updateData version updatedBy now_service now_repo s
       = (Return r2, s') ->
     exists existing,
       findReportById id s = Some existing /\
       Report.version r2 = Report.version existing + 1 /\
       findReportById id s' = Some r2).
Proof.
  intros Hcreate Hfresh.
  destruct (createNewReport_cases reportData createdBy env s0)
    as [[e E] | (x & E & Hid & Hv)]; rewrite E in Hcreate; [discriminate|].
  inversion Hcreate; subst x s1. clear Hcreate.
  assert (Hfound : findReportById (Report.id r) (s0 ++ [r])%list = Some r).
  { apply findReportById_push_fresh. now rewrite Hid. }
  split; [exact Hv|]. split; [exact Hfound|]. split.
  - destruct (run_version (Report.id r) ops _ _ Hfound) as (r' & Hf' & Hv').
    exists r'. split; [exact Hf'|]. rewrite Hv', Hv. reflexivity.
  - intros. eapply updateReportById_increments; eassumption.
Qed.

End ServiceFacts.

Lemma version_counts_successful_updates_witness :
  createNewReport getUTCFullYear sampleCreate "editor-1" sampleEnv seedStore
    = (Return sampleCreated, (seedStore ++ [sampleCreated])%list) /\
  findReportById (env_uuid sampleEnv) seedStore = None /\
  successfulUpdates getUTCFullYear "new-report" sampleOps
    (seedStore ++ [sampleCreated])%list = 2%nat /\
  Report.version sampleCreated = 1 /\
  exists r',
    findReportById "new-report"
      (run getUTCFullYear sampleOps (seedStore ++ [sampleCreated])%list) = Some r' /\
    Report.version r' = 3.
Proof.
  assert (Hc : createNewReport getUTCFullYear sampleCreate "editor-1" sampleEnv
                 seedStore
               = (Return sampleCreated, (seedStore ++ [sampleCreated])%list))
    by reflexivity.
  assert (Hf : findReportById (env_uuid sampleEnv) seedStore = None)
    by reflexivity.
  assert (Hn : successfulUpdates getUTCFullYear "new-report" sampleOps
                 (seedStore ++ [sampleCreated])%list = 2%nat)
    by reflexivity.
  destruct (version_counts_successful_updates getUTCFullYear sampleCreate
              "editor-1" sampleEnv seedStore _ sampleCreated sampleOps Hc Hf)
    as (Hv & _ & (r' & Hr' & Hv') & _).
  repeat split; try assumption.
  exists r'. split; [exact Hr'|].
  rewrite Hv'. change (Report.id sampleCreated) with "new-report".
  rewrite Hn. reflexivity.
Defined.

Lemma partialField_default {A : Type} (payload : option A) (before : A) :
  partialField payload before (default before payload).
Proof. destruct payload; reflexivity. Qed.

(** C9. A successful update modifies the updatable fields that are defined
    in the payload, and [updatedAt] and [version]; an updatable field the
    payload omits keeps its value, the fields no payload can carry keep
    theirs, and no other report of the store is touched. *)
Theorem partial_update_frame (id : string) (updateData : UpdateReportInput.t)
    (version : JsVal) (updatedBy : string) (now_service now_repo : Date)
    (s s' : Store) (r' : Report.t) :
  updateReportById id updateData version updatedBy now_service now_repo s
    = (Return r', s') ->
  exists existing,
    findReportById id s = Some existing /\
    findReportById id s' = Some r' /\
    partialField (UpdateReportInput.surveyType updateData)
      (Report.surveyType existing) (Report.surveyType r') /\
    partialField (UpdateReportInput.leadSurveyor updateData)
      (Report.leadSurveyor existing) (Report.leadSurveyor r') /\
    partialField (UpdateReportInput.surveyScope updateData)
      (Report.surveyScope existing) (Report.surveyScope r') /\
    partialField (UpdateReportInput.complianceScore updateData)
      (Report.complianceScore existing) (Report.complianceScore r') /\
    partialField (UpdateReportInput.status updateData)
      (Report.status existing) (Report.status r') /\
    partialField (UpdateReportInput.correctiveActionDue updateData)
      (Report.correctiveActionDue existing) (Report.correctiveActionDue r') /\
    partialField (UpdateReportInput.followUpRequired updateData)
      (Report.followUpRequired existing) (Report.followUpRequired r') /\
    Report.id r' = Report.id existing /\
    Report.facilityId r' = Report.facilityId existing /\
    Report.surveyDate r' = Report.surveyDate existing /\
    Report.accreditationBody r' = Report.accreditationBody existing /\
    Report.deficiencies r' = Report.deficiencies existing /\
    Report.surveyorNotes r' = Report.surveyorNotes existing /\
    Report.createdAt r' = Report.createdAt existing /\
    Report.updatedAt r' = now_repo /\
    Report.version r' = Report.version existing + 1 /\
    (forall id', id' <> id -> findReportById id' s' = findReportById id' s) /\
    length s' = length s.
Proof.
  intros H.
  destruct (updateReportById_Return_inv _ _ _ _ _ _ _ _ _ H) as (existing & Hf & Hv).
  destruct (updateReportById_increments _ _ _ _ _ _ _ _ _ H)
    as (existing' & Hf' & _ & Hs').
  rewrite Hf in Hf'. inversion Hf'; subst existing'. clear Hf'.
  assert (Hother : forall id', id' <> id ->
                     findReportById id' s' = findReportById id' s).
  { intros id' Hne.
    rewrite <- (updateReportById_other id id' updateData version updatedBy
                  now_service now_repo s Hne).
    now rewrite H. }
  destruct (updateReportById_accepted id updateData version updatedBy
              now_service now_repo s existing Hf Hv) as (i & Hi & E).
  rewrite E in H. cbv zeta in H. injection H as Hr Hs. clear E.
  exists existing. split; [exact Hf|]. split; [exact Hs'|].
  rewrite <- Hr. simpl.
  repeat (split; [first [apply partialField_default | reflexivity | exact Hother]|]).
  rewrite <- Hs. apply length_insert.
Qed.

(** The partial update of the specification: on [stMarys], a payload with
    only [followUpRequired] leaves the score, the surveyor, the scope, the
    status and the due date as they were. *)
Lemma partial_update_frame_witness :
  exists r' s',
    updateReportById (Report.id stMarys) followUpOnly (JNum 1) "reader-1" 10 11
      seedStore = (Return r', s') /\
    Report.followUpRequired r' = true /\
    Report.complianceScore r' = Report.complianceScore stMarys /\
    Report.leadSurveyor r' = Report.leadSurveyor stMarys /\
    Report.surveyScope r' = Report.surveyScope stMarys /\
    Report.status r' = Report.status stMarys /\
    Report.correctiveActionDue r' = Report.correctiveActionDue stMarys /\
    Report.version r' = 2.
Proof.
  destruct (updateReportById (Report.id stMarys) followUpOnly (JNum 1) "reader-1"
              10 11 seedStore) as [res s'] eqn:E.
  destruct res as [r' | e]; [|vm_compute in E; discriminate].
  exists r', s'. split; [reflexivity|].
  destruct (partial_update_frame _ _ _ _ _ _ _ _ _ E)
    as (existing & Hf & _ & _ & Hlead & Hscope & Hscore & Hstatus & Hdue & Hfollow
        & _ & _ & _ & _ & _ & _ & _ & _ & Hver & _).
  vm_compute in Hf. inversion Hf; subst existing. clear Hf.
  simpl in *. repeat split; assumption.
Defined.

(** * Properties of report creation *)

Section CreateFacts.

Variable getFullYear : Date -> Z.

(** C5. Creation throws a Conflict that carries the facility id, the survey
    type and the id of a colliding report as soon as a stored report has the
    same facility, the same survey type and a survey date in the same
    calendar year, and then leaves the store; when every stored report of
    that facility and type is dated in another year (or there is none), it
    succeeds and pushes the new report, which has the data of the request. *)
Theorem create_survey_uniqueness (reportData : CreateReportInput.t)
    (createdBy : string) (env : CreateEnv) (s : Store) :
  (forall existing,
     In existing s ->
     Report.facilityId existing = CreateReportInput.facilityId reportData ->
     Report.surveyType existing = CreateReportInput.surveyType reportData ->
     getFullYear (Report.surveyDate existing)
       = getFullYear (CreateReportInput.surveyDate reportData) ->
     exists duplicate e,
       In duplicate s /\
       Report.facilityId duplicate = CreateReportInput.facilityId reportData /\
       Report.surveyType duplicate = CreateReportInput.surveyType reportData /\
       getFullYear (Report.surveyDate duplicate)
         = getFullYear (CreateReportInput.surveyDate reportData) /\
       createNewReport getFullYear reportData createdBy env s = (Throw e, s) /\
       e = ConflictError
             (DuplicateDetails (CreateReportInput.facilityId reportData)
                               (CreateReportInput.surveyType reportData)
                               (Report.id duplicate)) /\
       code e = "CONFLICT")
  /\
  ((forall existing,
      In existing s ->
      Report.facilityId existing = CreateReportInput.facilityId reportData ->
      Report.surveyType existing = CreateReportInput.surveyType reportData ->
      getFullYear (Report.surveyDate existing)
        <> getFullYear (CreateReportInput.surveyDate reportData)) ->
   exists r,
     createNewReport getFullYear reportData createdBy env s
       = (Return r, (s ++ [r])%list) /\
     Report.id r = env_uuid env /\
     Report.facilityId r = CreateReportInput.facilityId reportData /\
     Report.surveyType r = CreateReportInput.surveyType reportData /\
     Report.surveyDate r = CreateReportInput.surveyDate reportData /\
     Report.status r = SurveyStatus.COMPLIANT /\
     Report.version r = 1).
Proof.
  split.
  - intros existing Hin Hfac Htype Hyear.
    unfold createNewReport.
    destruct (List.find _ _) as [duplicate|] eqn:Hfind.
    + apply List.find_some in Hfind. destruct Hfind as [Hd Hc].
      unfold findReportsByFacility in Hd. apply List.filter_In in Hd.
      destruct Hd as [Hd Hdf].
      apply andb_true_iff in Hc. destruct Hc as [Hc1 Hc2].
      apply String.eqb_eq in Hdf, Hc1. apply Z.eqb_eq in Hc2.
      exists duplicate. eexists. repeat split; try eassumption; reflexivity.
    + exfalso.
      assert (Hin' : In existing
                (findReportsByFacility (CreateReportInput.facilityId reportData) s)).
      { unfold findReportsByFacility. apply List.filter_In. split; [exact Hin|].
        now apply String.eqb_eq. }
      pose proof (List.find_none _ _ Hfind _ Hin') as Hfalse. cbv beta in Hfalse.
      rewrite (proj2 (String.eqb_eq _ _) Htype) in Hfalse.
      rewrite (proj2 (Z.eqb_eq _ _) Hyear) in Hfalse. discriminate.
  - intros Hnone.
    unfold createNewReport.
    destruct (List.find _ _) as [duplicate|] eqn:Hfind.
    + exfalso.
      apply List.find_some in Hfind. destruct Hfind as [Hd Hc].
      unfold findReportsByFacility in Hd. apply List.filter_In in Hd.
      destruct Hd as [Hd Hdf].
      apply andb_true_iff in Hc. destruct Hc as [Hc1 Hc2].
      apply String.eqb_eq in Hdf, Hc1. apply Z.eqb_eq in Hc2.
      exact (Hnone duplicate Hd Hdf Hc1 Hc2).
    + eexists. simpl. repeat split.
Qed.

End CreateFacts.

(** Mercy General already has an infection-control survey dated 2024-07-15:
    a second one dated 2024-12-01 collides with it, one dated 2025-03-01 is
    created. *)
Lemma create_survey_uniqueness_witness :
  (exists duplicate,
     Report.id duplicate = Report.id mercyGeneral /\
     createNewReport getUTCFullYear (mercyAgain 1733047200000) "editor-1"
       sampleEnv seedStore
     = (Throw (ConflictError
                 (DuplicateDetails "mercy-general-hospital" "infection_control"
                    (Report.id duplicate))),
        seedStore))
  /\
  (exists r,
     createNewReport getUTCFullYear (mercyAgain 1740823200000) "editor-1"
       sampleEnv seedStore
     = (Return r, (seedStore ++ [r])%list) /\
     Report.version r = 1).
Proof.
  split.
  - destruct (proj1 (create_survey_uniqueness getUTCFullYear
                       (mercyAgain 1733047200000) "editor-1" sampleEnv seedStore)
                mercyGeneral)
      as (duplicate & e & Hin & _ & _ & _ & Hc & He & _).
    + simpl. left. reflexivity.
    + reflexivity.
    + reflexivity.
    + reflexivity.
    + exists duplicate. subst e. split; [|exact Hc].
      vm_compute in Hc. injection Hc as Hc. exact (eq_sym Hc).
  - destruct (proj2 (create_survey_uniqueness getUTCFullYear
                       (mercyAgain 1740823200000) "editor-1" sampleEnv seedStore))
      as (r & Hr & _ & _ & _ & _ & _ & Hv).
    + intros existing Hin Hfac Htype.
      simpl in Hin. destruct Hin as [<- | [<- | [<- | []]]];
        vm_compute; discriminate.
    + exists r. split; assumption.
Defined.

(** * Properties of the edit authorisation *)

(** C3. The decision depends on the role and the status alone and is the
    table: immediate_jeopardy permits admin only; deficient permits editor
    and admin; compliant permits reader, editor and admin; every other
    status permits no role. *)
Theorem checkStatusEditPermission_table (userRole reportStatus : string) :
  (checkStatusEditPermission userRole reportStatus = true <->
     (reportStatus = SurveyStatus.IMMEDIATE_JEOPARDY /\ userRole = UserRole.ADMIN)
     \/ (reportStatus = SurveyStatus.DEFICIENT /\
         (userRole = UserRole.EDITOR \/ userRole = UserRole.ADMIN))
     \/ (reportStatus = SurveyStatus.COMPLIANT /\
         (userRole = UserRole.READER \/ userRole = UserRole.EDITOR
          \/ userRole = UserRole.ADMIN)))
  /\
  (reportStatus <> SurveyStatus.IMMEDIATE_JEOPARDY ->
   reportStatus <> SurveyStatus.DEFICIENT ->
   reportStatus <> SurveyStatus.COMPLIANT ->
   checkStatusEditPermission userRole reportStatus = false).
Proof.
  unfold checkStatusEditPermission.
  destruct (String.eqb_spec reportStatus SurveyStatus.IMMEDIATE_JEOPARDY) as [-> | H1].
  { split; [|congruence].
    destruct (String.eqb_spec userRole UserRole.ADMIN) as [-> | Hr].
    - split; [intros _; left; split; reflexivity | reflexivity].
    - split; [discriminate|].
      intros [[_ H] | [[H _] | [H _]]]; [contradiction | discriminate | discriminate]. }
  destruct (String.eqb_spec reportStatus SurveyStatus.DEFICIENT) as [-> | H2].
  { split; [|congruence].
    rewrite orb_true_iff.
    split.
    - intros [H | H]; apply String.eqb_eq in H; right; left; tauto.
    - intros [[H _] | [[_ H] | [H _]]]; [discriminate | | discriminate].
      destruct H as [-> | ->]; [left | right]; reflexivity. }
  destruct (String.eqb_spec reportStatus SurveyStatus.COMPLIANT) as [-> | H3].
  { split; [|congruence].
    rewrite !orb_true_iff.
    split.
    - intros [[H | H] | H]; apply String.eqb_eq in H; right; right; tauto.
    - intros [[H _] | [[H _] | [_ H]]]; [discriminate | discriminate |].
      destruct H as [-> | [-> | ->]]; [left; left | left; right | right]; reflexivity. }
  split; [|reflexivity].
  split; [discriminate|].
  intros [[H _] | [[H _] | [H _]]]; contradiction.
Qed.

(** An editor on an immediate-jeopardy report is denied, an admin is
    permitted, and a status outside the enumeration denies the admin too. *)
Lemma checkStatusEditPermission_table_witness :
  checkStatusEditPermission UserRole.EDITOR SurveyStatus.IMMEDIATE_JEOPARDY = false /\
  checkStatusEditPermission UserRole.ADMIN SurveyStatus.IMMEDIATE_JEOPARDY = true /\
  checkStatusEditPermission UserRole.ADMIN "archived" = false.
Proof.
  split; [|split].
  - destruct (checkStatusEditPermission UserRole.EDITOR
                SurveyStatus.IMMEDIATE_JEOPARDY) eqn:E; [|reflexivity].
    apply (proj1 (checkStatusEditPermission_table _ _)) in E.
    destruct E as [[_ H] | [[H _] | [H _]]]; discriminate.
  - apply (proj1 (checkStatusEditPermission_table UserRole.ADMIN
                    SurveyStatus.IMMEDIATE_JEOPARDY)).
    left. split; reflexivity.
  - apply (proj2 (checkStatusEditPermission_table UserRole.ADMIN "archived"));
      discriminate.
Defined.

(** The entries of the table, one by one. *)
Lemma checkStatusEditPermission_entries :
  List.map
    (fun status =>
       List.map (fun role => checkStatusEditPermission role status)
         [UserRole.READER; UserRole.EDITOR; UserRole.ADMIN])
    [SurveyStatus.IMMEDIATE_JEOPARDY; SurveyStatus.DEFICIENT;
     SurveyStatus.COMPLIANT; "archived"]
  = [ [false; false; true];
      [false; true; true];
      [true; true; true];
      [false; false; false] ].
Proof. reflexivity. Qed.

Section HttpFacts.

Variable uuidSchema : string -> bool.

(** C4. When the role of the authenticated actor is not permitted for the
    current status of the report, the PUT route answers 403. The body names
    the status and the required role in its message and carries the details
    [{ userRole, reportStatus, requiredRole }], where the required role is
    "admin" for immediate_jeopardy, "editor or admin" for deficient,
    "reader, editor, or admin" for compliant and "unknown" for any other
    status. The controller does not run: no report is returned and the store
    is as it was. *)
Theorem denied_edit_is_forbidden (req : Request.t) (user : AuthUser.t)
    (existing : Report.t) (now_service now_repo : Date) (s : Store) :
  Request.user req = Some user ->
  Request.params_id req <> "" ->
  findReportById (Request.params_id req) s = Some existing ->
  checkStatusEditPermission (AuthUser.role user) (Report.status existing) = false ->
  exists required,
    put_report uuidSchema req now_service now_repo s =
      (Return (Res403
                 ("Insufficient permissions to edit " ++ Report.status existing
                    ++ " reports. Required role: " ++ required)
                 (Some (mkForbiddenDetails
                          (AuthUser.role user)
                          (Report.status existing)
                          required))),
       s) /\
    (Report.status existing = "immediate_jeopardy" -> required = "admin") /\
    (Report.status existing = "deficient" -> required = "editor or admin") /\
    (Report.status existing = "compliant" ->
     required = "reader, editor, or admin") /\
    (Report.status existing <> "immediate_jeopardy" ->
     Report.status existing <> "deficient" ->
     Report.status existing <> "compliant" ->
     required = "unknown") /\
    (forall data etag message s',
       put_report uuidSchema req now_service now_repo s
         <> (Return (ResUpdated data etag message), s')).
Proof.
  intros Huser Hid Hfind Hdenied.
  assert (Hput : put_report uuidSchema req now_service now_repo s =
                 (Return (Res403
                            ("Insufficient permissions to edit "
                               ++ Report.status existing
                               ++ " reports. Required role: "
                               ++ getRequiredRoleForStatus (Report.status existing))
                            (Some (mkForbiddenDetails
                                     (AuthUser.role user)
                                     (Report.status existing)
                                     (getRequiredRoleForStatus
                                        (Report.status existing))))), s)).
  { unfold put_report, authorizeReportEdit. rewrite Huser.
    apply String.eqb_neq in Hid. now rewrite Hid, Hfind, Hdenied. }
  exists (getRequiredRoleForStatus (Report.status existing)).
  split; [exact Hput|].
  unfold getRequiredRoleForStatus, SurveyStatus.IMMEDIATE_JEOPARDY,
    SurveyStatus.DEFICIENT, SurveyStatus.COMPLIANT.
  repeat split.
  - intros ->. reflexivity.
  - intros ->. reflexivity.
  - intros ->. reflexivity.
  - intros Hij Hdef Hcom.
    apply String.eqb_neq in Hij, Hdef, Hcom. now rewrite Hij, Hdef, Hcom.
  - intros data etag message s'. rewrite Hput. discriminate.
Qed.

(** On the whole route: an actor whom the status permits, with a valid id
    and body, and a version that is not the stored one, gets the Conflict of
    the service, and the store is as it was. *)
Lemma put_report_version_conflict (req : Request.t) (user : AuthUser.t)
    (updateData : UpdateReportInput.t) (existing : Report.t)
    (now_service now_repo : Date) (s : Store) :
  Request.user req = Some user ->
  Request.params_id req <> "" ->
  uuidSchema (Request.params_id req) = true ->
  Request.body req = Some updateData ->
  findReportById (Request.params_id req) s = Some existing ->
  checkStatusEditPermission (AuthUser.role user) (Report.status existing) = true ->
  num_strict_neq (Report.version existing)
    (requestVersion (Request.body_version req) (Request.if_match req)) = true ->
  put_report uuidSchema req now_service now_repo s =
    (Throw (ConflictError
              (VersionDetails
                 (requestVersion (Request.body_version req) (Request.if_match req))
                 (Report.version existing) (Request.params_id req))), s).
Proof.
  intros Huser Hid Huuid Hbody Hfind Hperm Hver.
  unfold put_report, authorizeReportEdit. rewrite Huser.
  apply String.eqb_neq in Hid. rewrite Hid, Hfind, Hperm. simpl.
  unfold controller_updateReport. rewrite Huuid, Hbody. simpl.
  unfold updateReportById. now rewrite Hfind, Hver.
Qed.

(** C10. When the body has no truthy [version] and [parseInt] of the
    [If-Match] header is [NaN] (the header is absent or does not start with
    a number), the controller calls the service with version 1; on an
    existing report such a request is accepted exactly when the stored
    version is 1, and is otherwise the Conflict that expected version 1. *)
Theorem versionless_update_uses_version_1 (req : Request.t)
    (updateData : UpdateReportInput.t) (now_service now_repo : Date) (s : Store) :
  truthy (Request.body_version req) = false ->
  parseInt (Request.if_match req) = JNaN ->
  uuidSchema (Request.params_id req) = true ->
  Request.body req = Some updateData ->
  requestVersion (Request.body_version req) (Request.if_match req) = JNum 1 /\
  controller_updateReport uuidSchema req now_service now_repo s =
    respondUpdated
      (updateReportById (Request.params_id req) updateData (JNum 1) (actorId req)
         now_service now_repo s) /\
  (forall existing,
     findReportById (Request.params_id req) s = Some existing ->
     (is_Return (fst (controller_updateReport uuidSchema req now_service now_repo s))
        = true <-> Report.version existing = 1) /\
     (Report.version existing <> 1 ->
      controller_updateReport uuidSchema req now_service now_repo s =
        (Throw (ConflictError
                  (VersionDetails (JNum 1) (Report.version existing)
                                  (Request.params_id req))), s))).
Proof.
  intros Hbody Hheader Huuid Hdata.
  assert (Hver : requestVersion (Request.body_version req) (Request.if_match req)
                 = JNum 1).
  { unfold requestVersion, js_or. now rewrite Hbody, Hheader. }
  assert (Hctl : controller_updateReport uuidSchema req now_service now_repo s =
                 respondUpdated
                   (updateReportById (Request.params_id req) updateData (JNum 1)
                      (actorId req) now_service now_repo s)).
  { unfold controller_updateReport. now rewrite Huuid, Hdata, Hver. }
  split; [exact Hver|]. split; [exact Hctl|].
  intros existing Hfind. rewrite Hctl.
  destruct (Z.eq_dec (Report.version existing) 1) as [Heq | Hne].
  - assert (Hok : num_strict_neq (Report.version existing) (JNum 1) = false).
    { simpl. rewrite Heq. reflexivity. }
    destruct (updateReportById_accepted (Request.params_id req) updateData (JNum 1)
                (actorId req) now_service now_repo s existing Hfind Hok)
      as (i & _ & ->).
    split; [|contradiction]. simpl. tauto.
  - assert (Hbad : num_strict_neq (Report.version existing) (JNum 1) = true).
    { simpl. apply negb_true_iff. now apply Z.eqb_neq. }
    unfold updateReportById. rewrite Hfind, Hbad. simpl.
    split; [|reflexivity]. split; [discriminate | contradiction].
Qed.

End HttpFacts.

(** An editor on the immediate-jeopardy report of the seed store, and a
    reader on its deficient report. *)
Lemma denied_edit_is_forbidden_witness :
  put_report anyUuid editorOnJeopardy 40 41 seedStore =
    (Return (Res403
               "Insufficient permissions to edit immediate_jeopardy reports. Required role: admin"
               (Some (mkForbiddenDetails "editor" "immediate_jeopardy" "admin"))),
     seedStore) /\
  put_report anyUuid readerOnDeficient 40 41 seedStore =
    (Return (Res403
               "Insufficient permissions to edit deficient reports. Required role: editor or admin"
               (Some (mkForbiddenDetails "reader" "deficient" "editor or admin"))),
     seedStore).
Proof.
  split.
  - destruct (denied_edit_is_forbidden anyUuid editorOnJeopardy editorUser
                metroGeneral 40 41 seedStore)
      as (required & H & Hij & _).
    + reflexivity.
    + discriminate.
    + reflexivity.
    + reflexivity.
    + rewrite H, (Hij eq_refl). reflexivity.
  - destruct (denied_edit_is_forbidden anyUuid readerOnDeficient readerUser
                mercyGeneral 40 41 seedStore)
      as (required & H & _ & Hdef & _).
    + reflexivity.
    + discriminate.
    + reflexivity.
    + reflexivity.
    + rewrite H, (Hdef eq_refl). reflexivity.
Defined.

(** [stMarys] is stored at version 1, [mercyGeneral] at version 2: the
    version-less request is accepted on the first and would conflict on the
    second. *)
Lemma versionless_update_uses_version_1_witness :
  requestVersion JUndefined None = JNum 1 /\
  is_Return (fst (controller_updateReport anyUuid versionless 50 51 seedStore))
    = true.
Proof.
  destruct (versionless_update_uses_version_1 anyUuid versionless
              (UpdateReportInput.mk None None None (Some 90) None None None)
              50 51 seedStore)
    as (Hver & _ & Hex).
  - reflexivity.
  - reflexivity.
  - reflexivity.
  - reflexivity.
  - split; [exact Hver|].
    apply (proj1 (Hex stMarys eq_refl)). reflexivity.
Defined.

(** * Properties of the deficiency sort *)

Lemma sort_insert_Permutation {A : Type} (cmp : A -> A -> JsNumber) (x : A)
    (l : list A) :
  Permutation (x :: l) (sort_insert cmp x l).
Proof.
  induction l as [|y l IH]; simpl; [reflexivity|].
  destruct (js_positive (cmp x y)); [|reflexivity].
  rewrite perm_swap. now apply perm_skip.
Qed.

(** The sort rearranges: nothing is lost or duplicated. *)
Lemma js_sort_Permutation {A : Type} (cmp : A -> A -> JsNumber) (l : list A) :
  Permutation l (js_sort cmp l).
Proof.
  induction l as [|x l IH]; simpl; [reflexivity|].
  rewrite <- sort_insert_Permutation. now apply perm_skip.
Qed.

Lemma StronglySorted_weaken {A : Type} (R R' : A -> A -> Prop) (l : list A) :
  (forall a b, R a b -> R' a b) -> StronglySorted R l -> StronglySorted R' l.
Proof.
  intros HR. induction 1 as [|x l Hs IH Hx]; constructor; [exact IH|].
  eapply List.Forall_impl; [|exact Hx]. apply HR.
Qed.

Section SortFacts.

Context {A : Type} (cmp : A -> A -> JsNumber) (key : A -> Z) (P : A -> Prop).

(** On the elements that satisfy [P], the comparator orders by [key]: it is
    positive exactly when the first argument has the larger key. *)
Hypothesis cmp_key :
  forall a b, P a -> P b -> js_positive (cmp a b) = (key b <? key a).

Lemma sort_insert_sorted (x : A) (l : list A) :
  P x -> Forall P l ->
  StronglySorted (fun a b => key a <= key b) l ->
  StronglySorted (fun a b => key a <= key b) (sort_insert cmp x l).
Proof.
  intros Hx Hl Hs. induction Hs as [|y l Hs IH Hy]; simpl.
  - repeat constructor.
  - inversion Hl as [|? ? Py Pl]; subst.
    rewrite (cmp_key x y Hx Py).
    destruct (Z.ltb_spec (key y) (key x)) as [Hlt | Hge].
    + constructor; [now apply IH|].
      rewrite <- sort_insert_Permutation.
      constructor; [lia | exact Hy].
    + constructor; [now constructor|].
      constructor; [exact Hge|].
      eapply List.Forall_impl; [|exact Hy]. simpl. intros z Hz. lia.
Qed.

Lemma js_sort_sorted (l : list A) :
  Forall P l -> StronglySorted (fun a b => key a <= key b) (js_sort cmp l).
Proof.
  induction 1 as [|x l Hx Hl IH]; simpl; [constructor|].
  apply sort_insert_sorted; [exact Hx | | exact IH].
  now rewrite <- js_sort_Permutation.
Qed.

End SortFacts.

Section SortOrderFacts.

Variable localeCompare : string -> string -> Z.

Lemma comparefn_severity_desc (order : string) (a b : Deficiency.t) :
  String.eqb order "asc" = false ->
  knownSeverity a -> knownSeverity b ->
  js_positive (comparefn localeCompare "severity" order a b)
  = (rankOf b <? rankOf a).
Proof.
  intros Ho [ra Ha] [rb Hb].
  unfold comparefn, comparison, severityRank, rankOf. rewrite Ho. simpl.
  rewrite Ha, Hb. simpl.
  destruct (Z.ltb_spec 0 (- (rb - ra))), (Z.ltb_spec rb ra); (reflexivity || lia).
Qed.

Lemma comparefn_severity_asc (a b : Deficiency.t) :
  knownSeverity a -> knownSeverity b ->
  js_positive (comparefn localeCompare "severity" "asc" a b)
  = (- rankOf b <? - rankOf a).
Proof.
  intros [ra Ha] [rb Hb].
  unfold comparefn, comparison, severityRank, rankOf. simpl.
  rewrite Ha, Hb. simpl.
  destruct (Z.ltb_spec 0 (rb - ra)), (Z.ltb_spec (- rb) (- ra)); (reflexivity || lia).
Qed.

(** What the code does with the default options, for every list of
    deficiencies: the order it calls "desc" arranges the severities by
    increasing rank, minor first; "asc" arranges them by decreasing rank. *)
Lemma severity_sort_orders (deficiencies : list Deficiency.t)
    (severity : option string) (page limit : option Num.t) :
  Forall knownSeverity deficiencies ->
  StronglySorted (fun a b => rankOf a <= rankOf b)
    (filterAndSort localeCompare deficiencies
       (ReportQueryOptions.mk None None page limit severity None None))
  /\
  StronglySorted (fun a b => rankOf b <= rankOf a)
    (filterAndSort localeCompare deficiencies
       (ReportQueryOptions.mk None None page limit severity None (Some "asc"))).
Proof.
  intros Hknown.
  assert (Hfiltered : forall f, Forall knownSeverity (List.filter f deficiencies)).
  { intros f. apply List.Forall_forall. intros d Hd. apply List.filter_In in Hd.
    rewrite List.Forall_forall in Hknown. now apply Hknown. }
  unfold filterAndSort. cbn [ReportQueryOptions.deficiencies_severity
    ReportQueryOptions.deficiencies_sortBy ReportQueryOptions.deficiencies_order].
  change (str_or None "severity") with "severity".
  change (str_or None "desc") with "desc".
  change (str_or (Some "asc") "desc") with "asc".
  split.
  - apply js_sort_sorted with (P := knownSeverity).
    + intros a b. now apply comparefn_severity_desc.
    + destruct (str_truthy severity); [apply Hfiltered | exact Hknown].
  - eapply StronglySorted_weaken; [|
      apply js_sort_sorted with (P := knownSeverity) (key := fun d => - rankOf d)].
    + intros a b. simpl. lia.
    + intros a b. now apply comparefn_severity_asc.
    + destruct (str_truthy severity); [apply Hfiltered | exact Hknown].
Qed.

(** The base comparison of [dueDate] is ascending, a missing due date being
    later than every date: it is negative, so that [a] sorts first under
    "asc", exactly when [a] is due strictly before [b]. *)
Lemma dueDate_comparison_ascending (a b : Deficiency.t) :
  js_negative (comparison localeCompare "dueDate" a b) = true <->
  match Deficiency.dueDate a, Deficiency.dueDate b with
  | Some ta, Some tb => ta < tb
  | Some _, None => True
  | None, _ => False
  end.
Proof.
  unfold comparison, dueTime. simpl.
  destruct (Deficiency.dueDate a) as [ta|], (Deficiency.dueDate b) as [tb|]; simpl.
  - rewrite Z.ltb_lt. lia.
  - tauto.
  - split; [discriminate | contradiction].
  - split; [discriminate | contradiction].
Qed.

(** C6. The deficiencies of the seed report [metroGeneral] are, in stored
    order, immediate_jeopardy, major, major, minor. With the default sort
    options (and with [sortBy=severity] and [order=desc] spelled out) the
    engine returns them minor first and immediate_jeopardy last; with
    [order=asc] it returns immediate_jeopardy first. The comparator of the
    severity case is already the descending one, and the final negation for
    every order but "asc" inverts it. *)
Theorem severity_sort_default_is_inverted :
  List.map Deficiency.severity (Report.deficiencies metroGeneral)
    = ["immediate_jeopardy"; "major"; "major"; "minor"] /\
  List.map Deficiency.severity
    (filterAndSort localeCompare (Report.deficiencies metroGeneral) noOptions)
    = ["minor"; "major"; "major"; "immediate_jeopardy"] /\
  List.map Deficiency.severity
    (filterAndSort localeCompare (Report.deficiencies metroGeneral)
       (sortedBy (Some "severity") (Some "desc")))
    = ["minor"; "major"; "major"; "immediate_jeopardy"] /\
  List.map Deficiency.severity
    (filterAndSort localeCompare (Report.deficiencies metroGeneral)
       (sortedBy (Some "severity") (Some "asc")))
    = ["immediate_jeopardy"; "major"; "major"; "minor"] /\
  (exists items,
     formatDeficiencies localeCompare (Report.deficiencies metroGeneral) noOptions
       = Bare items /\
     List.map Deficiency.id items = ["metro-4"; "metro-2"; "metro-3"; "metro-1"]).
Proof.
  repeat split; try (vm_compute; reflexivity).
  eexists. split; vm_compute; reflexivity.
Qed.

End SortOrderFacts.

(** * Properties of the pagination *)

(** For a start inside the natural range, [slice] is the half-open interval
    of the list. *)
Lemma js_slice_take_drop {A : Type} (start n : Z) (l : list A) :
  0 <= start -> 0 <= n ->
  js_slice start (start + n) l = take (Z.to_nat n) (drop (Z.to_nat start) l).
Proof.
  intros Hs Hn. unfold js_slice.
  destruct (Z.ltb_spec start 0) as [|_]; [lia|].
  destruct (Z.ltb_spec (start + n) 0) as [|_]; [lia|].
  destruct (Z_lt_le_dec start (Z.of_nat (length l))) as [Hin | Hout].
  - rewrite (Z.min_l start) by lia.
    destruct (Z_le_gt_dec (start + n) (Z.of_nat (length l))) as [Hfit | Hcut].
    + rewrite Z.min_l by lia. f_equal. lia.
    + rewrite Z.min_r by lia.
      rewrite !take_ge; [reflexivity | |]; rewrite length_drop; lia.
  - rewrite (Z.min_r start) by lia.
    rewrite !drop_ge by lia. now rewrite !take_nil.
Qed.

(** [ceil_div a b] is the ceiling of [a / b]. *)
Lemma ceil_div_spec (a b : Z) :
  0 < b -> b * (ceil_div a b - 1) < a <= b * ceil_div a b.
Proof.
  intros Hb. unfold ceil_div.
  pose proof (Z.div_mod (- a) b ltac:(lia)) as Hdm.
  pose proof (Z.mod_pos_bound (- a) b Hb) as Hmod.
  nia.
Qed.

(** ** Integers among the numbers of the query *)

Lemma Num_sub_of_Z (a b : Z) : Num.sub (Num.of_Z a) (Num.of_Z b) = Num.of_Z (a - b).
Proof.
  unfold Num.sub, Num.add, Num.neg, Num.of_Z, inject_Z, Qplus, Qopp. simpl.
  do 2 f_equal. lia.
Qed.

Lemma Num_mul_of_Z (a b : Z) : Num.mul (Num.of_Z a) (Num.of_Z b) = Num.of_Z (a * b).
Proof. reflexivity. Qed.

Lemma Num_add_of_Z (a b : Z) : Num.add (Num.of_Z a) (Num.of_Z b) = Num.of_Z (a + b).
Proof.
  unfold Num.add, Num.of_Z, inject_Z, Qplus. simpl. do 2 f_equal. lia.
Qed.

Lemma Num_ltb_of_Z (a b : Z) : Num.ltb (Num.of_Z a) (Num.of_Z b) = (a <? b).
Proof.
  unfold Num.ltb, Num.of_Z, inject_Z, Qle_bool. simpl.
  rewrite !Z.mul_1_r. now rewrite Z.ltb_antisym.
Qed.

Lemma Num_truthy_of_Z (a : Z) : Num.truthy (Num.of_Z a) = negb (a =? 0).
Proof.
  unfold Num.truthy, Num.of_Z, inject_Z, Qeq_bool. simpl.
  now rewrite Z.mul_1_r.
Qed.

(** [Math.ceil(a / b)] on integers is the ceiling quotient. *)
Lemma Num_ceil_div_of_Z (a b : Z) :
  0 < b ->
  Num.ceil (Num.div (Num.of_Z a) (Num.of_Z b)) = Num.of_Z (ceil_div a b).
Proof.
  intros Hb. unfold Num.div, Num.of_Z.
  assert (Hnz : Qeq_bool (inject_Z b) 0 = false).
  { unfold Qeq_bool, inject_Z. simpl. rewrite Z.mul_1_r. apply Z.eqb_neq. lia. }
  rewrite Hnz. unfold Num.ceil. do 2 f_equal.
  unfold ceil_div, Qceiling. f_equal.
  rewrite (Zdiv_Qdiv (- a) b). apply Qfloor_comp.
  rewrite inject_Z_opp. unfold Qdiv. ring.
Qed.

Lemma truncate_inject_Z (z : Z) : truncate (inject_Z z) = z.
Proof.
  unfold truncate. destruct (Qle_bool 0 (inject_Z z));
    [apply Qfloor_Z | apply Qceiling_Z].
Qed.

(** On integers [slice] is the slice of the usual reading. *)
Lemma slice_of_Z {A : Type} (start end_ : Z) (l : list A) :
  slice (Num.of_Z start) (Num.of_Z end_) l = js_slice start end_ l.
Proof.
  unfold slice, js_slice, sliceIndex, Num.of_Z. now rewrite !truncate_inject_Z.
Qed.

(** A slice, whatever its bounds, holds elements of the array. *)
Lemma slice_subseteq {A : Type} (start end_ : Num.t) (l : list A) (x : A) :
  In x (slice start end_ l) -> In x l.
Proof.
  unfold slice. intros H. apply list_elem_of_In in H. apply list_elem_of_In.
  apply subseteq_take in H. now apply subseteq_drop in H.
Qed.

(** A limit of one and a half: the page bounds 1.5 and 3 are made the
    indices 1 and 3, each on its own, and page 2 holds two items. *)
Lemma fractional_limit_page :
  List.map Deficiency.id
    (resultItems
       (formatDeficiencies byteCompare (Report.deficiencies metroGeneral)
          (ReportQueryOptions.mk None None (Some (Num.of_Z 2))
             (Some (Num.Finite (3 # 2))) None None None)))
  = ["metro-2"; "metro-3"].
Proof. vm_compute. reflexivity. Qed.

Section PaginationFacts.

Variable localeCompare : string -> string -> Z.

(** The result for a page and a limit that are integers of at least 1,
    supplied or by default: the slice from (page-1)*limit of length limit
    of the filtered and sorted list, in the envelope when [page] or [limit]
    is supplied. *)
Lemma formatDeficiencies_integral (deficiencies : list Deficiency.t)
    (options : ReportQueryOptions.t) (page limit : Z) :
  num_or (ReportQueryOptions.page options) (Num.of_Z 1) = Num.of_Z page ->
  num_or (ReportQueryOptions.limit options) (Num.of_Z 20) = Num.of_Z limit ->
  1 <= page -> 1 <= limit ->
  let filtered := filterAndSort localeCompare deficiencies options in
  let n := Z.of_nat (length filtered) in
  let items :=
    take (Z.to_nat limit) (drop (Z.to_nat ((page - 1) * limit)) filtered) in
  formatDeficiencies localeCompare deficiencies options =
    if num_truthy (ReportQueryOptions.page options)
       || num_truthy (ReportQueryOptions.limit options)
    then Envelope items
           (mkPagination (Num.of_Z page) (Num.of_Z (ceil_div n limit)) n
              (Num.of_Z limit) ((page - 1) * limit + limit <? n) (1 <? page))
    else Bare items.
Proof.
  intros Hpage Hlimit Hp Hl filtered n items.
  unfold formatDeficiencies. fold filtered. fold n.
  rewrite Hpage, Hlimit.
  rewrite Num_sub_of_Z, Num_mul_of_Z, Num_add_of_Z, slice_of_Z, !Num_ltb_of_Z.
  rewrite Num_ceil_div_of_Z by lia.
  rewrite js_slice_take_drop by nia.
  reflexivity.
Qed.

End PaginationFacts.

(** * Properties of the Include Shape *)

(** Every attribute [fieldMap] names is an attribute of the report. *)
Lemma fromCodeUnits_codeUnits (s : string) : fromCodeUnits (codeUnits s) = Some s.
Proof.
  induction s as [|c s IH]; [reflexivity|].
  change (codeUnits (String c s)) with (Z.of_nat (nat_of_ascii c) :: codeUnits s).
  cbn [fromCodeUnits]. rewrite IH.
  pose proof (nat_ascii_bounded c) as Hc.
  replace ((0 <=? Z.of_nat (nat_of_ascii c)) && (Z.of_nat (nat_of_ascii c) <? 256))
    with true by (symmetry; apply andb_true_iff; split;
                  [apply Z.leb_le | apply Z.ltb_lt]; lia).
  simpl. now rewrite Nat2Z.id, ascii_nat_embedding.
Qed.

Lemma fromCodeUnits_Some (l : list Z) (s : string) :
  fromCodeUnits l = Some s -> l = codeUnits s.
Proof.
  revert s. induction l as [|c l IH]; intros s; cbn [fromCodeUnits].
  - intros H. injection H as <-. reflexivity.
  - destruct ((0 <=? c) && (c <? 256)) eqn:Hc; [|discriminate].
    apply andb_true_iff in Hc. destruct Hc as [H0 H256].
    apply Z.leb_le in H0. apply Z.ltb_lt in H256.
    destruct (fromCodeUnits l) as [s'|]; [|discriminate].
    simpl. intros H. injection H as <-.
    change (codeUnits (String (ascii_of_nat (Z.to_nat c)) s'))
      with (Z.of_nat (nat_of_ascii (ascii_of_nat (Z.to_nat c))) :: codeUnits s').
    rewrite nat_ascii_embedding by lia. rewrite Z2Nat.id by lia.
    now rewrite (IH s' eq_refl).
Qed.

Lemma codeUnits_inj (a b : string) : codeUnits a = codeUnits b -> a = b.
Proof.
  intros H. apply (f_equal fromCodeUnits) in H.
  rewrite !fromCodeUnits_codeUnits in H. congruence.
Qed.

(** [fieldMap] and the attribute it names give, for each key, the value
    [propertyOf] lists, and [fieldMap] has no other key. *)
Lemma fieldMap_propertyOf (localeCompare : string -> string -> Z)
    (report : Report.t) (options : ReportQueryOptions.t) (field key : string) :
  fieldMap !! field = Some key ->
  In field recognisedNames /\
  (field <> "deficiencies" ->
   is_Some (reportProperty key report) /\
   reportProperty key report = propertyOf localeCompare report options field).
Proof.
  intros H. unfold fieldMap in H. apply elem_of_list_to_map_2 in H.
  repeat (apply elem_of_cons in H; destruct H as [H | H];
          [injection H as -> ->;
           split; [simpl; tauto |
                   intros Hd; split; [eexists; reflexivity |
                                      try reflexivity; now contradiction Hd]]|]).
  now apply elem_of_nil in H.
Qed.

Lemma recognisedNames_fieldMap (k : string) :
  In k recognisedNames <-> is_Some (fieldMap !! k).
Proof.
  split.
  - intros H. simpl in H.
    repeat (destruct H as [<- | H]; [eexists; reflexivity|]). contradiction.
  - intros [key H]. unfold fieldMap in H. apply elem_of_list_to_map_2 in H.
    repeat (apply elem_of_cons in H; destruct H as [H | H];
            [injection H as -> _; simpl; tauto|]).
    now apply elem_of_nil in H.
Qed.

Section IncludeFacts.

Variable localeCompare : string -> string -> Z.

(** The properties one requested name adds. *)
Lemma includeName_keys (report : Report.t) (options : ReportQueryOptions.t)
    (m : gmap string Value) (f k : string) :
  is_Some (includeName localeCompare report options m f !! k) <->
  is_Some (m !! k)
  \/ (f = "basic" /\ In k basicSubset)
  \/ (k = f /\ In f recognisedNames).
Proof.
  rewrite recognisedNames_fieldMap.
  unfold includeName.
  destruct (String.eqb_spec f "basic") as [-> | Hnb].
  - rewrite !lookup_insert_is_Some. simpl.
    assert (Hb : fieldMap !! "basic" = None) by reflexivity.
    rewrite Hb. split.
    + intros H. destruct (m !! k) eqn:E; [left; eauto|].
      right. left. split; [reflexivity|].
      destruct H as [<- | [_ [<- | [_ [<- | [_ [<- | [_ [<- | [_ H]]]]]]]]]];
        try tauto.
      destruct H as [? H]; discriminate.
    + intros [H | [[_ H] | [_ [? H]]]]; [| | discriminate].
      * destruct (decide ("surveyDate" = k)); [tauto|]. right. split; [assumption|].
        destruct (decide ("status" = k)); [tauto|]. right. split; [assumption|].
        destruct (decide ("complianceScore" = k)); [tauto|]. right. split; [assumption|].
        destruct (decide ("surveyType" = k)); [tauto|]. right. split; [assumption|].
        destruct (decide ("facilityId" = k)); [tauto|]. right. split; assumption.
      * destruct H as [<- | [<- | [<- | [<- | [<- | []]]]]];
          repeat (first [left; reflexivity | right; split; [discriminate|]]).
  - destruct (fieldMap !! f) as [key|] eqn:Hmap.
    + destruct (String.eqb_spec f "deficiencies") as [-> | Hnd].
      * rewrite lookup_insert_is_Some. split.
        -- intros [<- | [_ H]]; [right; right; split; [reflexivity | eauto] | tauto].
        -- intros [H | [[H _] | [-> _]]]; [| discriminate | tauto].
           destruct (decide ("deficiencies" = k)); tauto.
      * destruct (fieldMap_propertyOf localeCompare report options f key Hmap)
          as (_ & Hprop). destruct (Hprop Hnd) as ([v Hv] & _).
        rewrite Hv, lookup_insert_is_Some. split.
        -- intros [<- | [_ H]]; [right; right; split; [reflexivity | eauto] | tauto].
        -- intros [H | [[H _] | [-> _]]]; [| contradiction | tauto].
           destruct (decide (f = k)); tauto.
    + split; [tauto|].
      intros [H | [[H _] | [_ [? H]]]]; [assumption | contradiction | discriminate].
Qed.

(** ... and the values they hold: a name writes the value [propertyOf]
    lists, over whatever the object held. *)
Lemma includeName_values (report : Report.t) (options : ReportQueryOptions.t)
    (m : gmap string Value) (f k : string) (v : Value) :
  includeName localeCompare report options m f !! k = Some v ->
  m !! k = Some v \/ propertyOf localeCompare report options k = Some v.
Proof.
  unfold includeName.
  destruct (String.eqb_spec f "basic") as [-> | Hnb].
  - rewrite !lookup_insert_Some.
    intros [[<- <-] | [_ [[<- <-] | [_ [[<- <-] | [_ [[<- <-] | [_ [[<- <-] | [_ H]]]]]]]]]];
      try (right; reflexivity).
    now left.
  - destruct (fieldMap !! f) as [key|] eqn:Hmap; [|now left].
    destruct (String.eqb_spec f "deficiencies") as [-> | Hnd].
    + rewrite lookup_insert_Some. intros [[<- <-] | [_ H]]; [right; reflexivity | now left].
    + destruct (fieldMap_propertyOf localeCompare report options f key Hmap)
        as (_ & Hprop). destruct (Hprop Hnd) as (_ & Heq).
      destruct (reportProperty key report) as [w|] eqn:Hw; [|now left].
      rewrite lookup_insert_Some. intros [[<- <-] | [_ H]]; [right | now left].
      now symmetry.
Qed.

Lemma includeField_keys (report : Report.t) (options : ReportQueryOptions.t)
    (m : gmap string Value) (f : list Z) (k : string) :
  is_Some (includeField localeCompare report options m f !! k) <->
  is_Some (m !! k)
  \/ (f = codeUnits "basic" /\ In k basicSubset)
  \/ (codeUnits k = f /\ In k recognisedNames).
Proof.
  unfold includeField.
  destruct (fromCodeUnits f) as [name|] eqn:Hname.
  - apply fromCodeUnits_Some in Hname. subst f.
    rewrite includeName_keys. split.
    + intros [H | [[-> H] | [-> H]]]; auto.
    + intros [H | [[H1 H2] | [H1 H2]]]; [auto | |].
      * apply codeUnits_inj in H1. auto.
      * apply codeUnits_inj in H1. subst. auto.
  - split; [auto|].
    intros [H | [[-> _] | [<- _]]]; [exact H | |].
    + rewrite fromCodeUnits_codeUnits in Hname. discriminate.
    + rewrite fromCodeUnits_codeUnits in Hname. discriminate.
Qed.

Lemma includeField_values (report : Report.t) (options : ReportQueryOptions.t)
    (m : gmap string Value) (f : list Z) (k : string) (v : Value) :
  includeField localeCompare report options m f !! k = Some v ->
  m !! k = Some v \/ propertyOf localeCompare report options k = Some v.
Proof.
  unfold includeField.
  destruct (fromCodeUnits f) as [name|]; [apply includeName_values | now left].
Qed.

Lemma fold_includeField_keys (report : Report.t) (options : ReportQueryOptions.t)
    (fields : list (list Z)) :
  forall (m : gmap string Value) (k : string),
    is_Some (fold_left (includeField localeCompare report options) fields m !! k) <->
    is_Some (m !! k)
    \/ (In (codeUnits "basic") fields /\ In k basicSubset)
    \/ (In (codeUnits k) fields /\ In k recognisedNames).
Proof.
  induction fields as [|f fields IH]; intros m k; cbn [fold_left].
  - simpl. tauto.
  - rewrite IH, includeField_keys.
    assert (Hin : forall x, In x (f :: fields) <-> f = x \/ In x fields)
      by (intros; reflexivity).
    rewrite !Hin. generalize (In k basicSubset) (In k recognisedNames).
    intros B R. split.
    + intros [[H | [[-> H] | [<- H]]] | [[H1 H2] | [H1 H2]]]; auto 6.
    + intros [H | [[[H1 | H1] H2] | [[H1 | H1] H2]]]; subst; auto 6.
Qed.

Lemma fold_includeField_values (report : Report.t) (options : ReportQueryOptions.t)
    (fields : list (list Z)) :
  forall (m : gmap string Value) (k : string) (v : Value),
    fold_left (includeField localeCompare report options) fields m !! k = Some v ->
    m !! k = Some v \/ propertyOf localeCompare report options k = Some v.
Proof.
  induction fields as [|f fields IH]; intros m k v; simpl; [now left|].
  intros H. apply IH in H. destruct H as [H | H]; [|now right].
  now apply includeField_values in H.
Qed.

(** C8 (as amended). The Include Shape has the property [id]; the five
    properties of the fixed subset when [basic] is among the requested
    names; and one property for each requested name that is recognised -
    and no other. Each property holds the attribute of its name (the
    surveyor notes for [notes], the formatted deficiencies for
    [deficiencies]). [basic] adds to the individually listed names, it does
    not replace them: the shape is exactly [id] plus the fixed subset when,
    besides [basic], only unrecognised names or names of the subset are
    requested. A name that is not recognised adds nothing, and the query
    returns the shape whatever the names are. The requested names are the
    pieces of [include] between commas, trimmed of the white space of the
    language. *)
Theorem include_shape_fields (report : Report.t) (include : list Z)
    (options : ReportQueryOptions.t) :
  let fields := List.map trim (split_comma include) in
  let result := formatWithInclude localeCompare report include options in
  let basic := In (codeUnits "basic") fields in
  let listed := fun name : string => In (codeUnits name) fields in
  (forall k,
     is_Some (result !! k) <->
     k = "id"
     \/ (basic /\ In k basicSubset)
     \/ (listed k /\ In k recognisedNames))
  /\ result !! "id" = Some (VString (Report.id report))
  /\ (basic ->
      result !! "facilityId" = Some (VString (Report.facilityId report)) /\
      result !! "surveyType" = Some (VString (Report.surveyType report)) /\
      result !! "complianceScore" = Some (VNumber (Report.complianceScore report)) /\
      result !! "status" = Some (VString (Report.status report)) /\
      result !! "surveyDate" = Some (VDate (Report.surveyDate report)))
  /\ ((listed "deficiencies" ->
       result !! "deficiencies" =
         Some (VFormatted
                 (formatDeficiencies localeCompare (Report.deficiencies report)
                    options))) /\
      (listed "notes" ->
       result !! "notes" = Some (VStrings (Report.surveyorNotes report))) /\
      (listed "surveyorNotes" ->
       result !! "surveyorNotes" = Some (VStrings (Report.surveyorNotes report))) /\
      (listed "complianceScore" ->
       result !! "complianceScore" =
         Some (VNumber (Report.complianceScore report))) /\
      (listed "status" ->
       result !! "status" = Some (VString (Report.status report))) /\
      (listed "surveyType" ->
       result !! "surveyType" = Some (VString (Report.surveyType report))) /\
      (listed "facilityId" ->
       result !! "facilityId" = Some (VString (Report.facilityId report))) /\
      (listed "leadSurveyor" ->
       result !! "leadSurveyor" = Some (VString (Report.leadSurveyor report))) /\
      (listed "surveyDate" ->
       result !! "surveyDate" = Some (VDate (Report.surveyDate report))) /\
      (listed "accreditationBody" ->
       result !! "accreditationBody" =
         Some (VString (Report.accreditationBody report))))
  /\ (basic ->
      (forall k, listed k -> In k recognisedNames -> In k basicSubset) ->
      forall k, is_Some (result !! k) <-> k = "id" \/ In k basicSubset)
  /\ (forall now id s,
        findReportById id s = Some report ->
        ReportQueryOptions.view options <> Some "summary" ->
        ReportQueryOptions.include options = Some include ->
        include <> [] ->
        getReportById localeCompare now id options s
          = Return (IncludeShape result)).
Proof.
  intros fields result basic listed.
  assert (Hkeys : forall k,
            is_Some (result !! k) <->
            k = "id"
            \/ (basic /\ In k basicSubset)
            \/ (listed k /\ In k recognisedNames)).
  { intros k. unfold result, formatWithInclude. fold fields.
    rewrite fold_includeField_keys, lookup_insert_is_Some, lookup_empty.
    fold basic. fold (listed k). split.
    - intros [[<- | [_ [? H]]] | H]; [tauto | discriminate | tauto].
    - intros [-> | H]; [left; left; reflexivity | tauto]. }
  assert (Hvalues : forall k v,
            result !! k = Some v ->
            (k = "id" /\ v = VString (Report.id report))
            \/ propertyOf localeCompare report options k = Some v).
  { intros k v H. unfold result, formatWithInclude in H. fold fields in H.
    apply fold_includeField_values in H. destruct H as [H | H]; [|now right].
    apply lookup_insert_Some in H. destruct H as [[<- <-] | [_ H]]; [now left|].
    rewrite lookup_empty in H. discriminate. }
  assert (Hid : result !! "id" = Some (VString (Report.id report))).
  { destruct (proj2 (Hkeys "id") (or_introl eq_refl)) as [v Hv].
    destruct (Hvalues _ _ Hv) as [[_ ->] | H]; [exact Hv|].
    vm_compute in H. discriminate. }
  assert (Hheld : forall k v,
            k <> "id" -> is_Some (result !! k) ->
            propertyOf localeCompare report options k = Some v ->
            result !! k = Some v).
  { intros k v Hk [w Hw] Hp.
    destruct (Hvalues _ _ Hw) as [[-> _] | H]; [now contradiction Hk|].
    rewrite Hw. congruence. }
  split; [exact Hkeys|]. split; [exact Hid|]. split; [|split; [|split]].
  - intros Hb.
    repeat split;
      (apply Hheld;
       [discriminate
       | apply Hkeys; right; left; split; [exact Hb | simpl; tauto]
       | reflexivity]).
  - repeat split; intros Hl;
      (apply Hheld;
       [discriminate
       | apply Hkeys; right; right; split; [exact Hl | simpl; tauto]
       | reflexivity]).
  - intros Hb Honly k. rewrite Hkeys. split.
    + intros [H | [[_ H] | [H1 H2]]]; [tauto | tauto |].
      right. now apply Honly.
    + intros [H | H]; tauto.
  - intros now id s Hfind Hview Hinc Hne.
    unfold getReportById. rewrite Hfind. unfold formatReportResponse.
    assert (Hv : String.eqb (default "default" (ReportQueryOptions.view options))
                   "summary" = false).
    { apply String.eqb_neq.
      destruct (ReportQueryOptions.view options) as [w|]; simpl; congruence. }
    rewrite Hv, Hinc. simpl.
    destruct include; [now contradiction Hne | reflexivity].
Qed.

End IncludeFacts.

(** [basic] with a name that is not recognised gives exactly the id and the
    fixed subset; and names are trimmed of the white space of the language:
    a no-break space before "status" and an ideographic space around
    "notes" are dropped. *)
Lemma include_shape_fields_witness :
  let result :=
    formatWithInclude byteCompare stMarys (codeUnits "basic, bogus") noOptions in
  let spaced := ([160] ++ codeUnits "status,"
                   ++ [12288] ++ codeUnits "notes" ++ [12288])%list in
  (forall k, is_Some (result !! k) <-> k = "id" \/ In k basicSubset) /\
  result !! "status" = Some (VString "compliant") /\
  formatWithInclude byteCompare stMarys spaced noOptions !! "status"
    = Some (VString "compliant") /\
  formatWithInclude byteCompare stMarys spaced noOptions !! "notes"
    = Some (VStrings ["Excellent medication reconciliation processes"]) /\
  getReportById byteCompare 0 (Report.id stMarys) (including "basic, bogus") seedStore
    = Return (IncludeShape
                (formatWithInclude byteCompare stMarys (codeUnits "basic, bogus")
                   (including "basic, bogus"))).
Proof.
  intros result spaced.
  destruct (include_shape_fields byteCompare stMarys (codeUnits "basic, bogus")
              noOptions)
    as (_ & _ & Hvalues & _ & Honly & _).
  destruct (include_shape_fields byteCompare stMarys spaced noOptions)
    as (_ & _ & _ & (_ & Hnotes & _ & _ & Hstatus & _) & _).
  destruct (include_shape_fields byteCompare stMarys (codeUnits "basic, bogus")
              (including "basic, bogus"))
    as (_ & _ & _ & _ & _ & Hget).
  split; [|split; [|split; [|split]]].
  - apply Honly.
    + vm_compute. left. reflexivity.
    + intros k Hk Hr. exfalso. vm_compute in Hk.
      destruct Hk as [Hk | [Hk | []]].
      * simpl in Hr.
        repeat (destruct Hr as [<- | Hr]; [vm_compute in Hk; discriminate|]).
        contradiction.
      * simpl in Hr.
        repeat (destruct Hr as [<- | Hr]; [vm_compute in Hk; discriminate|]).
        contradiction.
  - apply Hvalues. vm_compute. left. reflexivity.
  - apply Hstatus. vm_compute. left. reflexivity.
  - apply Hnotes. vm_compute. right. left. reflexivity.
  - apply Hget; [reflexivity | discriminate | reflexivity | discriminate].
Defined.

(** C8 as stated fails: with [basic] and [leadSurveyor] both requested, the
    shape also has the lead surveyor, which is not in the fixed subset. *)
Lemma basic_does_not_override_listed_names :
  In (codeUnits "basic")
     (List.map trim (split_comma (codeUnits "basic,leadSurveyor"))) /\
  formatWithInclude byteCompare stMarys (codeUnits "basic,leadSurveyor") noOptions
    !! "leadSurveyor" = Some (VString "PharmD Lisa Chen") /\
  ~ In "leadSurveyor" ("id" :: basicSubset).
Proof.
  split; [vm_compute; left; reflexivity|].
  split; [vm_compute; reflexivity|].
  simpl. intros H. repeat (destruct H as [H | H]; [discriminate|]). contradiction.
Qed.

(** * Properties of the GET route *)

(** The options of a query that the filter and the sort read. *)
Lemma filterAndSort_reads (localeCompare : string -> string -> Z)
    (deficiencies : list Deficiency.t) (options options' : ReportQueryOptions.t) :
  ReportQueryOptions.deficiencies_severity options
    = ReportQueryOptions.deficiencies_severity options' ->
  ReportQueryOptions.deficiencies_sortBy options
    = ReportQueryOptions.deficiencies_sortBy options' ->
  ReportQueryOptions.deficiencies_order options
    = ReportQueryOptions.deficiencies_order options' ->
  filterAndSort localeCompare deficiencies options
  = filterAndSort localeCompare deficiencies options'.
Proof. unfold filterAndSort. now intros -> -> ->. Qed.

Section GetRouteFacts.

Variable uuidSchema : string -> bool.
Variable localeCompare : string -> string -> Z.
Variable Number : string -> Num.t.
Variable finiteOnly : bool.

(** A number the schema lets through is not below 1, so it is truthy, and
    it is not above the maximum. An absent one is the default. *)
Lemma parseNumber_Some (dflt : Z) (max : option Z) (raw : option string)
    (n : Num.t) :
  1 <= dflt ->
  (forall m, max = Some m -> dflt <= m) ->
  parseNumber Number finiteOnly dflt max raw = Some n ->
  Num.truthy n = true /\
  Num.ltb n (Num.of_Z 1) = false /\
  (forall m, max = Some m -> Num.ltb (Num.of_Z m) n = false) /\
  (raw = None -> n = Num.of_Z dflt).
Proof.
  intros Hd Hmax. unfold parseNumber. destruct raw as [input|].
  - intros H.
    assert (Hchecks : Num.ltb n (Num.of_Z 1) = false /\
                      (forall m, max = Some m -> Num.ltb (Num.of_Z m) n = false) /\
                      (exists q, n = Num.Finite q) \/ n = Num.PosInf).
    { destruct (Number input) as [q| | |]; [| | |discriminate].
      - destruct (finiteOnly && _); [discriminate|].
        destruct (Num.ltb (Num.Finite q) (Num.of_Z 1)) eqn:Hlt; [discriminate|].
        left. destruct max as [m|].
        + destruct (Num.ltb (Num.of_Z m) (Num.Finite q)) eqn:Hm; [discriminate|].
          injection H as <-. split; [exact Hlt|]. split; [|eauto].
          intros m' Hm'. injection Hm' as <-. exact Hm.
        + injection H as <-. split; [exact Hlt|]. split; [discriminate | eauto].
      - destruct (finiteOnly && _); [discriminate|].
        right. simpl in H. destruct max as [m|]; simpl in H; congruence.
      - destruct (finiteOnly && _); discriminate. }
    destruct Hchecks as [(Hlt & Hm & q & ->) | ->].
    + split; [|split; [exact Hlt | split; [exact Hm | discriminate]]].
      simpl. apply negb_true_iff.
      unfold Num.ltb, Num.of_Z in Hlt. apply negb_false_iff in Hlt.
      apply Qle_bool_iff in Hlt.
      destruct (Qeq_bool q 0) eqn:E; [|reflexivity].
      apply Qeq_bool_iff in E. rewrite E in Hlt.
      exfalso. revert Hlt. unfold Qle, inject_Z. simpl. lia.
    + split; [reflexivity|]. split; [reflexivity|]. split; [|discriminate].
      intros m Hm. exfalso.
      destruct (Number input) as [q| | |]; [| | |discriminate].
      * destruct (finiteOnly && _); [discriminate|].
        destruct (Num.ltb (Num.Finite q) (Num.of_Z 1)); [discriminate|].
        rewrite Hm in H. destruct (Num.ltb _ _); discriminate.
      * destruct (finiteOnly && _); [discriminate|].
        rewrite Hm in H. simpl in H. discriminate.
      * destruct (finiteOnly && _); discriminate.
  - intros H. injection H as <-.
    split; [|split; [|split; [|reflexivity]]].
    + rewrite Num_truthy_of_Z. apply negb_true_iff, Z.eqb_neq. lia.
    + rewrite Num_ltb_of_Z. apply Z.ltb_ge. lia.
    + intros m Hm. rewrite Num_ltb_of_Z. apply Z.ltb_ge. now apply Hmax.
Qed.

(** What the schema makes of a query it lets through. *)
Lemma reportQuerySchema_Some (query : Query.t) (options : ReportQueryOptions.t) :
  reportQuerySchema Number finiteOnly query = Some options ->
  ReportQueryOptions.include options = Query.include query /\
  (Query.view query = None \/ Query.view query = Some "default"
     -> ReportQueryOptions.view options = Some "default") /\
  (exists page,
     ReportQueryOptions.page options = Some page /\ Num.truthy page = true /\
     Num.ltb page (Num.of_Z 1) = false /\
     (Query.page query = None -> page = Num.of_Z 1)) /\
  (exists limit,
     ReportQueryOptions.limit options = Some limit /\ Num.truthy limit = true /\
     Num.ltb limit (Num.of_Z 1) = false /\
     Num.ltb (Num.of_Z 100) limit = false /\
     (Query.limit query = None -> limit = Num.of_Z 20)).
Proof.
  unfold reportQuerySchema.
  destruct (parseEnum _ (Query.view query)) as [view|] eqn:Hview; [|discriminate].
  destruct (parseNumber _ _ 1 None _) as [page|] eqn:Hpage; [|discriminate].
  destruct (parseNumber _ _ 20 _ _) as [limit|] eqn:Hlimit; [|discriminate].
  destruct (parseEnum _ (Query.sortBy query)); [|discriminate].
  destruct (parseEnum _ (Query.sortOrder query)); [|discriminate].
  destruct (parseEnum _ (Query.status query)); [|discriminate].
  destruct (parseEnum _ (Query.surveyType query)); [|discriminate].
  intros H. injection H as <-. simpl.
  apply parseNumber_Some in Hpage; [|lia|discriminate].
  apply parseNumber_Some in Hlimit;
    [|lia|intros m Hm; injection Hm as <-; lia].
  split; [reflexivity|]. split; [|split].
  - intros [Hv | Hv]; rewrite Hv in Hview; simpl in Hview;
      injection Hview as <-; reflexivity.
  - exists page. tauto.
  - exists limit. destruct Hlimit as (H1 & H2 & H3 & H4).
    split; [reflexivity|]. split; [exact H1|]. split; [exact H2|].
    split; [now apply H3 | exact H4].
Qed.

(** C7. Deficiencies requested through the GET route come in the envelope
    [{ items, pagination }] whether or not the query supplies [page] or
    [limit]: the schema of the query has filled in page 1 and limit 20
    before the engine tests whether they were supplied, so a bare array is
    never returned. For a page and a limit that are integers (they are then
    at least 1, and the limit at most 100), the items are the slice from
    (page-1)*limit of length limit of the filtered and sorted list, with
    currentPage = page, itemsPerPage = limit, totalItems = the filtered
    count, totalPages = its ceiling quotient by limit, hasNext exactly when
    items remain after the slice and hasPrev exactly when page > 1. For a
    query with neither, this is the envelope of page 1 with limit 20, which
    holds the first 20 items. *)
Theorem get_report_deficiencies_enveloped (user : AuthUser.t) (id : string)
    (query : Query.t) (options : ReportQueryOptions.t) (include : list Z)
    (report : Report.t) (now : Date) (s : Store) :
  uuidSchema id = true ->
  reportQuerySchema Number finiteOnly query = Some options ->
  Query.view query = None \/ Query.view query = Some "default" ->
  Query.include query = Some include ->
  In (codeUnits "deficiencies") (List.map trim (split_comma include)) ->
  findReportById id s = Some report ->
  let filtered :=
    filterAndSort localeCompare (Report.deficiencies report)
      (ReportQueryOptions.mk None None None None
         (Query.deficiencies_severity query)
         (Query.deficiencies_sortBy query)
         (Query.deficiencies_order query)) in
  let n := Z.of_nat (length filtered) in
  exists fields items pagination,
    get_report uuidSchema localeCompare Number finiteOnly (Some user) id query now s
      = Return (Get200 (IncludeShape fields)) /\
    fields !! "deficiencies" = Some (VFormatted (Envelope items pagination)) /\
    (forall bare, fields !! "deficiencies" <> Some (VFormatted (Bare bare))) /\
    totalItems pagination = n /\
    (forall page limit,
       ReportQueryOptions.page options = Some (Num.of_Z page) ->
       ReportQueryOptions.limit options = Some (Num.of_Z limit) ->
       1 <= page /\ 1 <= limit <= 100 /\
       items = take (Z.to_nat limit) (drop (Z.to_nat ((page - 1) * limit)) filtered) /\
       currentPage pagination = Num.of_Z page /\
       itemsPerPage pagination = Num.of_Z limit /\
       totalPages pagination = Num.of_Z (ceil_div n limit) /\
       limit * (ceil_div n limit - 1) < n <= limit * ceil_div n limit /\
       (hasNext pagination = true <-> (page - 1) * limit + limit < n) /\
       (hasPrev pagination = true <-> 1 < page)) /\
    (Query.page query = None -> Query.limit query = None ->
     items = take 20 filtered /\
     pagination = mkPagination (Num.of_Z 1) (Num.of_Z (ceil_div n 20)) n
                    (Num.of_Z 20) (20 <? n) false).
Proof.
  intros Huuid Hschema Hview Hinclude Hlisted Hfind filtered n.
  destruct (reportQuerySchema_Some query options Hschema)
    as (Hinc & Hv & (page & Hpage & Hptruthy & Hpmin & Hpdefault)
        & (limit & Hlimit & Hltruthy & Hlmin & Hlmax & Hldefault)).
  specialize (Hv Hview).
  set (extended :=
         ReportQueryOptions.mk
           (ReportQueryOptions.view options) (ReportQueryOptions.include options)
           (ReportQueryOptions.page options) (ReportQueryOptions.limit options)
           (Query.deficiencies_severity query) (Query.deficiencies_sortBy query)
           (Query.deficiencies_order query)).
  set (fields := formatWithInclude localeCompare report include extended).
  assert (Hget : get_report uuidSchema localeCompare Number finiteOnly (Some user)
                   id query now s = Return (Get200 (IncludeShape fields))).
  { unfold get_report, controller_getReport. rewrite Huuid, Hschema. simpl.
    fold extended. unfold getReportById. rewrite Hfind.
    unfold formatReportResponse.
    change (ReportQueryOptions.view extended) with (ReportQueryOptions.view options).
    change (ReportQueryOptions.include extended)
      with (ReportQueryOptions.include options).
    rewrite Hv, Hinc, Hinclude. simpl.
    destruct include as [|c include']; [|reflexivity].
    exfalso. vm_compute in Hlisted. destruct Hlisted as [H | []]. discriminate. }
  assert (Hfiltered : filterAndSort localeCompare (Report.deficiencies report)
                        extended = filtered).
  { apply filterAndSort_reads; reflexivity. }
  assert (Htruthy : num_truthy (ReportQueryOptions.page extended) = true)
    by (simpl; now rewrite Hpage).
  assert (Hintegral : forall p l,
            ReportQueryOptions.page options = Some (Num.of_Z p) ->
            ReportQueryOptions.limit options = Some (Num.of_Z l) ->
            1 <= p /\ 1 <= l <= 100 /\
            formatDeficiencies localeCompare (Report.deficiencies report) extended
              = Envelope
                  (take (Z.to_nat l) (drop (Z.to_nat ((p - 1) * l)) filtered))
                  (mkPagination (Num.of_Z p) (Num.of_Z (ceil_div n l)) n
                     (Num.of_Z l) ((p - 1) * l + l <? n) (1 <? p))).
  { intros p l Hp Hl.
    rewrite Hp in Hpage. injection Hpage as <-.
    rewrite Hl in Hlimit. injection Hlimit as <-.
    rewrite Num_ltb_of_Z in Hpmin, Hlmin, Hlmax.
    apply Z.ltb_ge in Hpmin, Hlmin, Hlmax.
    split; [exact Hpmin|]. split; [split; [exact Hlmin | exact Hlmax]|].
    rewrite (formatDeficiencies_integral localeCompare _ extended p l).
    - rewrite Htruthy, Hfiltered. reflexivity.
    - unfold num_or. rewrite Htruthy.
      change (ReportQueryOptions.page extended)
        with (ReportQueryOptions.page options).
      now rewrite Hp.
    - unfold num_or, num_truthy.
      change (ReportQueryOptions.limit extended)
        with (ReportQueryOptions.limit options).
      rewrite Hl. cbn [default]. now rewrite Hltruthy.
    - exact Hpmin.
    - exact Hlmin. }
  destruct (formatDeficiencies localeCompare (Report.deficiencies report) extended)
    as [bare | items pagination] eqn:Hformat.
  { unfold formatDeficiencies in Hformat. now rewrite Htruthy in Hformat. }
  assert (Htotal : totalItems pagination = n).
  { unfold formatDeficiencies in Hformat. rewrite Htruthy, Hfiltered in Hformat.
    simpl in Hformat. injection Hformat as _ <-. reflexivity. }
  assert (Hfield : fields !! "deficiencies"
                   = Some (VFormatted (Envelope items pagination))).
  { assert (Hsome : is_Some (fields !! "deficiencies")).
    { unfold fields, formatWithInclude.
      apply fold_includeField_keys. right. right.
      split; [exact Hlisted | simpl; tauto]. }
    destruct Hsome as [v Hv']. rewrite Hv'.
    unfold fields, formatWithInclude in Hv'.
    apply fold_includeField_values in Hv'. destruct Hv' as [Hv' | Hv'].
    - apply lookup_insert_Some in Hv'. destruct Hv' as [[Hk _] | [_ Hv']];
        [discriminate | rewrite lookup_empty in Hv'; discriminate].
    - unfold propertyOf in Hv'. simpl in Hv'. rewrite Hformat in Hv'.
      now symmetry. }
  exists fields, items, pagination.
  split; [exact Hget|]. split; [exact Hfield|]. split; [|split; [|split]].
  - intros bare. rewrite Hfield. discriminate.
  - exact Htotal.
  - intros p l Hp Hl.
    destruct (Hintegral p l Hp Hl) as (Hp1 & Hl1 & Heq).
    injection Heq as -> ->.
    cbn [currentPage itemsPerPage totalPages hasNext hasPrev].
    split; [exact Hp1|]. split; [exact Hl1|].
    split; [reflexivity|]. split; [reflexivity|]. split; [reflexivity|].
    split; [reflexivity|].
    split; [apply ceil_div_spec; lia|].
    split; apply Z.ltb_lt.
  - intros Hnopage Hnolimit.
    destruct (Hintegral 1 20) as (_ & _ & Heq).
    + now rewrite Hpage, (Hpdefault Hnopage).
    + now rewrite Hlimit, (Hldefault Hnolimit).
    + injection Heq as -> ->. split; reflexivity.
Qed.

End GetRouteFacts.

(** The request of the repository's test "should filter deficiencies by
    severity", [?include=deficiencies&deficiencies.severity=immediate_jeopardy]
    on the immediate-jeopardy report of the seed store: the one deficiency
    comes in an envelope, not as the array the test reads. And the scenario
    of the specification, [?include=deficiencies&page=1&limit=2]: two items,
    two pages, a next page. *)
Lemma get_report_deficiencies_enveloped_witness :
  (exists fields items pagination,
     get_report anyUuid byteCompare readDecimal false (Some readerUser)
       (Report.id metroGeneral) (severityQuery "immediate_jeopardy") 0 seedStore
     = Return (Get200 (IncludeShape fields)) /\
     fields !! "deficiencies" = Some (VFormatted (Envelope items pagination)) /\
     List.map Deficiency.id items = ["metro-1"] /\
     pagination = mkPagination (Num.of_Z 1) (Num.of_Z 1) 1 (Num.of_Z 20) false false)
  /\
  (exists items pagination,
     get_report anyUuid byteCompare readDecimal false (Some readerUser)
       (Report.id metroGeneral) (pagedQuery "1" "2") 0 seedStore
     = Return
         (Get200
            (IncludeShape
               (<["deficiencies" := VFormatted (Envelope items pagination)]>
                  (<["id" := VString (Report.id metroGeneral)]> ∅)))) /\
     length items = 2%nat /\
     totalPages pagination = Num.of_Z 2 /\
     hasNext pagination = true).
Proof.
  split.
  - destruct (get_report_deficiencies_enveloped anyUuid byteCompare readDecimal false
                readerUser (Report.id metroGeneral)
                (severityQuery "immediate_jeopardy")
                (ReportQueryOptions.mk (Some "default")
                   (Some (codeUnits "deficiencies"))
                   (Some (Num.of_Z 1)) (Some (Num.of_Z 20)) None None None)
                (codeUnits "deficiencies") metroGeneral 0 seedStore)
      as (fields & items & pagination & Hget & Hfield & _ & _ & _ & Hdefault).
    + reflexivity.
    + reflexivity.
    + left. reflexivity.
    + reflexivity.
    + vm_compute. left. reflexivity.
    + reflexivity.
    + exists fields, items, pagination.
      split; [exact Hget|]. split; [exact Hfield|].
      destruct (Hdefault eq_refl eq_refl) as [-> ->].
      split; vm_compute; reflexivity.
  - eexists. eexists. split; [vm_compute; reflexivity|].
    split; [reflexivity|]. split; reflexivity.
Defined.

(** * Further properties of the mutation pipeline *)

Lemma findIndex_lookup (id : string) (s : Store) (i : nat) :
  findIndex id s = Some i ->
  exists r, s !! i = Some r /\ Report.id r = id /\ findReportById id s = Some r.
Proof.
  unfold findReportById. revert i.
  induction s as [|x s IH]; simpl; intros i H; [discriminate|].
  destruct (String.eqb (Report.id x) id) eqn:E.
  - inversion H; subst i. exists x. apply String.eqb_eq in E. auto.
  - destruct (findIndex id s) as [j|]; simpl in H; [|discriminate].
    inversion H; subst i. destruct (IH j eq_refl) as (r & Hl & Hid & Hf).
    exists r. auto.
Qed.

Lemma num_strict_neq_false (n : Z) (v : JsVal) :
  num_strict_neq n v = false <-> v = JNum n.
Proof.
  destruct v; simpl; try (split; [discriminate | intros H; discriminate]).
  rewrite negb_false_iff, Z.eqb_eq. split; [intros ->; reflexivity|].
  intros H. now inversion H.
Qed.

(** X1. An update succeeds exactly when the report exists and the client's
    version is the number stored (strict equality: a string or any other
    value never matches); whenever it does not succeed the whole store is
    what it was. *)
Theorem update_succeeds_iff (id : string) (updateData : UpdateReportInput.t)
    (version : JsVal) (updatedBy : string) (now_service now_repo : Date) (s : Store) :
  (is_Return (fst (updateReportById id updateData version updatedBy
                     now_service now_repo s)) = true <->
   exists existing,
     findReportById id s = Some existing /\
     version = JNum (Report.version existing))
  /\
  (is_Return (fst (updateReportById id updateData version updatedBy
                     now_service now_repo s)) = false ->
   snd (updateReportById id updateData version updatedBy now_service now_repo s) = s).
Proof.
  destruct (updateReportById_cases id updateData version updatedBy
              now_service now_repo s)
    as [[Hf E] | [(existing & Hf & Hv & E) | (existing & Hf & Hv & E)]].
  - rewrite E. simpl. split; [|reflexivity].
    split; [discriminate|]. intros (x & Hx & _). congruence.
  - rewrite E. simpl. split; [|reflexivity].
    split; [discriminate|]. intros (x & Hx & Hver).
    rewrite Hf in Hx. inversion Hx; subst x.
    apply num_strict_neq_false in Hver. congruence.
  - rewrite E. split; [|discriminate].
    split; [|reflexivity]. intros _. exists existing.
    split; [exact Hf | now apply num_strict_neq_false].
Qed.

(** X2. Lost updates are prevented: once an update sent with version [v] has
    succeeded, any further update of the same report sent with the same [v]
    is the Conflict that expected [v] and found [v + 1], and the first
    writer's report is still the one stored. *)
Theorem stale_second_write_rejected (id : string)
    (first second : UpdateReportInput.t) (v : Z) (by1 by2 : string)
    (n1 n2 n3 n4 : Date) (s s1 : Store) (r1 : Report.t) :
  updateReportById id first (JNum v) by1 n1 n2 s = (Return r1, s1) ->
  updateReportById id second (JNum v) by2 n3 n4 s1
    = (Throw (ConflictError (VersionDetails (JNum v) (v + 1) id)), s1)
  /\ findReportById id s1 = Some r1
  /\ Report.version r1 = v + 1.
Proof.
  intros H.
  destruct (updateReportById_Return_inv _ _ _ _ _ _ _ _ _ H) as (existing & Hf & Hv).
  apply num_strict_neq_false in Hv. inversion Hv; subst v.
  destruct (updateReportById_increments _ _ _ _ _ _ _ _ _ H)
    as (existing' & Hf' & Hver & Hs1).
  rewrite Hf in Hf'. inversion Hf'; subst existing'.
  split; [|split; assumption].
  unfold updateReportById. rewrite Hs1.
  assert (Hne : num_strict_neq (Report.version r1) (JNum (Report.version existing))
                = true).
  { simpl. apply negb_true_iff, Z.eqb_neq. lia. }
  rewrite Hne, Hver. reflexivity.
Qed.

Lemma stale_second_write_rejected_witness :
  exists r1 s1,
    updateReportById (Report.id stMarys) followUpOnly (JNum 1) "reader-1" 10 11
      seedStore = (Return r1, s1) /\
    updateReportById (Report.id stMarys) (scoreOnly 90) (JNum 1) "editor-1" 20 21 s1
      = (Throw (ConflictError (VersionDetails (JNum 1) 2 (Report.id stMarys))), s1) /\
    Report.complianceScore r1 = 92.
Proof.
  destruct (updateReportById (Report.id stMarys) followUpOnly (JNum 1) "reader-1"
              10 11 seedStore) as [res s1] eqn:E.
  destruct res as [r1 | e]; [|vm_compute in E; discriminate].
  exists r1, s1. split; [reflexivity|].
  destruct (stale_second_write_rejected _ _ (scoreOnly 90) _ _ "editor-1" _ _ 20 21
              _ _ _ E) as (H1 & _ & _).
  split; [exact H1|].
  vm_compute in E. inversion E. reflexivity.
Defined.

(** An accepted update always changes the stored entry: its version moves. *)
Lemma updateReportById_Return_changes (id : string) (updateData : UpdateReportInput.t)
    (version : JsVal) (updatedBy : string) (now_service now_repo : Date)
    (s s' : Store) (r' : Report.t) :
  updateReportById id updateData version updatedBy now_service now_repo s
    = (Return r', s') ->
  s' <> s.
Proof.
  intros H Heq. subst s'.
  destruct (updateReportById_increments _ _ _ _ _ _ _ _ _ H)
    as (existing & Hf & Hver & Hf').
  rewrite Hf in Hf'. inversion Hf'; subst existing. lia.
Qed.

Section ReadBackFacts.

Variable localeCompare : string -> string -> Z.

(** X3. Read after write: after a successful update, a default read of the
    id (no summary view, no include list) returns the very report the update
    returned, with the incremented version. *)
Theorem read_after_update (id : string) (updateData : UpdateReportInput.t)
    (version : JsVal) (updatedBy : string) (now_service now_repo now : Date)
    (s s' : Store) (r' : Report.t) (options : ReportQueryOptions.t) :
  updateReportById id updateData version updatedBy now_service now_repo s
    = (Return r', s') ->
  selectsFullReport options ->
  getReportById localeCompare now id options s' = Return (FullReport r')
  /\ (exists before,
        getReportById localeCompare now id options s = Return (FullReport before) /\
        Report.version r' = Report.version before + 1).
Proof.
  intros H [Hview Hinc].
  destruct (updateReportById_increments _ _ _ _ _ _ _ _ _ H)
    as (existing & Hf & Hver & Hf').
  assert (Hfull : forall r, formatReportResponse localeCompare now r options
                            = FullReport r).
  { intros r. unfold formatReportResponse.
    assert (Hv : String.eqb (default "default" (ReportQueryOptions.view options))
                   "summary" = false).
    { apply String.eqb_neq.
      destruct (ReportQueryOptions.view options) as [w|]; simpl; congruence. }
    now rewrite Hv, Hinc. }
  unfold getReportById. rewrite Hf, Hf', !Hfull.
  split; [reflexivity|]. exists existing. split; [reflexivity | exact Hver].
Qed.

End ReadBackFacts.

Lemma read_after_update_witness :
  exists r' s',
    updateReportById (Report.id stMarys) (scoreOnly 90) (JNum 1) "editor-1" 20 21
      seedStore = (Return r', s') /\
    getReportById byteCompare 30 (Report.id stMarys) noOptions s'
      = Return (FullReport r') /\
    Report.complianceScore r' = 90 /\ Report.version r' = 2.
Proof.
  destruct (updateReportById (Report.id stMarys) (scoreOnly 90) (JNum 1) "editor-1"
              20 21 seedStore) as [res s'] eqn:E.
  destruct res as [r' | e]; [|vm_compute in E; discriminate].
  exists r', s'. split; [reflexivity|].
  destruct (read_after_update byteCompare _ _ _ _ _ _ 30 _ _ _ noOptions E)
    as (H1 & _).
  - split; [discriminate | reflexivity].
  - split; [exact H1|]. vm_compute in E. inversion E. split; reflexivity.
Defined.

(** What a successful creation tells: no stored report of the facility has
    the type and the year, and the new report is pushed at the end. *)
Lemma createNewReport_Return_inv (getFullYear : Date -> Z)
    (reportData : CreateReportInput.t) (createdBy : string) (env : CreateEnv)
    (s s' : Store) (r : Report.t) :
  createNewReport getFullYear reportData createdBy env s = (Return r, s') ->
  s' = (s ++ [r])%list /\
  Report.id r = env_uuid env /\
  Report.facilityId r = CreateReportInput.facilityId reportData /\
  Report.surveyType r = CreateReportInput.surveyType reportData /\
  Report.surveyDate r = CreateReportInput.surveyDate reportData /\
  Report.status r = SurveyStatus.COMPLIANT /\
  Report.deficiencies r = [] /\
  Report.version r = 1 /\
  (forall existing,
     In existing s ->
     Report.facilityId existing = CreateReportInput.facilityId reportData ->
     Report.surveyType existing = CreateReportInput.surveyType reportData ->
     getFullYear (Report.surveyDate existing)
       <> getFullYear (CreateReportInput.surveyDate reportData)).
Proof.
  unfold createNewReport.
  destruct (List.find _ _) as [duplicate|] eqn:Hfind; [discriminate|].
  simpl. intros H. inversion H; subst r s'. clear H. simpl.
  repeat split.
  intros existing Hin Hfac Htype Hyear.
  assert (Hin' : In existing
            (findReportsByFacility (CreateReportInput.facilityId reportData) s)).
  { unfold findReportsByFacility. apply List.filter_In. split; [exact Hin|].
    now apply String.eqb_eq. }
  pose proof (List.find_none _ _ Hfind _ Hin') as Hfalse. cbv beta in Hfalse.
  rewrite (proj2 (String.eqb_eq _ _) Htype) in Hfalse.
  rewrite (proj2 (Z.eqb_eq _ _) Hyear) in Hfalse. discriminate.
Qed.

Lemma createNewReport_Throw_store (getFullYear : Date -> Z)
    (reportData : CreateReportInput.t) (createdBy : string) (env : CreateEnv)
    (s s' : Store) (e : AppError) :
  createNewReport getFullYear reportData createdBy env s = (Throw e, s') -> s' = s.
Proof.
  unfold createNewReport.
  destruct (List.find _ _) as [duplicate|]; simpl; intros H; now inversion H.
Qed.

Section CreateReadFacts.

Variable getFullYear : Date -> Z.
Variable localeCompare : string -> string -> Z.

(** X4. Read after create: when the generated id is not yet stored, a
    default read of it returns the created report; every report that could
    be read before reads the same; and the new report, being compliant, may
    be edited by each of the three roles. *)
Theorem read_after_create (reportData : CreateReportInput.t) (createdBy : string)
    (env : CreateEnv) (now : Date) (s s' : Store) (r : Report.t)
    (options : ReportQueryOptions.t) :
  createNewReport getFullYear reportData createdBy env s = (Return r, s') ->
  findReportById (env_uuid env) s = None ->
  selectsFullReport options ->
  getReportById localeCompare now (env_uuid env) options s' = Return (FullReport r)
  /\ (forall id,
        findReportById id s <> None ->
        getReportById localeCompare now id options s'
          = getReportById localeCompare now id options s)
  /\ (forall role,
        In role [UserRole.READER; UserRole.EDITOR; UserRole.ADMIN] ->
        checkStatusEditPermission role (Report.status r) = true).
Proof.
  intros H Hfresh [Hview Hinc].
  destruct (createNewReport_Return_inv _ _ _ _ _ _ _ H)
    as (-> & Hid & _ & _ & _ & Hstatus & _ & _ & _).
  split; [|split].
  - unfold getReportById.
    rewrite <- Hid at 1. rewrite findReportById_push_fresh by now rewrite Hid.
    unfold formatReportResponse.
    assert (Hv : String.eqb (default "default" (ReportQueryOptions.view options))
                   "summary" = false).
    { apply String.eqb_neq.
      destruct (ReportQueryOptions.view options) as [w|]; simpl; congruence. }
    now rewrite Hv, Hinc.
  - intros id Hsome. unfold getReportById.
    destruct (findReportById id s) as [r0|] eqn:E; [|contradiction].
    now rewrite (findReportById_push id s r0 r E).
  - intros role Hrole. rewrite Hstatus.
    simpl in Hrole. destruct Hrole as [<- | [<- | [<- | []]]]; reflexivity.
Qed.

(** X6. Creation keeps the survey-uniqueness condition: if no two stored
    reports share facility, survey type and survey year, the same holds of
    the store a creation leaves, whether it succeeded or threw. *)
Theorem create_preserves_uniqueSurveys (reportData : CreateReportInput.t)
    (createdBy : string) (env : CreateEnv) (s : Store) :
  uniqueSurveys getFullYear s ->
  uniqueSurveys getFullYear
    (snd (createNewReport getFullYear reportData createdBy env s)).
Proof.
  intros Huniq.
  destruct (createNewReport getFullYear reportData createdBy env s)
    as [[r | e] s'] eqn:E; simpl.
  - destruct (createNewReport_Return_inv _ _ _ _ _ _ _ E)
      as (-> & _ & Hfac & Htype & Hdate & _ & _ & _ & Hnone).
    assert (Hclash : forall i x,
              s !! i = Some x ->
              Report.facilityId x = Report.facilityId r ->
              Report.surveyType x = Report.surveyType r ->
              getFullYear (Report.surveyDate x) = getFullYear (Report.surveyDate r) ->
              False).
    { intros i x Hx H1 H2 H3.
      apply (Hnone x).
      - apply list_elem_of_In. eapply list_elem_of_lookup_2. exact Hx.
      - congruence.
      - congruence.
      - congruence. }
    intros i j r1 r2 Hi Hj H1 H2 H3.
    apply lookup_app_Some in Hi. apply lookup_app_Some in Hj.
    destruct Hi as [Hi | [Hil Hi]], Hj as [Hj | [Hjl Hj]].
    + now apply (Huniq i j r1 r2).
    + apply list_lookup_singleton_Some in Hj. destruct Hj as [_ <-].
      exfalso. now apply (Hclash i r1).
    + apply list_lookup_singleton_Some in Hi. destruct Hi as [_ <-].
      exfalso. apply (Hclash j r2); [assumption | | |]; congruence.
    + apply list_lookup_singleton_Some in Hi, Hj.
      destruct Hi as [Hi _], Hj as [Hj _]. lia.
  - apply createNewReport_Throw_store in E. now subst s'.
Qed.

End CreateReadFacts.

Lemma read_after_create_witness :
  getReportById byteCompare 9 "new-report" noOptions
    (snd (createNewReport getUTCFullYear sampleCreate "editor-1" sampleEnv seedStore))
  = Return (FullReport sampleCreated).
Proof.
  destruct (read_after_create getUTCFullYear byteCompare sampleCreate "editor-1"
              sampleEnv 9 seedStore (seedStore ++ [sampleCreated])%list
              sampleCreated noOptions) as (H & _ & _).
  - reflexivity.
  - reflexivity.
  - split; [discriminate | reflexivity].
  - exact H.
Defined.

Lemma create_preserves_uniqueSurveys_witness :
  uniqueSurveys getUTCFullYear
    (snd (createNewReport getUTCFullYear sampleCreate "editor-1" sampleEnv seedStore)).
Proof.
  apply create_preserves_uniqueSurveys.
  intros i j r1 r2 Hi Hj H1 H2 H3.
  destruct i as [|[|[|i]]], j as [|[|[|j]]]; try reflexivity;
    simpl in Hi, Hj; try discriminate;
    inversion Hi; inversion Hj; subst r1 r2; vm_compute in H1; discriminate.
Defined.

Lemma sameIdentity_refl (r : Report.t) : sameIdentity r r.
Proof. repeat split. Qed.

Lemma sameIdentity_trans (r1 r2 r3 : Report.t) :
  sameIdentity r1 r2 -> sameIdentity r2 r3 -> sameIdentity r1 r3.
Proof.
  unfold sameIdentity. intros (A1 & A2 & A3 & A4 & A5 & A6 & A7)
    (B1 & B2 & B3 & B4 & B5 & B6 & B7).
  repeat split; congruence.
Qed.

(** An update, accepted or not, keeps every entry of the store at its index
    with its identity, and moves no version down. *)
Lemma updateReportById_entry (id : string) (updateData : UpdateReportInput.t)
    (version : JsVal) (updatedBy : string) (now_service now_repo : Date)
    (s : Store) (i : nat) (r : Report.t) :
  s !! i = Some r ->
  exists r',
    snd (updateReportById id updateData version updatedBy now_service now_repo s)
      !! i = Some r' /\
    sameIdentity r r' /\ Report.version r <= Report.version r'.
Proof.
  intros Hi.
  destruct (updateReportById_cases id updateData version updatedBy
              now_service now_repo s)
    as [[_ E] | [(existing & _ & _ & E) | (existing & Hf & Hv & _)]].
  - rewrite E. exists r. split; [exact Hi|]. split; [apply sameIdentity_refl | lia].
  - rewrite E. exists r. split; [exact Hi|]. split; [apply sameIdentity_refl | lia].
  - destruct (updateReportById_accepted id updateData version updatedBy
                now_service now_repo s existing Hf Hv) as (j & Hj & E).
    rewrite E. cbv zeta. simpl.
    destruct (findIndex_lookup _ _ _ Hj) as (r0 & Hl & _ & Hf0).
    rewrite Hf in Hf0. inversion Hf0; subst r0.
    destruct (decide (j = i)) as [-> | Hne].
    + rewrite Hi in Hl. inversion Hl; subst existing.
      eexists. split.
      * apply list_lookup_insert_eq. eapply lookup_lt_Some. exact Hi.
      * split; [repeat split | simpl; lia].
    + exists r. rewrite list_lookup_insert_ne by exact Hne.
      split; [exact Hi|]. split; [apply sameIdentity_refl | lia].
Qed.

Section RunFacts.

Variable getFullYear : Date -> Z.

Lemma step_entry (op : Op) (s : Store) (i : nat) (r : Report.t) :
  s !! i = Some r ->
  exists r',
    snd (step getFullYear op s) !! i = Some r' /\
    sameIdentity r r' /\ Report.version r <= Report.version r'.
Proof.
  intros Hi. destruct op as [reportData createdBy env | id upd v by' n1 n2].
  - unfold step.
    destruct (createNewReport_cases getFullYear reportData createdBy env s)
      as [[e E] | (x & E & _ & _)]; rewrite E; simpl.
    + exists r. split; [exact Hi|]. split; [apply sameIdentity_refl | lia].
    + exists r. split; [now apply lookup_app_l_Some|].
      split; [apply sameIdentity_refl | lia].
  - unfold step.
    destruct (updateReportById_entry id upd v by' n1 n2 s i r Hi)
      as (r' & Hr' & Hsame & Hver).
    destruct (updateReportById id upd v by' n1 n2 s) as [res s']. simpl in *.
    now exists r'.
Qed.

(** X5. Along any run of create and update requests, every stored report
    stays at its index and keeps its id, facility, survey date, accreditation
    body, deficiencies, surveyor notes and creation time; its version never
    goes down; nothing is ever removed from the store. *)
Theorem run_preserves_entries (ops : list Op) (s : Store) (i : nat) (r : Report.t) :
  s !! i = Some r ->
  exists r',
    run getFullYear ops s !! i = Some r' /\
    sameIdentity r r' /\
    Report.version r <= Report.version r' /\
    (length s <= length (run getFullYear ops s))%nat.
Proof.
  revert s r. induction ops as [|op ops IH]; intros s r Hi; simpl.
  - exists r. split; [exact Hi|]. split; [apply sameIdentity_refl|]. split; lia.
  - destruct (step_entry op s i r Hi) as (r1 & H1 & Hsame1 & Hver1).
    destruct (IH _ _ H1) as (r' & Hr' & Hsame & Hver & Hlen).
    exists r'. split; [exact Hr'|].
    split; [eapply sameIdentity_trans; eassumption|]. split; [lia|].
    assert (Hstep : (length s <= length (snd (step getFullYear op s)))%nat).
    { destruct op as [reportData createdBy env | id upd v by' n1 n2]; unfold step.
      - destruct (createNewReport_cases getFullYear reportData createdBy env s)
          as [[e E] | (x & E & _ & _)]; rewrite E; simpl; [lia|].
        rewrite length_app. simpl. lia.
      - destruct (updateReportById_cases id upd v by' n1 n2 s)
          as [[_ E] | [(existing & _ & _ & E) | (existing & Hf & Hv & _)]].
        + rewrite E. simpl. lia.
        + rewrite E. simpl. lia.
        + destruct (updateReportById_accepted id upd v by' n1 n2 s existing Hf Hv)
            as (j & _ & E).
          rewrite E. cbv zeta. simpl. rewrite length_insert. lia. }
    lia.
Qed.

End RunFacts.

Lemma run_preserves_entries_witness :
  exists r',
    run getUTCFullYear sampleOps seedStore !! 1%nat = Some r' /\
    sameIdentity stMarys r' /\ Report.version stMarys <= Report.version r'.
Proof.
  destruct (run_preserves_entries getUTCFullYear sampleOps seedStore 1 stMarys
              eq_refl) as (r' & H1 & H2 & H3 & _).
  exists r'. auto.
Defined.

(** * Properties of [deleteReport] *)

Lemma deleteReport_cons (id : string) (x : Report.t) (s : Store) :
  deleteReport id (x :: s) =
    if String.eqb (Report.id x) id then (true, s)
    else (fst (deleteReport id s), x :: snd (deleteReport id s)).
Proof.
  unfold deleteReport. simpl.
  destruct (String.eqb (Report.id x) id); [reflexivity|].
  destruct (findIndex id s); reflexivity.
Qed.

(** X7. [deleteReport] answers [false] and leaves the store exactly when no
    report has the id. Otherwise it answers [true] and removes one entry,
    the first with that id, which is the report a lookup of the id found:
    the entries before it (none of which has the id) and the entries after
    it stay, in their order. So the store is one shorter, a lookup of any
    other id finds what it found, a later entry with the same id now answers
    for it, and - when the ids of the store are distinct - a lookup of the
    deleted id finds nothing. *)
Theorem deleteReport_spec (id : string) (s : Store) :
  (findReportById id s = None -> deleteReport id s = (false, s))
  /\
  (forall r,
     findReportById id s = Some r ->
     exists before after,
       s = (before ++ r :: after)%list /\
       List.Forall (fun x => Report.id x <> id) before /\
       deleteReport id s = (true, (before ++ after)%list) /\
       S (length (before ++ after)%list) = length s /\
       (forall id', id' <> id ->
          findReportById id' (before ++ after)%list = findReportById id' s) /\
       findReportById id (before ++ after)%list = findReportById id after /\
       (NoDup (List.map Report.id s) ->
        findReportById id (before ++ after)%list = None)).
Proof.
  unfold findReportById.
  induction s as [|x s [IHnone IHsome]].
  - split; [reflexivity | discriminate].
  - rewrite deleteReport_cons. simpl.
    destruct (String.eqb (Report.id x) id) eqn:E.
    + split; [discriminate|]. intros r Hr. injection Hr as <-.
      exists [], s. simpl.
      split; [reflexivity|]. split; [constructor|].
      split; [reflexivity|]. split; [reflexivity|]. split; [|split].
      * intros id' Hne. apply String.eqb_eq in E.
        assert (Hx : String.eqb (Report.id x) id' = false)
          by (apply String.eqb_neq; congruence).
        now rewrite Hx.
      * reflexivity.
      * intros Hnd. inversion Hnd as [|? ? Hnotin _]; subst.
        destruct (List.find _ s) as [y|] eqn:Hy; [|reflexivity].
        exfalso. apply Hnotin.
        apply List.find_some in Hy. destruct Hy as [Hin Hid].
        apply String.eqb_eq in E, Hid. rewrite E, <- Hid.
        apply list_elem_of_In. now apply List.in_map.
    + split.
      * intros Hnone. rewrite (IHnone Hnone). reflexivity.
      * intros r Hr.
        destruct (IHsome r Hr)
          as (before & after & Hs & Hbefore & Hd & Hlen & Hother & Hnext & Hgone).
        exists (x :: before), after. rewrite Hd. simpl.
        split; [now rewrite Hs|].
        split; [constructor; [now apply String.eqb_neq | exact Hbefore]|].
        split; [reflexivity|]. split; [now rewrite Hlen|]. split; [|split].
        -- intros id' Hne.
           destruct (String.eqb (Report.id x) id'); [reflexivity | now apply Hother].
        -- now rewrite E.
        -- intros Hnd. rewrite E. apply Hgone. now inversion Hnd.
Qed.

(** In the seed store; and in a store that holds [stMarys] twice, where the
    first copy goes and the second stays. *)
Lemma deleteReport_spec_witness :
  deleteReport "no-such-report" seedStore = (false, seedStore) /\
  deleteReport (Report.id stMarys) seedStore = (true, [mercyGeneral; metroGeneral]) /\
  deleteReport (Report.id stMarys) [mercyGeneral; stMarys; metroGeneral; stMarys]
    = (true, [mercyGeneral; metroGeneral; stMarys]).
Proof.
  split; [|split].
  - apply (proj1 (deleteReport_spec "no-such-report" seedStore)). reflexivity.
  - destruct (proj2 (deleteReport_spec (Report.id stMarys) seedStore) stMarys)
      as (before & after & _ & _ & H & _); [reflexivity|].
    rewrite H. symmetry. exact H.
  - destruct (proj2 (deleteReport_spec (Report.id stMarys)
                       [mercyGeneral; stMarys; metroGeneral; stMarys]) stMarys)
      as (before & after & _ & _ & H & _); [reflexivity|].
    rewrite H. symmetry. exact H.
Defined.

(** * Further properties of the deficiency filter and sort *)

Lemma filterAndSort_unfold (localeCompare : string -> string -> Z)
    (deficiencies : list Deficiency.t) (options : ReportQueryOptions.t) :
  filterAndSort localeCompare deficiencies options =
    js_sort
      (comparefn localeCompare
         (str_or (ReportQueryOptions.deficiencies_sortBy options) "severity")
         (str_or (ReportQueryOptions.deficiencies_order options) "desc"))
      (keptBySeverity deficiencies options).
Proof. reflexivity. Qed.

Lemma resultItems_formatDeficiencies (localeCompare : string -> string -> Z)
    (deficiencies : list Deficiency.t) (options : ReportQueryOptions.t) :
  resultItems (formatDeficiencies localeCompare deficiencies options) =
    let page := num_or (ReportQueryOptions.page options) (Num.of_Z 1) in
    let limit := num_or (ReportQueryOptions.limit options) (Num.of_Z 20) in
    let startIndex := Num.mul (Num.sub page (Num.of_Z 1)) limit in
    slice startIndex (Num.add startIndex limit)
      (filterAndSort localeCompare deficiencies options).
Proof.
  unfold formatDeficiencies.
  destruct (num_truthy (ReportQueryOptions.page options)
            || num_truthy (ReportQueryOptions.limit options)); reflexivity.
Qed.

(** A sort whose comparator is never positive leaves the array as it is. *)
Lemma js_sort_never_positive {A : Type} (cmp : A -> A -> JsNumber) (l : list A) :
  (forall a b, js_positive (cmp a b) = false) -> js_sort cmp l = l.
Proof.
  intros Hcmp. induction l as [|x l IH]; simpl; [reflexivity|].
  rewrite IH. destruct l as [|y l]; simpl; [reflexivity|].
  now rewrite Hcmp.
Qed.

Section FilterSortFacts.

Variable localeCompare : string -> string -> Z.

(** X8. The severity filter: when [deficiencies.severity] is a non-empty
    string, the filtered and sorted list holds exactly the deficiencies of
    the report that have that severity, as many times as the report has
    them; and whatever page and limit are asked for, integers or not,
    every item returned, bare or in the envelope, has that severity and is
    a deficiency of the report. *)
Theorem severity_filter_exact (deficiencies : list Deficiency.t)
    (options : ReportQueryOptions.t) (sev : string) :
  ReportQueryOptions.deficiencies_severity options = Some sev ->
  sev <> "" ->
  Permutation
    (List.filter (fun d => String.eqb (Deficiency.severity d) sev) deficiencies)
    (filterAndSort localeCompare deficiencies options)
  /\
  (forall d,
     In d (resultItems (formatDeficiencies localeCompare deficiencies options)) ->
     Deficiency.severity d = sev /\ In d deficiencies).
Proof.
  intros Hsev Hne.
  assert (Hkept : keptBySeverity deficiencies options =
                  List.filter (fun d => String.eqb (Deficiency.severity d) sev)
                    deficiencies).
  { unfold keptBySeverity. rewrite Hsev. simpl.
    apply String.eqb_neq in Hne. now rewrite Hne. }
  assert (Hperm : Permutation
            (List.filter (fun d => String.eqb (Deficiency.severity d) sev)
               deficiencies)
            (filterAndSort localeCompare deficiencies options)).
  { rewrite filterAndSort_unfold, Hkept. apply js_sort_Permutation. }
  split; [exact Hperm|].
  intros d Hd. rewrite resultItems_formatDeficiencies in Hd. cbv zeta in Hd.
  apply slice_subseteq in Hd.
  apply (Permutation_in _ (Permutation_sym Hperm)) in Hd.
  apply List.filter_In in Hd. destruct Hd as [Hin Heq].
  apply String.eqb_eq in Heq. auto.
Qed.

(** X9. Without a severity filter the filtered and sorted list is a
    rearrangement of the report's deficiencies: nothing is dropped or
    repeated. When [deficiencies.sortBy] is a non-empty string other than
    the three sort keys, no rearrangement happens at all: the list is in
    stored order, for every [deficiencies.order]. *)
Theorem sort_rearranges_only (deficiencies : list Deficiency.t)
    (options : ReportQueryOptions.t) :
  str_truthy (ReportQueryOptions.deficiencies_severity options) = false ->
  Permutation deficiencies (filterAndSort localeCompare deficiencies options)
  /\
  (forall sortBy,
     ReportQueryOptions.deficiencies_sortBy options = Some sortBy ->
     sortBy <> "" -> sortBy <> "dueDate" -> sortBy <> "severity" ->
     sortBy <> "standardCode" ->
     filterAndSort localeCompare deficiencies options = deficiencies).
Proof.
  intros Hnofilter.
  assert (Hkept : keptBySeverity deficiencies options = deficiencies).
  { unfold keptBySeverity. now rewrite Hnofilter. }
  split.
  - rewrite filterAndSort_unfold, Hkept. apply js_sort_Permutation.
  - intros sortBy Hsort H0 H1 H2 H3.
    rewrite filterAndSort_unfold, Hkept.
    apply js_sort_never_positive. intros a b.
    apply String.eqb_neq in H0, H1, H2, H3.
    unfold comparefn, comparison, str_or, str_truthy. rewrite Hsort, H0. simpl.
    rewrite H1, H2, H3.
    now destruct (String.eqb _ "asc").
Qed.

End FilterSortFacts.

Lemma severity_filter_exact_witness :
  List.map Deficiency.id
    (resultItems
       (formatDeficiencies byteCompare (Report.deficiencies metroGeneral)
          (ReportQueryOptions.mk None None None None (Some "major") None None)))
  = ["metro-2"; "metro-3"]
  /\
  forall d,
    In d (resultItems
            (formatDeficiencies byteCompare (Report.deficiencies metroGeneral)
               (ReportQueryOptions.mk None None None None (Some "major") None None))) ->
    Deficiency.severity d = "major".
Proof.
  split; [vm_compute; reflexivity|].
  intros d Hd.
  destruct (severity_filter_exact byteCompare (Report.deficiencies metroGeneral)
              (ReportQueryOptions.mk None None None None (Some "major") None None)
              "major" eq_refl ltac:(discriminate)) as (_ & H).
  now apply H.
Defined.

Lemma sort_rearranges_only_witness :
  filterAndSort byteCompare (Report.deficiencies metroGeneral)
    (sortedBy (Some "createdAt") (Some "asc"))
  = Report.deficiencies metroGeneral.
Proof.
  destruct (sort_rearranges_only byteCompare (Report.deficiencies metroGeneral)
              (sortedBy (Some "createdAt") (Some "asc")) eq_refl) as (_ & H).
  apply (H "createdAt"); [reflexivity | discriminate..].
Defined.

Section SortByOrderFacts.

Context {A : Type} (cmp : A -> A -> JsNumber) (leb : A -> A -> bool).

(** The comparator is positive exactly when its first argument is not below
    the second in a total, transitive order. *)
Hypothesis cmp_leb : forall a b, js_positive (cmp a b) = negb (leb a b).
Hypothesis leb_total : forall a b, leb a b = true \/ leb b a = true.
Hypothesis leb_trans : forall a b c, leb a b = true -> leb b c = true -> leb a c = true.

Lemma sort_insert_sorted_by (x : A) (l : list A) :
  StronglySorted (fun a b => leb a b = true) l ->
  StronglySorted (fun a b => leb a b = true) (sort_insert cmp x l).
Proof.
  induction 1 as [|y l Hs IH Hy]; simpl.
  - repeat constructor.
  - rewrite cmp_leb. destruct (leb x y) eqn:E; simpl.
    + constructor; [now constructor|].
      constructor; [exact E|].
      eapply List.Forall_impl; [|exact Hy]. simpl. intros z Hz.
      now apply leb_trans with y.
    + constructor; [exact IH|].
      rewrite <- sort_insert_Permutation.
      constructor; [|exact Hy].
      destruct (leb_total x y) as [H | H]; [congruence | exact H].
Qed.

Lemma js_sort_sorted_by (l : list A) :
  StronglySorted (fun a b => leb a b = true) (js_sort cmp l).
Proof.
  induction l as [|x l IH]; simpl; [constructor|].
  now apply sort_insert_sorted_by.
Qed.

End SortByOrderFacts.

Lemma dueNoLater_total (a b : Deficiency.t) :
  dueNoLater a b = true \/ dueNoLater b a = true.
Proof.
  unfold dueNoLater.
  destruct (Deficiency.dueDate a) as [ta|], (Deficiency.dueDate b) as [tb|]; auto.
  destruct (Z.leb_spec ta tb); [now left|]. right. apply Z.leb_le. lia.
Qed.

Lemma dueNoLater_trans (a b c : Deficiency.t) :
  dueNoLater a b = true -> dueNoLater b c = true -> dueNoLater a c = true.
Proof.
  unfold dueNoLater.
  destruct (Deficiency.dueDate a) as [ta|], (Deficiency.dueDate b) as [tb|],
    (Deficiency.dueDate c) as [tc|]; try discriminate; auto.
  rewrite !Z.leb_le. lia.
Qed.

Section DueDateSortFacts.

Variable localeCompare : string -> string -> Z.

Lemma comparefn_dueDate_asc (a b : Deficiency.t) :
  js_positive (comparefn localeCompare "dueDate" "asc" a b) = negb (dueNoLater a b).
Proof.
  unfold comparefn, comparison, dueTime, dueNoLater. simpl.
  destruct (Deficiency.dueDate a) as [ta|], (Deficiency.dueDate b) as [tb|];
    simpl; try reflexivity.
  destruct (Z.ltb_spec 0 (ta - tb)), (Z.leb_spec ta tb); (reflexivity || lia).
Qed.

Lemma comparefn_dueDate_desc (order : string) (a b : Deficiency.t) :
  String.eqb order "asc" = false ->
  js_positive (comparefn localeCompare "dueDate" order a b) = negb (dueNoLater b a).
Proof.
  intros Ho. unfold comparefn, comparison, dueTime, dueNoLater. rewrite Ho. simpl.
  destruct (Deficiency.dueDate a) as [ta|], (Deficiency.dueDate b) as [tb|];
    simpl; try reflexivity.
  destruct (Z.ltb_spec 0 (- (ta - tb))), (Z.leb_spec tb ta); (reflexivity || lia).
Qed.

(** X10. Sorting by due date. With [order=asc] the list goes from the
    earliest due date to the latest, the deficiencies without a due date
    last. With any other order - in particular when no order is given, the
    default being "desc" - it goes from the latest to the earliest, the
    deficiencies without a due date first. *)
Theorem dueDate_sort_orders (deficiencies : list Deficiency.t)
    (options : ReportQueryOptions.t) :
  ReportQueryOptions.deficiencies_sortBy options = Some "dueDate" ->
  (ReportQueryOptions.deficiencies_order options = Some "asc" ->
   StronglySorted (fun a b => dueNoLater a b = true)
     (filterAndSort localeCompare deficiencies options))
  /\
  (str_or (ReportQueryOptions.deficiencies_order options) "desc" <> "asc" ->
   StronglySorted (fun a b => dueNoLater b a = true)
     (filterAndSort localeCompare deficiencies options)).
Proof.
  intros Hsort. rewrite filterAndSort_unfold, Hsort.
  change (str_or (Some "dueDate") "severity") with "dueDate".
  split.
  - intros ->. change (str_or (Some "asc") "desc") with "asc".
    apply js_sort_sorted_by.
    + apply comparefn_dueDate_asc.
    + apply dueNoLater_total.
    + apply dueNoLater_trans.
  - intros Hord. apply String.eqb_neq in Hord.
    apply js_sort_sorted_by with (leb := fun a b => dueNoLater b a).
    + intros a b. now apply comparefn_dueDate_desc.
    + intros a b. destruct (dueNoLater_total a b); auto.
    + intros a b c H1 H2. now apply dueNoLater_trans with b.
Qed.

End DueDateSortFacts.

(** The deficiencies of [mercyGeneral] by due date: descending when no order
    is given, ascending for "asc". *)
Lemma dueDate_sort_orders_witness :
  List.map Deficiency.id
    (filterAndSort byteCompare (Report.deficiencies mercyGeneral) (byDueDate None))
    = ["mercy-1"; "mercy-2"; "mercy-3"] /\
  List.map Deficiency.id
    (filterAndSort byteCompare (Report.deficiencies mercyGeneral)
       (byDueDate (Some "asc")))
    = ["mercy-3"; "mercy-2"; "mercy-1"] /\
  StronglySorted (fun a b => dueNoLater a b = true)
    (filterAndSort byteCompare (Report.deficiencies mercyGeneral)
       (byDueDate (Some "asc"))) /\
  StronglySorted (fun a b => dueNoLater b a = true)
    (filterAndSort byteCompare (Report.deficiencies mercyGeneral) (byDueDate None)).
Proof.
  split; [vm_compute; reflexivity|]. split; [vm_compute; reflexivity|].
  split.
  - apply (proj1 (dueDate_sort_orders byteCompare (Report.deficiencies mercyGeneral)
                    (byDueDate (Some "asc")) eq_refl)).
    reflexivity.
  - apply (proj2 (dueDate_sort_orders byteCompare (Report.deficiencies mercyGeneral)
                    (byDueDate None) eq_refl)).
    discriminate.
Defined.

(** * Stability of the sort *)

Section StableFacts.

Context {A : Type} (cmp : A -> A -> JsNumber) (key : A -> Z) (P : A -> Prop).

Hypothesis cmp_key :
  forall a b, P a -> P b -> js_positive (cmp a b) = (key b <? key a).

(** Inserting moves the new element only past elements of smaller key, so
    the elements of any one key keep their order. *)
Lemma sort_insert_stable (k : Z) (x : A) (l : list A) :
  P x -> Forall P l ->
  List.filter (fun a => key a =? k) (sort_insert cmp x l)
  = List.filter (fun a => key a =? k) (x :: l).
Proof.
  intros Hx Hl. induction Hl as [|y l Hy Hl IH]; [reflexivity|].
  simpl sort_insert. rewrite (cmp_key x y Hx Hy).
  destruct (Z.ltb_spec (key y) (key x)) as [Hlt | Hge]; [|reflexivity].
  simpl. simpl in IH. rewrite IH.
  destruct (Z.eqb_spec (key y) k) as [Hyk | Hyk];
    destruct (Z.eqb_spec (key x) k) as [Hxk | Hxk]; try reflexivity.
  lia.
Qed.

Lemma js_sort_stable (k : Z) (l : list A) :
  Forall P l ->
  List.filter (fun a => key a =? k) (js_sort cmp l)
  = List.filter (fun a => key a =? k) l.
Proof.
  induction 1 as [|x l Hx Hl IH]; [reflexivity|].
  simpl js_sort. rewrite sort_insert_stable.
  - simpl. rewrite IH. reflexivity.
  - exact Hx.
  - now rewrite <- js_sort_Permutation.
Qed.

End StableFacts.

Section SeverityStableFacts.

Variable localeCompare : string -> string -> Z.

(** X11. The severity sort is stable: for deficiencies whose severities are
    the three of the enumeration, those of one rank come out in the order
    they are stored in, whatever [deficiencies.order] is. *)
Theorem severity_sort_is_stable (deficiencies : list Deficiency.t)
    (options : ReportQueryOptions.t) (k : Z) :
  Forall knownSeverity deficiencies ->
  str_or (ReportQueryOptions.deficiencies_sortBy options) "severity" = "severity" ->
  List.filter (fun d => rankOf d =? k)
    (filterAndSort localeCompare deficiencies options)
  = List.filter (fun d => rankOf d =? k) (keptBySeverity deficiencies options).
Proof.
  intros Hknown Hsort.
  assert (Hkept : Forall knownSeverity (keptBySeverity deficiencies options)).
  { unfold keptBySeverity.
    destruct (str_truthy _); [|exact Hknown].
    apply List.Forall_forall. intros d Hd. apply List.filter_In in Hd.
    rewrite List.Forall_forall in Hknown. now apply Hknown. }
  rewrite filterAndSort_unfold, Hsort.
  destruct (String.eqb
              (str_or (ReportQueryOptions.deficiencies_order options) "desc") "asc")
    eqn:Ho.
  - apply String.eqb_eq in Ho. rewrite Ho.
    rewrite (List.filter_ext (fun d => rankOf d =? k)
               (fun d => - rankOf d =? - k)).
    2: { intros d. destruct (Z.eqb_spec (rankOf d) k), (Z.eqb_spec (- rankOf d) (- k));
           (reflexivity || lia). }
    rewrite (List.filter_ext (fun d => rankOf d =? k)
               (fun d => - rankOf d =? - k)).
    2: { intros d. destruct (Z.eqb_spec (rankOf d) k), (Z.eqb_spec (- rankOf d) (- k));
           (reflexivity || lia). }
    apply js_sort_stable with (P := knownSeverity) (key := fun d => - rankOf d);
      [|exact Hkept].
    intros a b. now apply comparefn_severity_asc.
  - apply js_sort_stable with (P := knownSeverity) (key := rankOf); [|exact Hkept].
    intros a b. now apply comparefn_severity_desc.
Qed.

End SeverityStableFacts.

(** The two major deficiencies of [metroGeneral] stay in stored order. *)
Lemma severity_sort_is_stable_witness :
  List.map Deficiency.id
    (List.filter (fun d => rankOf d =? 2)
       (filterAndSort byteCompare (Report.deficiencies metroGeneral) noOptions))
  = ["metro-2"; "metro-3"].
Proof.
  rewrite (severity_sort_is_stable byteCompare (Report.deficiencies metroGeneral)
             noOptions 2).
  - reflexivity.
  - repeat constructor; eexists; reflexivity.
  - reflexivity.
Defined.

(** * Further properties of the pagination *)

(** Cutting a list into consecutive chunks of [L] elements and
    concatenating them gives the list back, as soon as the chunks reach its
    end. *)
Lemma chunks_concat {A : Type} (L : nat) (k : nat) :
  forall l : list A,
    (length l <= k * L)%nat ->
    concat (List.map (fun i => take L (drop (i * L) l)) (List.seq 0 k)) = l.
Proof.
  induction k as [|k IH]; intros l Hlen.
  - simpl in *. destruct l; [reflexivity | simpl in Hlen; lia].
  - rewrite <- List.cons_seq, <- List.seq_shift. simpl.
    rewrite List.map_map.
    rewrite (List.map_ext _ (fun i => take L (drop (i * L) (drop L l)))).
    + rewrite IH; [apply take_drop|]. rewrite length_drop. lia.
    + intros i. rewrite drop_drop. reflexivity.
Qed.

Section PagingFacts.

Variable localeCompare : string -> string -> Z.

(** The items of page [p], for a page of at least 1 and a limit that is an
    integer of at least 1. *)
Lemma page_items (deficiencies : list Deficiency.t) (options : ReportQueryOptions.t)
    (p limit : Z) :
  num_or (ReportQueryOptions.limit options) (Num.of_Z 20) = Num.of_Z limit ->
  1 <= p -> 1 <= limit ->
  formatDeficiencies localeCompare deficiencies (withPage options p)
  = Envelope
      (take (Z.to_nat limit)
         (drop (Z.to_nat (p - 1) * Z.to_nat limit)
            (filterAndSort localeCompare deficiencies options)))
      (mkPagination (Num.of_Z p)
         (Num.of_Z
            (ceil_div
               (Z.of_nat (length (filterAndSort localeCompare deficiencies options)))
               limit))
         (Z.of_nat (length (filterAndSort localeCompare deficiencies options)))
         (Num.of_Z limit)
         ((p - 1) * limit + limit
          <? Z.of_nat (length (filterAndSort localeCompare deficiencies options)))
         (1 <? p)).
Proof.
  intros Hlimit Hp Hl.
  assert (Htruthy : Num.truthy (Num.of_Z p) = true).
  { rewrite Num_truthy_of_Z. apply negb_true_iff, Z.eqb_neq. lia. }
  rewrite (formatDeficiencies_integral localeCompare deficiencies
             (withPage options p) p limit);
    [| unfold num_or, num_truthy;
       cbn [ReportQueryOptions.page withPage default]; now rewrite Htruthy
     | exact Hlimit | exact Hp | exact Hl].
  unfold num_truthy at 1. cbn [ReportQueryOptions.page withPage].
  rewrite Htruthy. cbn [orb].
  change (filterAndSort localeCompare deficiencies (withPage options p))
    with (filterAndSort localeCompare deficiencies options).
  rewrite Z2Nat.inj_mul by lia. reflexivity.
Qed.

(** X12. The pages partition the list, when the limit is an integer of at
    least 1 and the pages are numbered by the integers from 1 (a limit or a
    page with a fraction is outside this statement: each bound of its slice
    is truncated on its own). The items of pages 1 to totalPages, one after
    the other, are the filtered and sorted list: every deficiency is on
    exactly one page, in order. No page holds more than [limit] items, a
    page after the last one is empty, and [hasNext] is true exactly on the
    pages before the last. *)
Theorem pages_partition (deficiencies : list Deficiency.t)
    (options : ReportQueryOptions.t) (limit : Z) :
  let filtered := filterAndSort localeCompare deficiencies options in
  let total := ceil_div (Z.of_nat (length filtered)) limit in
  num_or (ReportQueryOptions.limit options) (Num.of_Z 20) = Num.of_Z limit ->
  1 <= limit ->
  concat
    (List.map
       (fun i =>
          resultItems
            (formatDeficiencies localeCompare deficiencies
               (withPage options (Z.of_nat (S i)))))
       (List.seq 0 (Z.to_nat total)))
  = filtered
  /\
  (forall p,
     1 <= p ->
     exists items pagination,
       formatDeficiencies localeCompare deficiencies (withPage options p)
         = Envelope items pagination /\
       items = take (Z.to_nat limit) (drop (Z.to_nat ((p - 1) * limit)) filtered) /\
       Z.of_nat (length items) <= limit /\
       currentPage pagination = Num.of_Z p /\
       itemsPerPage pagination = Num.of_Z limit /\
       totalItems pagination = Z.of_nat (length filtered) /\
       totalPages pagination = Num.of_Z total /\
       limit * (total - 1) < Z.of_nat (length filtered) <= limit * total /\
       (hasNext pagination = true <-> p < total) /\
       (hasPrev pagination = true <-> 1 < p) /\
       (total < p -> items = [])).
Proof.
  intros filtered total Hintegral Hlimit.
  pose proof (ceil_div_spec (Z.of_nat (length filtered)) limit ltac:(lia)) as Hceil.
  fold total in Hceil.
  split.
  - rewrite (List.map_ext _
               (fun i => take (Z.to_nat limit) (drop (i * Z.to_nat limit) filtered))).
    + apply chunks_concat. nia.
    + intros i. rewrite (page_items _ _ _ limit) by (assumption || lia).
      fold filtered. simpl resultItems. do 2 f_equal. lia.
  - intros p Hp.
    rewrite (page_items _ _ _ limit) by assumption. fold filtered. fold total.
    eexists. eexists. split; [reflexivity|].
    cbn [currentPage itemsPerPage totalItems totalPages hasNext hasPrev].
    split; [now rewrite Z2Nat.inj_mul by lia|].
    split; [rewrite length_take; lia|].
    split; [reflexivity|]. split; [reflexivity|]. split; [reflexivity|].
    split; [reflexivity|]. split; [exact Hceil|].
    split; [rewrite Z.ltb_lt; nia|].
    split; [apply Z.ltb_lt|].
    intros Hbeyond. rewrite drop_ge; [apply take_nil|]. nia.
Qed.

End PagingFacts.

(** The four deficiencies of [metroGeneral] with limit 3: two pages, of
    three items and of one. *)
Lemma pages_partition_witness :
  List.map
    (fun i =>
       List.map Deficiency.id
         (resultItems
            (formatDeficiencies byteCompare (Report.deficiencies metroGeneral)
               (withPage (paged None (Some 3)) (Z.of_nat (S i))))))
    (List.seq 0 2)
  = [["metro-4"; "metro-2"; "metro-3"]; ["metro-1"]]
  /\
  concat
    (List.map
       (fun i =>
          resultItems
            (formatDeficiencies byteCompare (Report.deficiencies metroGeneral)
               (withPage (paged None (Some 3)) (Z.of_nat (S i)))))
       (List.seq 0 2))
  = filterAndSort byteCompare (Report.deficiencies metroGeneral)
      (paged None (Some 3)).
Proof.
  split; [vm_compute; reflexivity|].
  exact (proj1 (pages_partition byteCompare (Report.deficiencies metroGeneral)
                  (paged None (Some 3)) 3 eq_refl ltac:(lia))).
Defined.

(** * Further properties of the Include Shape *)

Section IncludeNamesFacts.

Variable localeCompare : string -> string -> Z.

(** X13. The Include Shape depends only on the set of requested names:
    two include lists that hold the same names once split at the commas and
    trimmed - in another order, repeated, or with white space around them -
    give the same object. *)
Theorem include_depends_on_names_only (report : Report.t) (a b : list Z)
    (options : ReportQueryOptions.t) :
  sameNames a b ->
  formatWithInclude localeCompare report a options
  = formatWithInclude localeCompare report b options.
Proof.
  intros Hsame. apply map_eq. intros k.
  unfold formatWithInclude.
  set (m := <["id" := VString (Report.id report)]> (∅ : gmap string Value)).
  set (fa := List.map trim (split_comma a)) in *.
  set (fb := List.map trim (split_comma b)) in *.
  assert (Hkeys : is_Some (fold_left (includeField localeCompare report options) fa m !! k)
                  <-> is_Some (fold_left (includeField localeCompare report options)
                                 fb m !! k)).
  { rewrite !fold_includeField_keys.
    unfold sameNames in Hsame. fold fa in Hsame. fold fb in Hsame.
    rewrite (Hsame (codeUnits "basic")), (Hsame (codeUnits k)). reflexivity. }
  assert (Hm : forall v, m !! k = Some v ->
                 propertyOf localeCompare report options k = None).
  { intros v Hv. unfold m in Hv. apply lookup_insert_Some in Hv.
    destruct Hv as [[<- _] | [_ Hv]]; [reflexivity|].
    rewrite lookup_empty in Hv. discriminate. }
  destruct (fold_left _ fa m !! k) as [va|] eqn:Ea,
           (fold_left _ fb m !! k) as [vb|] eqn:Eb.
  - apply fold_includeField_values in Ea, Eb.
    destruct Ea as [Ea | Ea], Eb as [Eb | Eb]; try congruence.
    + rewrite (Hm _ Ea) in Eb. discriminate.
    + rewrite (Hm _ Eb) in Ea. discriminate.
  - exfalso. destruct (proj1 Hkeys (ex_intro _ va eq_refl)). discriminate.
  - exfalso. destruct (proj2 Hkeys (ex_intro _ vb eq_refl)). discriminate.
  - reflexivity.
Qed.

End IncludeNamesFacts.

Lemma include_depends_on_names_only_witness :
  formatWithInclude byteCompare stMarys
    (codeUnits " status , basic," ++ [160; 8195] ++ codeUnits "status")%list
    noOptions
  = formatWithInclude byteCompare stMarys (codeUnits "basic,status") noOptions.
Proof.
  apply include_depends_on_names_only.
  intros f. vm_compute. tauto.
Defined.

(** * Properties of the summary view *)

Lemma countNat_pos (f : Deficiency.t -> bool) (l : list Deficiency.t) :
  (0 < countNat f l)%nat <-> exists d, In d l /\ f d = true.
Proof.
  unfold countNat. split.
  - destruct (List.filter f l) as [|d rest] eqn:E; simpl; [lia|].
    intros _. exists d. apply List.filter_In. rewrite E. now left.
  - intros (d & Hin & Hf).
    assert (H : In d (List.filter f l)) by (apply List.filter_In; auto).
    destruct (List.filter f l); [contradiction | simpl; lia].
Qed.

(** The filter splits a list in three: jeopardy, major, and the rest. *)
Lemma three_way_count (l : list Deficiency.t) :
  (countNat isImmediateJeopardy l + countNat isMajor l
   + countNat (fun d => negb (isImmediateJeopardy d) && negb (isMajor d)) l
   = length l)%nat.
Proof.
  unfold countNat. induction l as [|d l IH]; [reflexivity|].
  simpl. unfold isImmediateJeopardy, isMajor in *.
  destruct (String.eqb_spec (Deficiency.severity d)
              DeficiencySeverity.IMMEDIATE_JEOPARDY) as [H1 | H1];
    destruct (String.eqb_spec (Deficiency.severity d) DeficiencySeverity.MAJOR)
      as [H2 | H2]; simpl; try lia.
  rewrite H1 in H2. discriminate.
Qed.

(** X14. The risk level of the summary: "high" exactly when some deficiency
    is an immediate jeopardy, whatever the number of major ones; "medium"
    exactly when none is and more than two are major; "low" otherwise. The
    status and the compliance score of the report play no part. *)
Theorem summary_riskLevel (now : Date) (report : Report.t) :
  let ds := Report.deficiencies report in
  (riskLevel (formatSummaryView now report) = "high" <->
     exists d, In d ds /\ Deficiency.severity d = "immediate_jeopardy")
  /\
  (riskLevel (formatSummaryView now report) = "medium" <->
     (forall d, In d ds -> Deficiency.severity d <> "immediate_jeopardy") /\
     (2 < countNat isMajor ds)%nat)
  /\
  (riskLevel (formatSummaryView now report) = "low" <->
     (forall d, In d ds -> Deficiency.severity d <> "immediate_jeopardy") /\
     (countNat isMajor ds <= 2)%nat).
Proof.
  intros ds. unfold formatSummaryView. cbn [riskLevel]. fold ds.
  unfold count.
  change (length (List.filter
            (fun d => String.eqb (Deficiency.severity d)
                        DeficiencySeverity.IMMEDIATE_JEOPARDY) ds))
    with (countNat isImmediateJeopardy ds).
  change (length (List.filter
            (fun d => String.eqb (Deficiency.severity d)
                        DeficiencySeverity.MAJOR) ds))
    with (countNat isMajor ds).
  assert (Hij : (0 < countNat isImmediateJeopardy ds)%nat <->
                exists d, In d ds /\ Deficiency.severity d = "immediate_jeopardy").
  { rewrite countNat_pos. split; intros (d & Hin & H); exists d; split; auto.
    - now apply String.eqb_eq in H.
    - now apply String.eqb_eq. }
  assert (Hnone : ~ (0 < countNat isImmediateJeopardy ds)%nat <->
                  forall d, In d ds -> Deficiency.severity d <> "immediate_jeopardy").
  { rewrite Hij. split.
    - intros H d Hin Heq. apply H. eauto.
    - intros H (d & Hin & Heq). exact (H d Hin Heq). }
  destruct (Z.ltb_spec 0 (Z.of_nat (countNat isImmediateJeopardy ds))) as [Hp | Hz].
  - assert (Hpos : (0 < countNat isImmediateJeopardy ds)%nat) by lia.
    split; [|split].
    + split; [intros _; now apply Hij | reflexivity].
    + split; [discriminate|]. intros [H _]. apply Hnone in H. contradiction.
    + split; [discriminate|]. intros [H _]. apply Hnone in H. contradiction.
  - assert (Hzero : ~ (0 < countNat isImmediateJeopardy ds)%nat) by lia.
    destruct (Z.ltb_spec 2 (Z.of_nat (countNat isMajor ds))) as [Hm | Hm].
    + split; [|split].
      * split; [discriminate|]. intros H. apply Hij in H. contradiction.
      * split; [intros _; split; [now apply Hnone | lia] | reflexivity].
      * split; [discriminate|]. intros [_ H]. lia.
    + split; [|split].
      * split; [discriminate|]. intros H. apply Hij in H. contradiction.
      * split; [discriminate|]. intros [_ H]. lia.
      * split; [intros _; split; [now apply Hnone | lia] | reflexivity].
Qed.

(** X15. The figures of the summary. [minorDeficiencies], computed as the
    total minus the jeopardy and major counts, is the number of deficiencies
    that are neither - those of an unrecognised severity included - and is
    never negative; [overdueTasks] counts the deficiencies due strictly
    before now and never exceeds the total; [criticalIssues] are the
    descriptions of the first three jeopardy-or-major deficiencies in stored
    order, all of them when there are at most three. *)
Theorem summary_metrics (now : Date) (report : Report.t) :
  let ds := Report.deficiencies report in
  let m := keyMetrics (formatSummaryView now report) in
  totalDeficiencies m = Z.of_nat (length ds) /\
  minorDeficiencies m =
    Z.of_nat (countNat (fun d => negb (isImmediateJeopardy d) && negb (isMajor d)) ds) /\
  immediateJeopardyCount m + majorDeficiencies m + minorDeficiencies m
    = totalDeficiencies m /\
  0 <= minorDeficiencies m /\
  0 <= overdueTasks m <= totalDeficiencies m /\
  complianceRate m = Report.complianceScore report /\
  criticalIssues (formatSummaryView now report) =
    take 3 (List.map Deficiency.description
              (List.filter (fun d => isImmediateJeopardy d || isMajor d) ds)) /\
  length (criticalIssues (formatSummaryView now report))
    = Nat.min 3 (countNat isImmediateJeopardy ds + countNat isMajor ds).
Proof.
  intros ds m. unfold m, formatSummaryView. cbn [keyMetrics criticalIssues
    totalDeficiencies minorDeficiencies immediateJeopardyCount majorDeficiencies
    overdueTasks complianceRate]. fold ds. unfold count.
  change (length (List.filter
            (fun d => String.eqb (Deficiency.severity d)
                        DeficiencySeverity.IMMEDIATE_JEOPARDY) ds))
    with (countNat isImmediateJeopardy ds).
  change (length (List.filter
            (fun d => String.eqb (Deficiency.severity d)
                        DeficiencySeverity.MAJOR) ds))
    with (countNat isMajor ds).
  pose proof (three_way_count ds) as H3.
  assert (Hover : (length (List.filter
                     (fun d => match Deficiency.dueDate d with
                               | Some t => (t <? now)%Z
                               | None => false
                               end) ds) <= length ds)%nat)
    by apply List.filter_length_le.
  assert (Hcrit : js_slice 0 3
                    (List.map Deficiency.description
                       (List.filter
                          (fun d =>
                             String.eqb (Deficiency.severity d)
                               DeficiencySeverity.IMMEDIATE_JEOPARDY
                             || String.eqb (Deficiency.severity d)
                                  DeficiencySeverity.MAJOR) ds))
                  = take 3 (List.map Deficiency.description
                              (List.filter
                                 (fun d => isImmediateJeopardy d || isMajor d) ds))).
  { apply (js_slice_take_drop 0 3); lia. }
  rewrite Hcrit.
  repeat split; try lia.
  rewrite length_take, length_map. f_equal.
  clear. unfold countNat. induction ds as [|d l IH]; [reflexivity|].
  simpl. unfold isImmediateJeopardy, isMajor in *.
  destruct (String.eqb_spec (Deficiency.severity d)
              DeficiencySeverity.IMMEDIATE_JEOPARDY) as [H1 | H1];
    destruct (String.eqb_spec (Deficiency.severity d) DeficiencySeverity.MAJOR)
      as [H2 | H2]; simpl; try lia.
  rewrite H1 in H2. discriminate.
Qed.

(** X16. [estimatedResolutionDays] is absent exactly when no follow-up is
    required; otherwise it is the number of days from now to the
    corrective-action due date, rounded up: the least [d] with
    [d] days reaching the due date. It is positive exactly when the due date
    is still ahead, and zero or negative once the date has passed. *)
Theorem summary_resolution_days (now : Date) (report : Report.t) :
  let days := estimatedResolutionDays (actionRequired (formatSummaryView now report)) in
  (Report.followUpRequired report = false <-> days = None)
  /\
  (Report.followUpRequired report = true ->
   exists d,
     days = Some d /\
     86400000 * (d - 1) < Report.correctiveActionDue report - now <= 86400000 * d /\
     (0 < d <-> now < Report.correctiveActionDue report)).
Proof.
  intros days. unfold days, formatSummaryView.
  cbn [actionRequired estimatedResolutionDays].
  destruct (Report.followUpRequired report).
  - split; [split; discriminate|]. intros _.
    eexists. split; [reflexivity|].
    change (1000 * 3600 * 24) with 86400000.
    pose proof (ceil_div_spec (Report.correctiveActionDue report - now) 86400000
                  ltac:(lia)) as H.
    split; [exact H | lia].
  - split; [split; reflexivity | discriminate].
Qed.

Lemma summary_resolution_days_witness :
  estimatedResolutionDays
    (actionRequired (formatSummaryView 1722470400000 metroGeneral)) = Some 4 /\
  estimatedResolutionDays
    (actionRequired (formatSummaryView 1722902400000 metroGeneral)) = Some (-1).
Proof.
  split.
  - destruct (proj2 (summary_resolution_days 1722470400000 metroGeneral) eq_refl)
      as (d & Hd & _). rewrite Hd. vm_compute in Hd. symmetry. exact Hd.
  - destruct (proj2 (summary_resolution_days 1722902400000 metroGeneral) eq_refl)
      as (d & Hd & _). rewrite Hd. vm_compute in Hd. symmetry. exact Hd.
Defined.

(** * Further properties of the edit authorisation and of the PUT route *)

(** X17. The roles form a hierarchy for editing: whatever status a reader
    may edit an editor may, and whatever an editor may an admin may; a
    role outside the three may edit nothing; and the required role
    reported for a status is "unknown" exactly when not even an admin may
    edit it. *)
Theorem permission_hierarchy (role status : string) :
  (checkStatusEditPermission UserRole.READER status = true ->
   checkStatusEditPermission UserRole.EDITOR status = true)
  /\
  (checkStatusEditPermission UserRole.EDITOR status = true ->
   checkStatusEditPermission UserRole.ADMIN status = true)
  /\
  (checkStatusEditPermission role status = true ->
   role = UserRole.READER \/ role = UserRole.EDITOR \/ role = UserRole.ADMIN)
  /\
  (checkStatusEditPermission UserRole.ADMIN status = true <->
   getRequiredRoleForStatus status <> "unknown").
Proof.
  unfold checkStatusEditPermission, getRequiredRoleForStatus.
  destruct (String.eqb status SurveyStatus.IMMEDIATE_JEOPARDY).
  { split; [discriminate|]. split; [discriminate|]. split.
    - intros H. apply String.eqb_eq in H. auto.
    - split; [discriminate | reflexivity]. }
  destruct (String.eqb status SurveyStatus.DEFICIENT).
  { split; [discriminate|]. split; [reflexivity|]. split.
    - rewrite orb_true_iff. intros [H | H]; apply String.eqb_eq in H; auto.
    - split; [discriminate | reflexivity]. }
  destruct (String.eqb status SurveyStatus.COMPLIANT).
  { split; [reflexivity|]. split; [reflexivity|]. split.
    - rewrite !orb_true_iff. intros [[H | H] | H]; apply String.eqb_eq in H; auto.
    - split; [discriminate | reflexivity]. }
  split; [discriminate|]. split; [discriminate|]. split; [discriminate|].
  split; [discriminate | intros H; now contradiction H].
Qed.

(** What the status middleware answers, when it answers: a 403 or a 404. It
    calls [next()] only for a stored report whose status permits the role. *)
Lemma authorizeReportEdit_cases (req : Request.t) (s : Store) :
  (exists error details, authorizeReportEdit req s = Some (Res403 error details))
  \/ (exists error, authorizeReportEdit req s = Some (Res404 error))
  \/ (authorizeReportEdit req s = None /\
      exists user existing,
        Request.user req = Some user /\
        findReportById (Request.params_id req) s = Some existing /\
        checkStatusEditPermission (AuthUser.role user) (Report.status existing)
          = true).
Proof.
  unfold authorizeReportEdit.
  destruct (Request.user req) as [user|]; [|left; eauto].
  destruct (String.eqb (Request.params_id req) ""); [left; eauto|].
  destruct (findReportById (Request.params_id req) s) as [existing|];
    [|right; left; eauto].
  destruct (checkStatusEditPermission (AuthUser.role user) (Report.status existing))
    eqn:E; simpl.
  - right. right. split; [reflexivity|]. exists user, existing. auto.
  - left. eauto.
Qed.

Section PutRouteFacts.

Variable uuidSchema : string -> bool.

(** X18. The PUT route writes only when it answers 200. The store differs
    after a request exactly when the response is the updated report; and
    then the actor was authenticated, the status of the stored report
    permitted the actor's role, the version of the request was the stored
    one, the version of the report returned is the stored version plus one,
    the [ETag] is that number in decimal between double quotes, and the
    report returned is the one a lookup now finds. *)
Theorem put_report_writes_only_on_200 (req : Request.t) (now_service now_repo : Date)
    (s s' : Store) (response : result Response) :
  put_report uuidSchema req now_service now_repo s = (response, s') ->
  (s' <> s <-> exists data etag message,
                 response = Return (ResUpdated data etag message))
  /\
  (forall data etag message,
     response = Return (ResUpdated data etag message) ->
     exists user existing,
       Request.user req = Some user /\
       findReportById (Request.params_id req) s = Some existing /\
       checkStatusEditPermission (AuthUser.role user) (Report.status existing)
         = true /\
       requestVersion (Request.body_version req) (Request.if_match req)
         = JNum (Report.version existing) /\
       Report.version data = Report.version existing + 1 /\
       etag = String doubleQuote
                (numberToString (Report.version existing + 1)
                   ++ String doubleQuote "") /\
       findReportById (Request.params_id req) s' = Some data).
Proof.
  intros H.
  assert (Hno : forall r, (forall d e m, r <> ResUpdated d e m) ->
                  response = Return r -> s' = s ->
                  (s' <> s <-> exists data etag message,
                                 response = Return (ResUpdated data etag message))
                  /\ (forall data etag message,
                        response = Return (ResUpdated data etag message) ->
                        exists user existing,
                          Request.user req = Some user /\
                          findReportById (Request.params_id req) s = Some existing /\
                          checkStatusEditPermission (AuthUser.role user)
                            (Report.status existing) = true /\
                          requestVersion (Request.body_version req)
                            (Request.if_match req) = JNum (Report.version existing) /\
                          Report.version data = Report.version existing + 1 /\
                          etag = String doubleQuote
                                   (numberToString (Report.version existing + 1)
                                      ++ String doubleQuote "") /\
                          findReportById (Request.params_id req) s' = Some data)).
  { intros r Hr -> ->. split.
    - split; [intros Hne; now contradiction Hne|].
      intros (d & e & m & Heq). inversion Heq. now apply Hr in H1.
    - intros d e m Heq. inversion Heq. now apply Hr in H1. }
  assert (Hthrow : forall e, response = Throw e -> s' = s ->
                  (s' <> s <-> exists data etag message,
                                 response = Return (ResUpdated data etag message))
                  /\ (forall data etag message,
                        response = Return (ResUpdated data etag message) ->
                        exists user existing,
                          Request.user req = Some user /\
                          findReportById (Request.params_id req) s = Some existing /\
                          checkStatusEditPermission (AuthUser.role user)
                            (Report.status existing) = true /\
                          requestVersion (Request.body_version req)
                            (Request.if_match req) = JNum (Report.version existing) /\
                          Report.version data = Report.version existing + 1 /\
                          etag = String doubleQuote
                                   (numberToString (Report.version existing + 1)
                                      ++ String doubleQuote "") /\
                          findReportById (Request.params_id req) s' = Some data)).
  { intros e -> ->. split.
    - split; [intros Hne; now contradiction Hne|].
      intros (d & e' & m & Heq). discriminate.
    - intros d e' m Heq. discriminate. }
  unfold put_report in H.
  destruct (Request.user req) as [user0|] eqn:Huser.
  2: { inversion H; subst. apply (Hno Res401); [discriminate | reflexivity..]. }
  destruct (authorizeReportEdit_cases req s)
    as [(error & details & Ha) | [(error & Ha) | (Ha & user & existing & Hu & Hf & Hp)]];
    rewrite Ha in H.
  - inversion H; subst. apply (Hno (Res403 error details));
      [discriminate | reflexivity..].
  - inversion H; subst. apply (Hno (Res404 error)); [discriminate | reflexivity..].
  - unfold controller_updateReport in H.
    destruct (uuidSchema (Request.params_id req)); simpl in H.
    2: { inversion H; subst. now apply (Hthrow ZodError). }
    destruct (Request.body req) as [updateData|].
    2: { inversion H; subst. now apply (Hthrow ZodError). }
    destruct (updateReportById (Request.params_id req) updateData
                (requestVersion (Request.body_version req) (Request.if_match req))
                (actorId req) now_service now_repo s) as [[r' | e] s1] eqn:E;
      simpl in H; inversion H; subst; clear H.
    + destruct (updateReportById_Return_inv _ _ _ _ _ _ _ _ _ E)
        as (existing' & Hf' & Hv).
      rewrite Hf in Hf'. inversion Hf'; subst existing'.
      destruct (updateReportById_increments _ _ _ _ _ _ _ _ _ E)
        as (existing' & Hf'' & Hver & Hs').
      rewrite Hf in Hf''. inversion Hf''; subst existing'.
      split.
      * split; [intros _; eauto|].
        intros _. eapply updateReportById_Return_changes. exact E.
      * intros d e m Heq. inversion Heq; subst.
        exists user, existing. rewrite Huser in Hu. inversion Hu; subst.
        repeat split; try assumption.
        -- now apply num_strict_neq_false.
        -- now rewrite Hver.
    + apply updateReportById_Throw_store in E. subst. now apply (Hthrow e).
Qed.

(** X19. The version of the body is compared without conversion: when the
    body carries a truthy [version] that is not a number - the string "2",
    say - it is what the service receives, whatever the [If-Match] header
    holds, and the update of any existing report is the Conflict that
    expected this value; it is never accepted. *)
Theorem nonnumber_version_always_conflicts (req : Request.t)
    (updateData : UpdateReportInput.t) (existing : Report.t)
    (now_service now_repo : Date) (s : Store) :
  truthy (Request.body_version req) = true ->
  (forall n, Request.body_version req <> JNum n) ->
  uuidSchema (Request.params_id req) = true ->
  Request.body req = Some updateData ->
  findReportById (Request.params_id req) s = Some existing ->
  controller_updateReport uuidSchema req now_service now_repo s =
    (Throw (ConflictError
              (VersionDetails (Request.body_version req) (Report.version existing)
                 (Request.params_id req))), s).
Proof.
  intros Htruthy Hnot Huuid Hbody Hfind.
  unfold controller_updateReport. rewrite Huuid, Hbody. simpl.
  assert (Hver : requestVersion (Request.body_version req) (Request.if_match req)
                 = Request.body_version req).
  { unfold requestVersion, js_or. now rewrite Htruthy. }
  rewrite Hver. unfold updateReportById. rewrite Hfind.
  assert (Hne : num_strict_neq (Report.version existing) (Request.body_version req)
                = true).
  { destruct (num_strict_neq (Report.version existing) (Request.body_version req))
      eqn:E; [reflexivity|].
    apply num_strict_neq_false in E. now apply Hnot in E. }
  now rewrite Hne.
Qed.

End PutRouteFacts.

(** An editor updates the deficient report of the seed store with its
    current version 2. *)
Lemma put_report_writes_only_on_200_witness :
  exists data s',
    put_report anyUuid
      (Request.mk (Some editorUser) (Report.id mercyGeneral) (Some (scoreOnly 85))
         (JNum 2) None) 60 61 seedStore
    = (Return (ResUpdated data (String doubleQuote ("3" ++ String doubleQuote ""))
                 "Survey report updated successfully"), s') /\
    s' <> seedStore /\ Report.complianceScore data = 85.
Proof.
  destruct (put_report anyUuid
              (Request.mk (Some editorUser) (Report.id mercyGeneral)
                 (Some (scoreOnly 85)) (JNum 2) None) 60 61 seedStore)
    as [response s'] eqn:E.
  destruct (put_report_writes_only_on_200 anyUuid _ _ _ _ _ _ E) as (Hiff & _).
  vm_compute in E. inversion E as [[Hr Hs]].
  eexists. eexists. split; [reflexivity|]. split; [|reflexivity].
  rewrite Hs. apply Hiff. rewrite <- Hr. eauto.
Defined.

(** The version of [stMarys] is 1; the string "1" is not it. *)
Lemma nonnumber_version_always_conflicts_witness :
  controller_updateReport anyUuid
    (Request.mk (Some editorUser) (Report.id stMarys) (Some (scoreOnly 90))
       (JStr "1") (Some "1")) 70 71 seedStore
  = (Throw (ConflictError (VersionDetails (JStr "1") 1 (Report.id stMarys))),
     seedStore).
Proof.
  apply (nonnumber_version_always_conflicts anyUuid
           (Request.mk (Some editorUser) (Report.id stMarys) (Some (scoreOnly 90))
              (JStr "1") (Some "1"))
           (scoreOnly 90) stMarys 70 71 seedStore).
  - reflexivity.
  - intros n. discriminate.
  - reflexivity.
  - reflexivity.
  - reflexivity.
Defined.

Section EtagFacts.

Variable uuidSchema : string -> bool.

(** What a 200 of the PUT route tells about the request. *)
Lemma put_report_updated_inv (req : Request.t) (now_service now_repo : Date)
    (s s' : Store) (data : Report.t) (etag message : string) :
  put_report uuidSchema req now_service now_repo s
    = (Return (ResUpdated data etag message), s') ->
  uuidSchema (Request.params_id req) = true /\
  etag = String doubleQuote
           (numberToString (Report.version data) ++ String doubleQuote "") /\
  exists updateData,
    Request.body req = Some updateData /\
    updateReportById (Request.params_id req) updateData
      (requestVersion (Request.body_version req) (Request.if_match req))
      (actorId req) now_service now_repo s = (Return data, s').
Proof.
  unfold put_report. intros H.
  destruct (Request.user req); [|discriminate].
  destruct (authorizeReportEdit_cases req s)
    as [(error & details & Ha) | [(error & Ha) | (Ha & _)]];
    rewrite Ha in H; try discriminate.
  unfold controller_updateReport in H.
  destruct (uuidSchema (Request.params_id req)); [|discriminate]. simpl in H.
  destruct (Request.body req) as [updateData|]; [|discriminate].
  destruct (updateReportById _ _ _ _ _ _ _) as [[r | e] s1] eqn:E; [|discriminate].
  simpl in H. injection H as <- <- _ <-.
  split; [reflexivity|]. split; [reflexivity|].
  exists updateData. split; [reflexivity | exact E].
Qed.

(** Whatever follows a double quote, [parseInt] reads no number. *)
Lemma parseInt_quoted (rest : string) :
  parseInt (Some (String doubleQuote rest)) = JNaN.
Proof. reflexivity. Qed.

(** X20. The [ETag] of a 200 of the PUT route is the version of the report
    it returns, in decimal between double quotes. Sent back as [If-Match]
    it is not a number for [parseInt], because of the opening quote: a
    following update of that report that carries the [ETag] and no truthy
    version in its body is handled as version 1. So, unless the report is
    at version 1, the client that presents the latest [ETag] is answered
    with the Conflict that expected version 1, and the store is left. *)
Theorem quoted_if_match_is_version_1 (req next : Request.t) (data : Report.t)
    (etag message : string) (updateData : UpdateReportInput.t)
    (now_service now_repo later_service later_repo : Date) (s s' : Store) :
  put_report uuidSchema req now_service now_repo s
    = (Return (ResUpdated data etag message), s') ->
  Request.params_id next = Request.params_id req ->
  Request.body next = Some updateData ->
  truthy (Request.body_version next) = false ->
  Request.if_match next = Some etag ->
  etag = String doubleQuote
           (numberToString (Report.version data) ++ String doubleQuote "") /\
  parseInt (Some etag) = JNaN /\
  requestVersion (Request.body_version next) (Request.if_match next) = JNum 1 /\
  (Report.version data <> 1 ->
   controller_updateReport uuidSchema next later_service later_repo s' =
     (Throw (ConflictError
               (VersionDetails (JNum 1) (Report.version data)
                  (Request.params_id next))), s')).
Proof.
  intros Hput Hid Hbody Hversion Hmatch.
  destruct (put_report_updated_inv _ _ _ _ _ _ _ _ Hput)
    as (Huuid & Hetag & updateData0 & _ & Hupdate).
  destruct (updateReportById_increments _ _ _ _ _ _ _ _ _ Hupdate)
    as (existing & _ & _ & Hfound).
  assert (Hnan : parseInt (Some etag) = JNaN)
    by (rewrite Hetag; apply parseInt_quoted).
  assert (Hone : requestVersion (Request.body_version next) (Request.if_match next)
                 = JNum 1).
  { unfold requestVersion, js_or. now rewrite Hversion, Hmatch, Hnan. }
  split; [exact Hetag|]. split; [exact Hnan|]. split; [exact Hone|].
  intros Hne.
  unfold controller_updateReport. rewrite Hid, Huuid, Hbody, Hone. simpl.
  unfold updateReportById. rewrite Hfound.
  assert (Hbad : num_strict_neq (Report.version data) (JNum 1) = true).
  { simpl. apply negb_true_iff. now apply Z.eqb_neq. }
  now rewrite Hbad.
Qed.

End EtagFacts.

(** An editor updates the deficient report of the seed store, stored at
    version 2, and presents the [ETag] of the answer on the next update: it
    is refused as a request for version 1, although the report is at
    version 3. The bare number 3 would have been read. *)
Lemma quoted_if_match_is_version_1_witness :
  let first := Request.mk (Some editorUser) (Report.id mercyGeneral)
                 (Some (scoreOnly 85)) (JNum 2) None in
  let etag := String doubleQuote ("3" ++ String doubleQuote "") in
  let next := Request.mk (Some editorUser) (Report.id mercyGeneral)
                (Some (scoreOnly 90)) JUndefined (Some etag) in
  exists data s',
    put_report anyUuid first 60 61 seedStore
      = (Return (ResUpdated data etag "Survey report updated successfully"), s') /\
    controller_updateReport anyUuid next 62 63 s'
      = (Throw (ConflictError (VersionDetails (JNum 1) 3 (Report.id mercyGeneral))),
         s') /\
    requestVersion JUndefined (Some "3") = JNum 3.
Proof.
  intros first etag next.
  destruct (put_report anyUuid first 60 61 seedStore) as [response s'] eqn:E.
  assert (Hresponse : exists data,
            response = Return (ResUpdated data etag
                                 "Survey report updated successfully") /\
            Report.version data = 3).
  { vm_compute in E. injection E as <- _. eexists. split; reflexivity. }
  destruct Hresponse as (data & -> & Hv).
  exists data, s'. split; [reflexivity|]. split; [|reflexivity].
  destruct (quoted_if_match_is_version_1 anyUuid first next data etag
              "Survey report updated successfully" (scoreOnly 90)
              60 61 62 63 seedStore s' E eq_refl eq_refl eq_refl eq_refl)
    as (_ & _ & _ & Hconflict).
  rewrite <- Hv. apply Hconflict. rewrite Hv. discriminate.
Defined.

(** * Properties of the POST route *)

Section PostRouteFacts.

Variable getFullYear : Date -> Z.

(** X21. The POST route writes only for editors and admins. The store
    differs after a request exactly when the response is 201; then the
    actor's role is editor or admin, the new report has version 1 and is
    pushed at the end of the store, and [Location] is "/api/reports/"
    followed by its id. An authenticated actor of any other role gets the
    403 and the store is as it was. *)
Theorem post_report_writes_only_for_editors (req : CreateRequest.t)
    (env : CreateEnv) (s s' : Store) (response : result PostResponse) :
  post_report getFullYear req env s = (response, s') ->
  (s' <> s <-> exists data location message,
                 response = Return (Post201 data location message))
  /\
  (forall data location message,
     response = Return (Post201 data location message) ->
     exists user,
       CreateRequest.user req = Some user /\
       (AuthUser.role user = UserRole.EDITOR \/ AuthUser.role user = UserRole.ADMIN) /\
       s' = (s ++ [data])%list /\
       location = "/api/reports/" ++ Report.id data /\
       Report.version data = 1)
  /\
  (forall user,
     CreateRequest.user req = Some user ->
     AuthUser.role user <> UserRole.EDITOR ->
     AuthUser.role user <> UserRole.ADMIN ->
     response = Return Post403 /\ s' = s).
Proof.
  intros H. unfold post_report in H.
  destruct (CreateRequest.user req) as [user|] eqn:Huser.
  2: { inversion H; subst. split; [|split].
       - split; [intros Hne; now contradiction Hne|].
         intros (d & l & m & Heq). discriminate.
       - intros d l m Heq. discriminate.
       - intros u Hu. discriminate. }
  unfold authorize in H. simpl in H. rewrite orb_false_r in H.
  destruct (String.eqb (AuthUser.role user) UserRole.EDITOR
            || String.eqb (AuthUser.role user) UserRole.ADMIN) eqn:Hrole.
  - assert (Hroles : AuthUser.role user = UserRole.EDITOR
                     \/ AuthUser.role user = UserRole.ADMIN).
    { apply orb_true_iff in Hrole.
      destruct Hrole as [Hr | Hr]; apply String.eqb_eq in Hr; auto. }
    assert (Hthird : forall u, Some user = Some u ->
                       AuthUser.role u <> UserRole.EDITOR ->
                       AuthUser.role u <> UserRole.ADMIN ->
                       response = Return Post403 /\ s' = s).
    { intros u Hu H1 H2. inversion Hu; subst u. destruct Hroles; contradiction. }
    unfold controller_createReport in H.
    destruct (CreateRequest.body req) as [reportData|].
    2: { inversion H; subst. split; [|split; [|exact Hthird]].
         - split; [intros Hne; now contradiction Hne|].
           intros (d & l & m & Heq). discriminate.
         - intros d l m Heq. discriminate. }
    rewrite Huser in H.
    destruct (createNewReport getFullYear reportData _ env s)
      as [[r | e] s1] eqn:E; inversion H; subst; clear H.
    + destruct (createNewReport_Return_inv _ _ _ _ _ _ _ E)
        as (Hs1 & _ & _ & _ & _ & _ & _ & Hver & _).
      split; [|split; [|exact Hthird]].
      * split; [intros _; eauto|].
        intros _ Heq. apply (f_equal (@length _)) in Heq.
        rewrite Hs1, length_app in Heq. simpl in Heq. lia.
      * intros d l m Heq. inversion Heq; subst. exists user. auto.
    + apply createNewReport_Throw_store in E. subst.
      split; [|split; [|exact Hthird]].
      * split; [intros Hne; now contradiction Hne|].
        intros (d & l & m & Heq). discriminate.
      * intros d l m Heq. discriminate.
  - inversion H; subst. split; [|split].
    + split; [intros Hne; now contradiction Hne|].
      intros (d & l & m & Heq). discriminate.
    + intros d l m Heq. discriminate.
    + intros u Hu _ _. auto.
Qed.

End PostRouteFacts.

(** A reader's POST is refused; the same body from an editor creates the
    report. *)
Lemma post_report_writes_only_for_editors_witness :
  post_report getUTCFullYear
    (CreateRequest.mk (Some readerUser) (Some sampleCreate)) sampleEnv seedStore
  = (Return Post403, seedStore)
  /\
  post_report getUTCFullYear
    (CreateRequest.mk (Some editorUser) (Some sampleCreate)) sampleEnv seedStore
  = (Return (Post201 sampleCreated "/api/reports/new-report"
               "Survey report created successfully"),
     (seedStore ++ [sampleCreated])%list).
Proof.
  split; [|reflexivity].
  destruct (post_report getUTCFullYear
              (CreateRequest.mk (Some readerUser) (Some sampleCreate)) sampleEnv
              seedStore) as [response s'] eqn:E.
  destruct (post_report_writes_only_for_editors getUTCFullYear _ _ _ _ _ E)
    as (_ & _ & H).
  destruct (H readerUser eq_refl) as [-> ->]; [discriminate.. | reflexivity].
Defined.

(** * Properties of authentication, login and the user repository *)

Lemma stripPrefix_app (pat rest : string) :
  stripPrefix pat (pat ++ rest) = Some rest.
Proof.
  induction pat as [|c pat IH]; simpl; [now destruct rest|].
  now rewrite Ascii.eqb_refl.
Qed.

Lemma removeFirst_prefix (pat rest : string) :
  removeFirst pat (pat ++ rest) = rest.
Proof.
  assert (Hunfold : forall s,
            removeFirst pat s =
              match stripPrefix pat s with
              | Some r => r
              | None => match s with
                        | EmptyString => EmptyString
                        | String c s' => String c (removeFirst pat s')
                        end
              end) by (intros s; destruct s; reflexivity).
  now rewrite Hunfold, stripPrefix_app.
Qed.

Section AuthenticateFacts.

Variable verify : string -> option JwtPayload.

(** X22. [authenticate] takes the identity from the user store, not from
    the token: for a token that verifies and whose id is stored, the user
    attached to the request has the id, email, name and role of the stored
    user - the role the token was signed with is not read, and neither is
    the stored [isActive] flag. The "Bearer " scheme is optional: a header
    that is the bare token, without an occurrence of "Bearer ",
    authenticates the same. No header, or a header with an empty token, is
    the 401. *)
Theorem authenticate_reads_the_store (token : string) (payload : JwtPayload)
    (user : User.t) (users : Users) :
  token <> "" ->
  verify token = Some payload ->
  findUserById (jwt_id payload) users = Some user ->
  authenticate verify (Some ("Bearer " ++ token)) users
    = Some (AuthUser.mk (User.id user) (User.email user) (User.name user)
              (User.role user))
  /\ (removeFirst "Bearer " token = token ->
      authenticate verify (Some token) users
        = authenticate verify (Some ("Bearer " ++ token)) users)
  /\ authenticate verify None users = None
  /\ authenticate verify (Some "Bearer ") users = None.
Proof.
  intros Hne Hverify Hfind.
  assert (Hstrip : removeFirst "Bearer " ("Bearer " ++ token) = token)
    by apply removeFirst_prefix.
  split; [|split; [|split; reflexivity]].
  - unfold authenticate. rewrite Hstrip.
    apply String.eqb_neq in Hne. now rewrite Hne, Hverify, Hfind.
  - intros Hbare. unfold authenticate. now rewrite Hstrip, Hbare.
Qed.

End AuthenticateFacts.

(** A token signed for John, who is stored as an editor and has since been
    deactivated; the stand-in [plainVerify] reports the role "admin". *)
Lemma authenticate_reads_the_store_witness :
  let john := User.mk (User.id johnEditor) (User.email johnEditor)
                (User.name johnEditor) (User.role johnEditor)
                (User.passwordHash johnEditor) 0 0 false in
  authenticate plainVerify (Some ("Bearer " ++ User.id johnEditor))
    [janeReader; john; aliceAdmin]
  = Some (AuthUser.mk (User.id johnEditor) "editor@medlaunch.com" "John Editor"
            "editor").
Proof.
  intros john.
  destruct (authenticate_reads_the_store plainVerify (User.id johnEditor)
              (mkJwtPayload (User.id johnEditor) "admin") john
              [janeReader; john; aliceAdmin]) as (H & _).
  - discriminate.
  - reflexivity.
  - reflexivity.
  - exact H.
Defined.

Section LoginFacts.

Variable comparePassword : string -> string -> bool.
Variable sign : JwtPayload -> string.

(** X23. Login succeeds exactly when the email is that of a stored user who
    is active and whose hash matches the password; the reply then holds the
    id, email, name and role of that user (never the hash) and a token
    signed for the user's id and role. Every failure - unknown email,
    inactive user, wrong password - is the one 401 body "Login Failed";
    for an unknown or inactive user the password is not even compared. *)
Theorem login_outcomes (email password : string) (users : Users) :
  (forall data,
     loginController comparePassword sign email password users = LoginOk data <->
     exists user,
       findUserByEmail email users = Some user /\
       User.isActive user = true /\
       comparePassword password (User.passwordHash user) = true /\
       data = mkLoginResponse
                (sign (mkJwtPayload (User.id user) (User.role user)))
                (AuthUser.mk (User.id user) (User.email user) (User.name user)
                   (User.role user))
                "24h")
  /\
  ((forall data,
      loginController comparePassword sign email password users <> LoginOk data) ->
   loginController comparePassword sign email password users
     = LoginFailed "Login Failed")
  /\
  ((forall user, findUserByEmail email users = Some user ->
                 User.isActive user = false) ->
   forall password',
     login comparePassword sign email password' users = inl InvalidUser).
Proof.
  unfold loginController, login, generateToken.
  destruct (findUserByEmail email users) as [user|].
  - destruct (User.isActive user) eqn:Ha; simpl.
    + destruct (comparePassword password (User.passwordHash user)) eqn:Hc; simpl.
      * split; [|split].
        -- intros data. split.
           ++ intros H. inversion H. exists user. auto.
           ++ intros (u & Hu & _ & _ & ->). inversion Hu; subst. reflexivity.
        -- intros H. exfalso. eapply H. reflexivity.
        -- intros H. specialize (H user eq_refl). congruence.
      * split; [|split].
        -- intros data. split; [discriminate|].
           intros (u & Hu & _ & Hcu & _). inversion Hu; subst. congruence.
        -- reflexivity.
        -- intros H. specialize (H user eq_refl). congruence.
    + split; [|split].
      * intros data. split; [discriminate|].
        intros (u & Hu & Hau & _). inversion Hu; subst. congruence.
      * reflexivity.
      * reflexivity.
  - split; [|split].
    + intros data. split; [discriminate|]. intros (u & Hu & _). discriminate.
    + reflexivity.
    + reflexivity.
Qed.

End LoginFacts.

(** X24. [updateUser] does not look for the user it is given: its search
    compares each stored id with itself, so it overwrites the first entry
    of the store, whoever that is. The other entries stay as they are - the
    stale record of the updated user among them - and the user who was
    first can no longer be found by email, unless the new record has the
    same. On an empty store nothing happens. *)
Theorem updateUser_overwrites_first (user first : User.t) (rest : Users) :
  updateUser user [] = []
  /\ updateUser user (first :: rest) = user :: rest
  /\ (forall i old,
        rest !! i = Some old ->
        updateUser user (first :: rest) !! S i = Some old)
  /\ (User.email first <> User.email user ->
      findUserByEmail (User.email first) rest = None ->
      findUserByEmail (User.email first) (updateUser user (first :: rest)) = None).
Proof.
  assert (H : updateUser user (first :: rest) = user :: rest).
  { unfold updateUser. simpl. now rewrite String.eqb_refl. }
  split; [reflexivity|]. split; [exact H|]. split.
  - intros i old Hi. rewrite H. exact Hi.
  - intros Hne Hnone. rewrite H. unfold findUserByEmail in *. simpl.
    assert (E : String.eqb (User.email user) (User.email first) = false)
      by (apply String.eqb_neq; congruence).
    now rewrite E.
Qed.

(** Updating John, the second user of the seed store, replaces Jane. *)
Lemma updateUser_overwrites_first_witness :
  let john' := User.mk (User.id johnEditor) (User.email johnEditor) "John E. Editor"
                 UserRole.ADMIN (User.passwordHash johnEditor) 0 1 true in
  updateUser john' seedUsers = [john'; johnEditor; aliceAdmin] /\
  findUserByEmail "reader@medlaunch.com" (updateUser john' seedUsers) = None.
Proof.
  intros john'.
  destruct (updateUser_overwrites_first john' janeReader [johnEditor; aliceAdmin])
    as (_ & H & _ & Hlost).
  split; [exact H|]. apply Hlost; [discriminate | reflexivity].
Defined.

(** * Properties of the attachment upload *)

Section UploadFacts.

Variable uuidSchema : string -> bool.
Variable localeCompare : string -> string -> Z.

(** X25. The checks of [uploadAttachment], in their order, for an id that
    passes the UUID validation: without a file the outcome is the bad
    request "No file provided", whether or not the report exists; with a
    file and no such report it is the NotFound error of the report lookup,
    so the controller's own "not found" bad request is never produced; with
    a file and a stored report it is the 201 whose download URL is
    "/api/reports/<id>/attachments/<stored file name>". *)
Theorem uploadAttachment_outcomes (id : string) (file : option UploadedFile.t)
    (fileId : string) (now : Date) (s : Store) :
  uuidSchema id = true ->
  (file = None ->
   uploadAttachment uuidSchema localeCompare id file fileId now s
     = UploadBadRequest "No file provided")
  /\
  (forall f,
     file = Some f -> findReportById id s = None ->
     uploadAttachment uuidSchema localeCompare id file fileId now s
       = UploadThrows (NotFoundError "Report" id))
  /\
  (forall f,
     file = Some f -> findReportById id s <> None ->
     uploadAttachment uuidSchema localeCompare id file fileId now s
       = UploadCreated
           (mkUploadData fileId (UploadedFile.originalname f) (UploadedFile.size f)
              (UploadedFile.mimetype f)
              ("/api/reports/" ++ id ++ "/attachments/" ++ UploadedFile.filename f)
              now))
  /\
  (forall message,
     uploadAttachment uuidSchema localeCompare id file fileId now s
       = UploadBadRequest message ->
     message = "No file provided" /\ file = None).
Proof.
  intros Huuid. unfold uploadAttachment, getReportById. rewrite Huuid. simpl.
  split; [intros ->; reflexivity|]. split; [|split].
  - intros f -> Hnone. now rewrite Hnone.
  - intros f -> Hsome.
    destruct (findReportById id s); [reflexivity | contradiction].
  - intros message. destruct file as [f|].
    + destruct (findReportById id s); discriminate.
    + intros H. inversion H. auto.
Qed.

End UploadFacts.

Lemma uploadAttachment_outcomes_witness :
  uploadAttachment anyUuid byteCompare "no-such-report"
    (Some (UploadedFile.mk "scan.pdf" "no-such-report_1.pdf" 1024 "application/pdf"))
    "file-1" 80 seedStore
  = UploadThrows (NotFoundError "Report" "no-such-report")
  /\
  uploadAttachment anyUuid byteCompare "no-such-report" None "file-1" 80 seedStore
  = UploadBadRequest "No file provided".
Proof.
  destruct (uploadAttachment_outcomes anyUuid byteCompare "no-such-report"
              (Some (UploadedFile.mk "scan.pdf" "no-such-report_1.pdf" 1024
                       "application/pdf")) "file-1" 80 seedStore eq_refl)
    as (_ & Hmissing & _).
  destruct (uploadAttachment_outcomes anyUuid byteCompare "no-such-report" None
              "file-1" 80 seedStore eq_refl) as (Hnofile & _).
  split; [eapply Hmissing; reflexivity | now apply Hnofile].
Defined.

(** * The target status of an update *)

Section StatusChangeFacts.

Variable uuidSchema : string -> bool.

(** X26. Only the current status of the report decides whether an actor may
    update it; the status the update sets is not checked. An actor whom the
    current status permits, sending the stored version, may set any status:
    the response is the 200 and the stored report has the new status. From
    then on the new status decides: if it does not permit the actor's role,
    every further update by that actor on the report is the 403. *)
Theorem status_change_is_unchecked (req : Request.t) (user : AuthUser.t)
    (updateData : UpdateReportInput.t) (target : string) (existing : Report.t)
    (now_service now_repo : Date) (s : Store) :
  Request.user req = Some user ->
  Request.params_id req <> "" ->
  uuidSchema (Request.params_id req) = true ->
  Request.body req = Some updateData ->
  UpdateReportInput.status updateData = Some target ->
  findReportById (Request.params_id req) s = Some existing ->
  checkStatusEditPermission (AuthUser.role user) (Report.status existing) = true ->
  requestVersion (Request.body_version req) (Request.if_match req)
    = JNum (Report.version existing) ->
  exists data s',
    put_report uuidSchema req now_service now_repo s
      = (Return (ResUpdated data
                   (String doubleQuote
                      (numberToString (Report.version existing + 1)
                         ++ String doubleQuote ""))
                   "Survey report updated successfully"), s') /\
    Report.version data = Report.version existing + 1 /\
    Report.status data = target /\
    findReportById (Request.params_id req) s' = Some data /\
    (checkStatusEditPermission (AuthUser.role user) target = false ->
     forall (again : Request.t) (n3 n4 : Date),
       Request.user again = Some user ->
       Request.params_id again = Request.params_id req ->
       exists error details,
         put_report uuidSchema again n3 n4 s'
           = (Return (Res403 error details), s')).
Proof.
  intros Huser Hid Huuid Hbody Hstatus Hfind Hperm Hver.
  assert (Hok : num_strict_neq (Report.version existing)
                  (requestVersion (Request.body_version req) (Request.if_match req))
                = false) by now apply num_strict_neq_false.
  destruct (updateReportById_accepted (Request.params_id req) updateData
              (requestVersion (Request.body_version req) (Request.if_match req))
              (actorId req) now_service now_repo s existing Hfind Hok)
    as (i & Hi & E).
  cbv zeta in E.
  match type of E with _ = (Return ?r, ?st) => set (data := r) in *; set (s' := st) in * end.
  assert (Hfound : findReportById (Request.params_id req) s' = Some data).
  { apply findReportById_insert_eq; [exact Hi|].
    simpl. now apply findReportById_id with (s := s). }
  exists data, s'.
  split; [|split; [|split; [|split]]].
  - unfold put_report, authorizeReportEdit. rewrite Huser.
    apply String.eqb_neq in Hid. rewrite Hid, Hfind, Hperm. simpl.
    unfold controller_updateReport. rewrite Huuid, Hbody. simpl.
    rewrite E. reflexivity.
  - reflexivity.
  - unfold data. simpl. now rewrite Hstatus.
  - exact Hfound.
  - intros Hdenied again n3 n4 Hu Hsame.
    unfold put_report, authorizeReportEdit. rewrite Hu, Hsame.
    apply String.eqb_neq in Hid. rewrite Hid, Hfound.
    assert (Hst : Report.status data = target)
      by (unfold data; simpl; now rewrite Hstatus).
    rewrite Hst, Hdenied. simpl. eauto.
Qed.

End StatusChangeFacts.

(** A reader marks the compliant report of the seed store as an immediate
    jeopardy, and is refused on the next update. *)
Lemma status_change_is_unchecked_witness :
  exists data s',
    put_report anyUuid
      (Request.mk (Some readerUser) (Report.id stMarys)
         (Some (statusOnly "immediate_jeopardy")) (JNum 1) None) 90 91 seedStore
    = (Return (ResUpdated data (String doubleQuote ("2" ++ String doubleQuote ""))
                 "Survey report updated successfully"), s') /\
    Report.status data = "immediate_jeopardy" /\
    exists error details,
      put_report anyUuid
        (Request.mk (Some readerUser) (Report.id stMarys) (Some followUpOnly)
           (JNum 2) None) 92 93 s'
      = (Return (Res403 error details), s').
Proof.
  destruct (status_change_is_unchecked anyUuid
              (Request.mk (Some readerUser) (Report.id stMarys)
                 (Some (statusOnly "immediate_jeopardy")) (JNum 1) None)
              readerUser (statusOnly "immediate_jeopardy") "immediate_jeopardy"
              stMarys 90 91 seedStore)
    as (data & s' & Hput & _ & Hst & _ & Hnext);
    try reflexivity; try discriminate.
  exists data, s'. split; [exact Hput|]. split; [exact Hst|].
  apply Hnext; reflexivity.
Defined.

(** * Properties of the user repository *)

Lemma findUserById_push (id : string) (users : Users) (old u : User.t) :
  findUserById id users = Some old -> findUserById id (createUser u users) = Some old.
Proof.
  unfold findUserById, createUser.
  induction users as [|x users IH]; simpl; intros H; [discriminate|].
  destruct (String.eqb (User.id x) id); [exact H | now apply IH].
Qed.

Lemma deleteUser_cons (id : string) (x : User.t) (users : Users) :
  deleteUser id (x :: users) =
    if String.eqb (User.id x) id then users else x :: deleteUser id users.
Proof.
  unfold deleteUser. simpl.
  destruct (String.eqb (User.id x) id); [reflexivity|].
  destruct (findIndexBy _ users); reflexivity.
Qed.

(** X27. The user store is searched from the front. [createUser] pushes
    without looking: a new user whose id is not stored is found under it,
    but one whose id is already stored is hidden by the older record.
    [deleteUser] leaves the store when the id is not stored; otherwise it
    removes exactly one record, the first with the id (the one a lookup
    found): the records before it, none of which has the id, and the
    records after it stay in their order. That makes the id unknown when
    the ids are distinct, and it never affects what another id finds. *)
Theorem user_store_lookup (u : User.t) (id : string) (users : Users) :
  (findUserById (User.id u) users = None ->
   findUserById (User.id u) (createUser u users) = Some u)
  /\
  (forall old,
     findUserById (User.id u) users = Some old ->
     findUserById (User.id u) (createUser u users) = Some old)
  /\
  (findUserById id users = None -> deleteUser id users = users)
  /\
  (forall found,
     findUserById id users = Some found ->
     exists before after,
       users = (before ++ found :: after)%list /\
       List.Forall (fun x => User.id x <> id) before /\
       deleteUser id users = (before ++ after)%list /\
       findUserById id (deleteUser id users) = findUserById id after)
  /\
  (NoDup (List.map User.id users) -> findUserById id (deleteUser id users) = None)
  /\
  (forall id', id' <> id ->
     findUserById id' (deleteUser id users) = findUserById id' users).
Proof.
  split; [|split; [|split; [|split; [|split]]]].
  - unfold findUserById, createUser.
    induction users as [|x users IH]; simpl; intros H.
    + now rewrite String.eqb_refl.
    + destruct (String.eqb (User.id x) (User.id u)); [discriminate | now apply IH].
  - intros old. apply findUserById_push.
  - unfold findUserById.
    induction users as [|x users IH]; [reflexivity|].
    rewrite deleteUser_cons. simpl.
    destruct (String.eqb (User.id x) id); [discriminate|].
    intros H. now rewrite IH.
  - unfold findUserById.
    induction users as [|x users IH]; [discriminate|].
    intros found. rewrite deleteUser_cons. simpl.
    destruct (String.eqb (User.id x) id) eqn:E.
    + intros H. injection H as <-. exists [], users. simpl.
      repeat split. constructor.
    + intros H. destruct (IH found H) as (before & after & Hu & Hb & Hd & Hf).
      exists (x :: before), after. simpl. rewrite E.
      split; [now rewrite Hu|].
      split; [constructor; [now apply String.eqb_neq | exact Hb]|].
      split; [now rewrite Hd | exact Hf].
  - unfold findUserById.
    induction users as [|x users IH]; [reflexivity|].
    rewrite deleteUser_cons. simpl. intros Hnd.
    inversion Hnd as [|? ? Hnotin Hnd']; subst.
    destruct (String.eqb (User.id x) id) eqn:E.
    + destruct (List.find _ users) as [y|] eqn:Hy; [|reflexivity].
      exfalso. apply Hnotin.
      apply List.find_some in Hy. destruct Hy as [Hin Hid].
      apply String.eqb_eq in E, Hid. rewrite E, <- Hid.
      apply list_elem_of_In. now apply List.in_map.
    + simpl. rewrite E. now apply IH.
  - intros id' Hne. unfold findUserById.
    induction users as [|x users IH]; [reflexivity|].
    rewrite deleteUser_cons. simpl.
    destruct (String.eqb (User.id x) id) eqn:E.
    + apply String.eqb_eq in E.
      assert (Hx : String.eqb (User.id x) id' = false)
        by (apply String.eqb_neq; congruence).
      now rewrite Hx.
    + simpl. destruct (String.eqb (User.id x) id'); [reflexivity | exact IH].
Qed.

(** A second record with Jane's id is not found; deleting John makes his id
    unknown; and of two records with Jane's id the first is the one
    deleted. *)
Lemma user_store_lookup_witness :
  let impostor := User.mk (User.id janeReader) "other@medlaunch.com" "Other"
                    UserRole.ADMIN "hash-other" 0 0 true in
  findUserById (User.id janeReader) (createUser impostor seedUsers)
    = Some janeReader /\
  findUserById (User.id johnEditor) (deleteUser (User.id johnEditor) seedUsers)
    = None /\
  deleteUser (User.id janeReader) (createUser impostor seedUsers)
    = [johnEditor; aliceAdmin; impostor].
Proof.
  intros impostor.
  destruct (user_store_lookup impostor (User.id johnEditor) seedUsers)
    as (_ & Hold & _ & _ & Hgone & _).
  destruct (user_store_lookup impostor (User.id janeReader)
              (createUser impostor seedUsers))
    as (_ & _ & _ & Hfirst & _).
  split; [|split].
  - apply Hold. reflexivity.
  - apply Hgone. repeat constructor; vm_compute; intros H;
      repeat (apply elem_of_cons in H; destruct H as [H | H]; [discriminate|]);
      now apply elem_of_nil in H.
  - destruct (Hfirst janeReader eq_refl) as (before & after & _ & _ & H & _).
    rewrite H. symmetry. exact H.
Defined.
